(** * action-lark-bot: a shallow embedding of [src/main.ts] and [src/lark.ts]

    The development follows the two source modules of the action:
    [lark.ts] (variable parsing, template rendering, body validation,
    signing and dispatch) and [main.ts] (the [run] entry point).

    Conventions of the embedding.
    - A JavaScript string is the list of its UTF-16 code units.
    - A JSON value is a closed tagged union; an object is the ordered list
      of its own properties, in the order [Object.keys] enumerates them.
    - A JSON number is kept as the exact decimal it denotes; rounding to
      binary64 is not modelled, and no statement below depends on it.
    - Code that can throw returns an [Outcome]; code with effects on the
      outside world (log, outputs, timers, network) returns the trace of
      the events it performs.
    - Platform functions ([JSON.parse], [String.prototype.trim],
      [parseInt], [createHmac], ...) are written out from their
      ECMAScript / Node.js definitions. *)

From Stdlib Require Import List ZArith NArith Bool String Ascii Lia.
From Stdlib Require Import DecimalPos DecimalN.
Import ListNotations.

Set Warnings "-register-all".

(* ================================================================== *)
(** * Strings *)

Definition codeunit := N.
Definition jsstring := list codeunit.

(** A string literal of the source, written in ASCII. *)
Definition lit (s : string) : jsstring :=
  map N_of_ascii (list_ascii_of_string s).

Definition DQUOTE : codeunit := 34%N.
Definition BACKSLASH : codeunit := 92%N.
Definition APOSTROPHE : codeunit := 39%N.

(** [jq] is [lit] with every apostrophe standing for a double quote, so
    that JSON texts can be written down legibly. *)
Definition jq (s : string) : jsstring :=
  map (fun c => if N.eqb c APOSTROPHE then DQUOTE else c) (lit s).

Fixpoint str_eqb (a b : jsstring) : bool :=
  match a, b with
  | [], [] => true
  | x :: a', y :: b' => N.eqb x y && str_eqb a' b'
  | _, _ => false
  end.

(** ECMAScript [LineTerminator]: LF, CR, LS, PS. *)
Definition isLineTerminator (c : codeunit) : bool :=
  N.eqb c 10 || N.eqb c 13 || N.eqb c 8232 || N.eqb c 8233.

(** ECMAScript [WhiteSpace] (TAB, VT, FF, SP, NBSP, ZWNBSP and the
    Unicode space separators). *)
Definition isWhiteSpaceOnly (c : codeunit) : bool :=
  N.eqb c 9 || N.eqb c 11 || N.eqb c 12 || N.eqb c 32 || N.eqb c 160
  || N.eqb c 5760 || (N.leb 8192 c && N.leb c 8202)
  || N.eqb c 8239 || N.eqb c 8287 || N.eqb c 12288 || N.eqb c 65279.

(** The class [\s] of regular expressions, which is also the set that
    [String.prototype.trim] strips: [WhiteSpace] and [LineTerminator]. *)
Definition isSpace (c : codeunit) : bool :=
  isWhiteSpaceOnly c || isLineTerminator c.

Fixpoint dropWhile {A} (p : A -> bool) (l : list A) : list A :=
  match l with
  | [] => []
  | x :: l' => if p x then dropWhile p l' else l
  end.

Definition trimStart (s : jsstring) : jsstring := dropWhile isSpace s.
Definition trimEnd (s : jsstring) : jsstring := rev (dropWhile isSpace (rev s)).
(** [String.prototype.trim]. *)
Definition trim (s : jsstring) : jsstring := trimEnd (trimStart s).

(** [String.prototype.slice(start, end)]: negative indices count from the
    end, both are clamped to the string, an empty span gives [""]. *)
Definition slice (s : jsstring) (start end_ : Z) : jsstring :=
  let len := Z.of_nat (List.length s) in
  let from := if (start <? 0)%Z then Z.max (len + start) 0 else Z.min start len in
  let to := if (end_ <? 0)%Z then Z.max (len + end_) 0 else Z.min end_ len in
  firstn (Z.to_nat (to - from)) (skipn (Z.to_nat from) s).

(** [String.prototype.startsWith]. *)
Fixpoint startsWith (s p : jsstring) : bool :=
  match p, s with
  | [], _ => true
  | y :: p', x :: s' => N.eqb x y && startsWith s' p'
  | _ :: _, [] => false
  end.

(** [s.includes(t)]: [t] occurs in [s] as a contiguous substring. *)
Definition includes (s t : jsstring) : Prop :=
  exists pre post, s = pre ++ t ++ post.

(** [input.split(/\r?\n/)]: cut at every LF, dropping a CR that stands
    directly before it.  [cur] is the piece being read, reversed. *)
Fixpoint split_lines_from (cur : jsstring) (s : jsstring) : list jsstring :=
  match s with
  | [] => [rev cur]
  | c :: s' =>
      if N.eqb c 10 then rev cur :: split_lines_from [] s'
      else if N.eqb c 13 then
        match s' with
        | d :: s'' =>
            if N.eqb d 10 then rev cur :: split_lines_from [] s''
            else split_lines_from (c :: cur) s'
        | [] => split_lines_from (c :: cur) s'
        end
      else split_lines_from (c :: cur) s'
  end.

Definition split_lines (s : jsstring) : list jsstring := split_lines_from [] s.

(** ** Decimal digits *)

Definition isDigit (c : codeunit) : bool := N.leb 48 c && N.leb c 57.

Definition digit_unit (d : N) : codeunit := (48 + d)%N.

Fixpoint uint_units (d : Decimal.uint) : jsstring :=
  match d with
  | Decimal.Nil => []
  | Decimal.D0 d => digit_unit 0 :: uint_units d
  | Decimal.D1 d => digit_unit 1 :: uint_units d
  | Decimal.D2 d => digit_unit 2 :: uint_units d
  | Decimal.D3 d => digit_unit 3 :: uint_units d
  | Decimal.D4 d => digit_unit 4 :: uint_units d
  | Decimal.D5 d => digit_unit 5 :: uint_units d
  | Decimal.D6 d => digit_unit 6 :: uint_units d
  | Decimal.D7 d => digit_unit 7 :: uint_units d
  | Decimal.D8 d => digit_unit 8 :: uint_units d
  | Decimal.D9 d => digit_unit 9 :: uint_units d
  end.

(** The decimal numeral of a natural number, without leading zeros. *)
Definition decimal_of_N (n : N) : jsstring := uint_units (N.to_uint n).

(** [String(n)] for an integer-valued number [n]: the decimal numeral,
    with a minus sign when negative.  (ECMAScript prints integers below
    1e21 in magnitude this way.) *)
Definition decimal_of_Z (z : Z) : jsstring :=
  match z with
  | Z0 => decimal_of_N 0
  | Zpos p => decimal_of_N (Npos p)
  | Zneg p => 45%N :: decimal_of_N (Npos p)
  end.

(** The value of a run of decimal digits, most significant first. *)
Fixpoint digits_value (acc : N) (s : jsstring) : N :=
  match s with
  | [] => acc
  | c :: s' => digits_value (10 * acc + (c - 48))%N s'
  end.

(** The longest prefix of [s] made of digits, and what follows it. *)
Fixpoint span_digits (s : jsstring) : jsstring * jsstring :=
  match s with
  | [] => ([], [])
  | c :: s' =>
      if isDigit c then let (d, r) := span_digits s' in (c :: d, r)
      else ([], s)
  end.

(* ================================================================== *)
(** * Exceptions *)

Inductive ErrorClass := ClsError | ClsTypeError | ClsSyntaxError | ClsAbortError.

(** A thrown value.  Every exception of this program is an instance of
    [Error] and carries a [message]. *)
Record exn := mkExn { exn_class : ErrorClass; message : jsstring }.

Inductive Outcome (A : Type) : Type :=
| Ok (a : A)
| Throw (e : exn).
Arguments Ok {A} a.
Arguments Throw {A} e.

Definition bind {A B} (m : Outcome A) (k : A -> Outcome B) : Outcome B :=
  match m with
  | Ok a => k a
  | Throw e => Throw e
  end.

Notation "x <- m ;; k" := (bind m (fun x => k))
  (at level 61, m at next level, right associativity).

(* ================================================================== *)
(** * JSON values *)

(** A number: [Fin neg m e] denotes [(-1)^neg * m * 10^e], kept in the
    normal form where [m] has no trailing decimal zero ([m = 0] goes with
    [e = 0]); [Inf neg] is plus or minus infinity.  NaN is not a JSON
    value; functions that can return it return an [option]. *)
Inductive JSNumber :=
| Fin (neg : bool) (m : N) (e : Z)
| Inf (neg : bool).

Inductive JSONValue :=
| JNull
| JBool (b : bool)
| JNumber (n : JSNumber)
| JString (s : jsstring)
| JArray (items : list JSONValue)
| JObject (props : list (jsstring * JSONValue)).

(** The own enumerable properties of a plain object, in enumeration
    order.  (The type [JSONObject] of the source.) *)
Definition JSONObject := list (jsstring * JSONValue).

(** ** Numbers from and to text *)

(** [digits] with its trailing zeros removed, and how many there were. *)
Definition strip_trailing_zeros (digits : jsstring) : jsstring * nat :=
  let r := dropWhile (N.eqb 48) (rev digits) in
  (rev r, (List.length digits - List.length r)%nat).

(** The number written with integer digits [i], fraction digits [f] and
    decimal exponent [x], kept as the decimal number that the text
    denotes.  JavaScript holds the binary64 number nearest to it, which
    is the same number as far as reading and printing go when the text
    has at most 15 significant digits and a magnitude between [1e-301]
    and [1e300]; see [exact_number] below. *)
Definition make_number (neg : bool) (i f : jsstring) (x : Z) : JSNumber :=
  let (d, z) := strip_trailing_zeros (i ++ f) in
  let m := digits_value 0 d in
  if N.eqb m 0 then Fin neg 0 0
  else Fin neg m (x - Z.of_nat (List.length f) + Z.of_nat z).

Definition zeros (n : Z) : jsstring := repeat 48%N (Z.to_nat n).

(** [Number::toString] (radix 10) from the digits [s] of the number and
    the position [n] of its decimal point. *)
Definition NumberToString (x : JSNumber) : jsstring :=
  match x with
  | Inf false => lit "Infinity"
  | Inf true => lit "-Infinity"
  | Fin neg m e =>
      if N.eqb m 0 then lit "0"
      else
        let s := decimal_of_N m in
        let k := Z.of_nat (List.length s) in
        let n := (k + e)%Z in
        let body :=
          if ((k <=? n) && (n <=? 21))%Z then s ++ zeros (n - k)
          else if ((0 <? n) && (n <=? 21))%Z then
            firstn (Z.to_nat n) s ++ lit "." ++ skipn (Z.to_nat n) s
          else if ((-6 <? n) && (n <=? 0))%Z then
            lit "0." ++ zeros (- n) ++ s
          else
            let x := (n - 1)%Z in
            let sg := if (x <? 0)%Z then lit "-" else lit "+" in
            let ex := lit "e" ++ sg ++ decimal_of_N (Z.abs_N x) in
            match s with
            | [d] => d :: ex
            | d :: ds => d :: lit "." ++ ds ++ ex
            | [] => ex
            end in
        if neg then lit "-" ++ body else body
  end.

Definition isHexDigit (c : codeunit) : bool :=
  isDigit c || (N.leb 65 c && N.leb c 70) || (N.leb 97 c && N.leb c 102).

Definition hex_value (c : codeunit) : N :=
  if isDigit c then c - 48
  else if N.leb 97 c then c - 87
  else c - 55.

(** An optional exponent part [e/E, sign, digits] that must reach the end
    of the text: [Some 0] when absent. *)
Definition exponent_part (s : jsstring) : option Z :=
  match s with
  | [] => Some 0%Z
  | c :: r =>
      if N.eqb c 101 || N.eqb c 69 then
        let '(eneg, r1) :=
          match r with
          | 43%N :: r' => (false, r')
          | 45%N :: r' => (true, r')
          | _ => (false, r)
          end in
        let (x, r2) := span_digits r1 in
        match x, r2 with
        | _ :: _, [] =>
            let v := Z.of_N (digits_value 0 x) in
            Some (if eneg then (- v)%Z else v)
        | _, _ => None
        end
      else None
  end.

(** The JSON grammar of a number, applied to a whole text: an optional
    minus sign; an integer part that is [0] or starts with a non-zero
    digit; optionally a point and one or more digits; optionally an
    exponent. *)
Definition number_literal (s : jsstring) : option JSNumber :=
  let '(neg, s1) :=
    match s with
    | 45%N :: r => (true, r)
    | _ => (false, s)
    end in
  let (i, s2) := span_digits s1 in
  match i with
  | [] => None
  | 48%N :: _ :: _ => None
  | _ =>
      let fr :=
        match s2 with
        | 46%N :: r =>
            let (f, s3) := span_digits r in
            match f with
            | [] => None
            | _ => Some (f, s3)
            end
        | _ => Some ([], s2)
        end in
      match fr with
      | None => None
      | Some (f, s3) =>
          match exponent_part s3 with
          | Some x => Some (make_number neg i f x)
          | None => None
          end
      end
  end.

(** An integer written in radix 16, 8 or 2: digits only, at least one. *)
Definition radix_literal (isd : codeunit -> bool) (radix : N) (s : jsstring)
  : option JSNumber :=
  match s with
  | [] => None
  | _ =>
      if forallb isd s then
        let v := fold_left (fun acc c => (radix * acc + hex_value c)%N) s 0%N in
        Some (make_number false (decimal_of_N v) [] 0)
      else None
  end.

(** [StrDecimalLiteral] of [StringToNumber]: a sign, then [Infinity] or
    digits with an optional point and exponent ([1.], [.5] and [1.e3] are
    allowed, unlike in JSON). *)
Definition str_decimal_literal (t : jsstring) : option JSNumber :=
  let '(neg, s1) :=
    match t with
    | 43%N :: r => (false, r)
    | 45%N :: r => (true, r)
    | _ => (false, t)
    end in
  if str_eqb s1 (lit "Infinity") then Some (Inf neg)
  else
    let (i, s2) := span_digits s1 in
    let '(f, s3) :=
      match s2 with
      | 46%N :: r => span_digits r
      | _ => ([], s2)
      end in
    match i ++ f with
    | [] => None
    | _ =>
        match exponent_part s3 with
        | Some x => Some (make_number neg i f x)
        | None => None
        end
    end.

(** [Number(s)], that is [StringToNumber]: [None] is NaN. *)
Definition Number_ (s : jsstring) : option JSNumber :=
  let t := trim s in
  match t with
  | [] => Some (Fin false 0 0)
  | 48%N :: p :: r =>
      if N.eqb p 120 || N.eqb p 88 then radix_literal isHexDigit 16 r
      else if N.eqb p 111 || N.eqb p 79 then
        radix_literal (fun c => N.leb 48 c && N.leb c 55) 8 r
      else if N.eqb p 98 || N.eqb p 66 then
        radix_literal (fun c => N.leb 48 c && N.leb c 49) 2 r
      else str_decimal_literal t
  | _ => str_decimal_literal t
  end.

(** [parseInt(s, 10)]: leading white space, a sign, then the longest run
    of decimal digits; [None] is NaN.  The result is the integer read;
    JavaScript rounds it to binary64, which changes nothing up to 2^53. *)
Definition parseInt10 (s : jsstring) : option Z :=
  let t := trimStart s in
  let '(neg, t1) :=
    match t with
    | 43%N :: r => (false, r)
    | 45%N :: r => (true, r)
    | _ => (false, t)
    end in
  let (d, _) := span_digits t1 in
  match d with
  | [] => None
  | _ =>
      let v := Z.of_N (digits_value 0 d) in
      Some (if neg then (- v)%Z else v)
  end.

(** ** Objects *)

(** [Some i] when [k] is an array index: the canonical decimal numeral
    of an integer below [2^32 - 1]. *)
Definition array_index (k : jsstring) : option N :=
  match k with
  | [] => None
  | c :: r =>
      if forallb isDigit k then
        if N.eqb c 48 && negb (match r with [] => true | _ => false end)
        then None
        else
          let v := digits_value 0 k in
          if N.ltb v 4294967295 then Some v else None
      else None
  end.

Fixpoint obj_has (o : JSONObject) (k : jsstring) : bool :=
  match o with
  | [] => false
  | (k', _) :: o' => str_eqb k' k || obj_has o' k
  end.

(** [o[k]] restricted to own properties. *)
Fixpoint obj_get (o : JSONObject) (k : jsstring) : option JSONValue :=
  match o with
  | [] => None
  | (k', v) :: o' => if str_eqb k' k then Some v else obj_get o' k
  end.

Fixpoint obj_replace (o : JSONObject) (k : jsstring) (v : JSONValue)
  : JSONObject :=
  match o with
  | [] => []
  | (k', v') :: o' =>
      if str_eqb k' k then (k', v) :: o' else (k', v') :: obj_replace o' k v
  end.

(** Insertion of a new integer-indexed property: integer keys are
    enumerated first, in ascending order. *)
Fixpoint obj_insert_index (o : JSONObject) (i : N) (k : jsstring)
  (v : JSONValue) : JSONObject :=
  match o with
  | [] => [(k, v)]
  | (k', v') :: o' =>
      match array_index k' with
      | Some j =>
          if N.ltb j i then (k', v') :: obj_insert_index o' i k v
          else (k, v) :: o
      | None => (k, v) :: o
      end
  end.

(** [CreateDataProperty(o, k, v)]: an existing property keeps its place
    and takes the new value; a new one is enumerated after the existing
    ones of its kind. *)
Definition obj_put (o : JSONObject) (k : jsstring) (v : JSONValue)
  : JSONObject :=
  if obj_has o k then obj_replace o k v
  else
    match array_index k with
    | Some i => obj_insert_index o i k v
    | None => o ++ [(k, v)]
    end.

(** The assignment [o[k] = v] on a plain object, as to the own
    properties of [o].  It differs from [obj_put] at the key
    [__proto__], which is an accessor inherited from [Object.prototype]:
    the assignment then creates no own property.  The prototype of [o]
    is not part of the model.  The accessor ignores a value that is not
    an object or [null], and replaces the prototype by one that is; once
    the prototype is [null], or an object with a property [__proto__] of
    its own, the accessor is out of reach and a later assignment to
    [__proto__] creates an own property, which [obj_assign] does not
    follow.  What is stated on single lines of the variables is stated
    for keys other than [__proto__]. *)
Definition obj_assign (o : JSONObject) (k : jsstring) (v : JSONValue)
  : JSONObject :=
  if str_eqb k (lit "__proto__") then o else obj_put o k v.

(** ** Serialization *)

Definition hex_digit (n : N) : codeunit :=
  if N.ltb n 10 then (48 + n)%N else (87 + n)%N.

(** [UnicodeEscape]: a backslash, [u] and four lower-case hex digits. *)
Definition UnicodeEscape (c : codeunit) : jsstring :=
  [BACKSLASH; 117%N;
   hex_digit (N.modulo (N.div c 4096) 16);
   hex_digit (N.modulo (N.div c 256) 16);
   hex_digit (N.modulo (N.div c 16) 16);
   hex_digit (N.modulo c 16)].

Definition isHighSurrogate (c : codeunit) : bool := N.leb 55296 c && N.leb c 56319.
Definition isLowSurrogate (c : codeunit) : bool := N.leb 56320 c && N.leb c 57343.

(** The two-character escapes of [QuoteJSONString]. *)
Definition short_escape (c : codeunit) : option codeunit :=
  if N.eqb c 8 then Some 98%N
  else if N.eqb c 9 then Some 116%N
  else if N.eqb c 10 then Some 110%N
  else if N.eqb c 12 then Some 102%N
  else if N.eqb c 13 then Some 114%N
  else if N.eqb c DQUOTE then Some DQUOTE
  else if N.eqb c BACKSLASH then Some BACKSLASH
  else None.

(** The characters [QuoteJSONString] puts between the two quotes.  The
    string is read code point by code point: a surrogate pair is copied,
    a lone surrogate and a control character are escaped. *)
Fixpoint quote_contents (s : jsstring) : jsstring :=
  match s with
  | [] => []
  | c :: s' =>
      match short_escape c with
      | Some e => BACKSLASH :: e :: quote_contents s'
      | None =>
          if N.ltb c 32 then UnicodeEscape c ++ quote_contents s'
          else if isHighSurrogate c then
            match s' with
            | d :: s'' =>
                if isLowSurrogate d then c :: d :: quote_contents s''
                else UnicodeEscape c ++ quote_contents s'
            | [] => UnicodeEscape c ++ quote_contents s'
            end
          else if isLowSurrogate c then UnicodeEscape c ++ quote_contents s'
          else c :: quote_contents s'
      end
  end.

Definition QuoteJSONString (s : jsstring) : jsstring :=
  DQUOTE :: quote_contents s ++ [DQUOTE].

Fixpoint join (sep : jsstring) (l : list jsstring) : jsstring :=
  match l with
  | [] => []
  | [x] => x
  | x :: l' => x ++ sep ++ join sep l'
  end.

Module JSON.

(** [JSON.stringify(v)] for a JSON value [v] (no replacer, no indent). *)
Fixpoint stringify_value (v : JSONValue) : jsstring :=
  match v with
  | JNull => lit "null"
  | JBool true => lit "true"
  | JBool false => lit "false"
  | JNumber (Inf _) => lit "null"
  | JNumber n => NumberToString n
  | JString s => QuoteJSONString s
  | JArray items => lit "[" ++ join (lit ",") (map stringify_value items) ++ lit "]"
  | JObject props =>
      lit "{"
      ++ join (lit ",")
           (map (fun kv => match kv with
                           | (k, x) => QuoteJSONString k ++ lit ":" ++ stringify_value x
                           end) props)
      ++ lit "}"
  end.

(** [JSON.stringify] on an argument that may be [undefined] ([None]):
    the result is then [undefined] as well. *)
Definition stringify (v : option JSONValue) : option jsstring :=
  option_map stringify_value v.

(** *** Parsing

    [JSON.parse] is written as a lexer followed by a pushdown automaton
    over the tokens, so that both are structurally recursive and total.
    Every token carries the offset at which it starts. *)

Inductive token :=
| TLBrace | TRBrace | TLBrack | TRBrack | TColon | TComma
| TStr (s : jsstring)
| TNum (n : JSNumber)
| TTrue | TFalse | TNull
| TBad (at_end : bool).

Inductive mode :=
| Main
| InString (start : N) (acc : jsstring)
| InNumber (start : N) (acc : jsstring).

(** JSON white space: TAB, LF, CR, SP. *)
Definition isJSONSpace (c : codeunit) : bool :=
  N.eqb c 9 || N.eqb c 10 || N.eqb c 13 || N.eqb c 32.

Definition isNumberChar (c : codeunit) : bool :=
  isDigit c || N.eqb c 43 || N.eqb c 45 || N.eqb c 46 || N.eqb c 101 || N.eqb c 69.

Definition number_token (start : N) (text : jsstring) : N * token :=
  match number_literal text with
  | Some n => (start, TNum n)
  | None => (start, TBad false)
  end.

(** The character denoted by a one-letter escape, if it is one. *)
Definition unescape (e : codeunit) : option codeunit :=
  if N.eqb e DQUOTE then Some DQUOTE
  else if N.eqb e BACKSLASH then Some BACKSLASH
  else if N.eqb e 47 then Some 47%N
  else if N.eqb e 98 then Some 8%N
  else if N.eqb e 102 then Some 12%N
  else if N.eqb e 110 then Some 10%N
  else if N.eqb e 114 then Some 13%N
  else if N.eqb e 116 then Some 9%N
  else None.

Definition hex4 (a b c d : codeunit) : option codeunit :=
  if isHexDigit a && isHexDigit b && isHexDigit c && isHexDigit d
  then Some (4096 * hex_value a + 256 * hex_value b + 16 * hex_value c + hex_value d)%N
  else None.

Fixpoint lex (m : mode) (pos : N) (s : jsstring) {struct s} : list (N * token) :=
  match s with
  | [] =>
      match m with
      | Main => []
      | InString _ _ => [(pos, TBad true)]
      | InNumber start acc => [number_token start (rev acc)]
      end
  | c :: s' =>
      let main :=
        if isJSONSpace c then lex Main (pos + 1) s'
        else if N.eqb c 123 then (pos, TLBrace) :: lex Main (pos + 1) s'
        else if N.eqb c 125 then (pos, TRBrace) :: lex Main (pos + 1) s'
        else if N.eqb c 91 then (pos, TLBrack) :: lex Main (pos + 1) s'
        else if N.eqb c 93 then (pos, TRBrack) :: lex Main (pos + 1) s'
        else if N.eqb c 58 then (pos, TColon) :: lex Main (pos + 1) s'
        else if N.eqb c 44 then (pos, TComma) :: lex Main (pos + 1) s'
        else if N.eqb c DQUOTE then lex (InString pos []) (pos + 1) s'
        else if isDigit c || N.eqb c 45 then lex (InNumber pos [c]) (pos + 1) s'
        else if N.eqb c 116 then
          match s' with
          | r :: u :: e :: s'' =>
              if N.eqb r 114 && N.eqb u 117 && N.eqb e 101
              then (pos, TTrue) :: lex Main (pos + 4) s''
              else [(pos, TBad false)]
          | _ => [(pos, TBad false)]
          end
        else if N.eqb c 102 then
          match s' with
          | a :: l :: z :: e :: s'' =>
              if N.eqb a 97 && N.eqb l 108 && N.eqb z 115 && N.eqb e 101
              then (pos, TFalse) :: lex Main (pos + 5) s''
              else [(pos, TBad false)]
          | _ => [(pos, TBad false)]
          end
        else if N.eqb c 110 then
          match s' with
          | u :: l :: z :: s'' =>
              if N.eqb u 117 && N.eqb l 108 && N.eqb z 108
              then (pos, TNull) :: lex Main (pos + 4) s''
              else [(pos, TBad false)]
          | _ => [(pos, TBad false)]
          end
        else [(pos, TBad false)] in
      match m with
      | Main => main
      | InNumber start acc =>
          if isNumberChar c then lex (InNumber start (c :: acc)) (pos + 1) s'
          else number_token start (rev acc) :: main
      | InString start acc =>
          if N.eqb c DQUOTE then (start, TStr (rev acc)) :: lex Main (pos + 1) s'
          else if N.eqb c BACKSLASH then
            match s' with
            | [] => [((pos + 1)%N, TBad true)]
            | e :: s'' =>
                match unescape e with
                | Some x => lex (InString start (x :: acc)) (pos + 2) s''
                | None =>
                    if N.eqb e 117 then
                      match s'' with
                      | h1 :: h2 :: h3 :: h4 :: s5 =>
                          match hex4 h1 h2 h3 h4 with
                          | Some x => lex (InString start (x :: acc)) (pos + 6) s5
                          | None => [(pos, TBad false)]
                          end
                      | _ => [(pos, TBad true)]
                      end
                    else [(pos, TBad false)]
                end
            end
          else if N.ltb c 32 then [(pos, TBad false)]
          else lex (InString start (c :: acc)) (pos + 1) s'
      end
  end.

(** A container under construction. *)
Inductive frame :=
| FArr (items_rev : list JSONValue)
| FObj (props : JSONObject)
| FObjKey (props : JSONObject) (key : jsstring).

(** What the grammar allows next. *)
Inductive pstate :=
| PValue | PArrFirst | PArrNext
| PObjFirst | PObjKey | PColon | PObjNext
| PDone (v : JSONValue).

Inductive SyntaxErrorKind :=
| UnexpectedEnd
| UnexpectedToken (pos : N).

(** A value is complete: hand it to the container that waits for it. *)
Definition deliver (v : JSONValue) (stack : list frame)
  : option (pstate * list frame) :=
  match stack with
  | [] => Some (PDone v, [])
  | FArr items :: st => Some (PArrNext, FArr (v :: items) :: st)
  | FObjKey props k :: st => Some (PObjNext, FObj (obj_put props k v) :: st)
  | FObj _ :: _ => None
  end.

Definition start_value (t : token) (stack : list frame)
  : option (pstate * list frame) :=
  match t with
  | TLBrace => Some (PObjFirst, FObj [] :: stack)
  | TLBrack => Some (PArrFirst, FArr [] :: stack)
  | TStr s => deliver (JString s) stack
  | TNum n => deliver (JNumber n) stack
  | TTrue => deliver (JBool true) stack
  | TFalse => deliver (JBool false) stack
  | TNull => deliver JNull stack
  | _ => None
  end.

Definition close_array (stack : list frame) : option (pstate * list frame) :=
  match stack with
  | FArr items :: st => deliver (JArray (rev items)) st
  | _ => None
  end.

Definition close_object (stack : list frame) : option (pstate * list frame) :=
  match stack with
  | FObj props :: st => deliver (JObject props) st
  | _ => None
  end.

Definition read_key (t : token) (stack : list frame)
  : option (pstate * list frame) :=
  match t, stack with
  | TStr k, FObj props :: st => Some (PColon, FObjKey props k :: st)
  | _, _ => None
  end.

Definition step (p : pstate) (stack : list frame) (t : token)
  : option (pstate * list frame) :=
  match p with
  | PValue => start_value t stack
  | PArrFirst =>
      match t with
      | TRBrack => close_array stack
      | _ => start_value t stack
      end
  | PArrNext =>
      match t with
      | TComma => Some (PValue, stack)
      | TRBrack => close_array stack
      | _ => None
      end
  | PObjFirst =>
      match t with
      | TRBrace => close_object stack
      | _ => read_key t stack
      end
  | PObjKey => read_key t stack
  | PColon =>
      match t with
      | TColon => Some (PValue, stack)
      | _ => None
      end
  | PObjNext =>
      match t with
      | TComma => Some (PObjKey, stack)
      | TRBrace => close_object stack
      | _ => None
      end
  | PDone _ => None
  end.

Fixpoint automaton (p : pstate) (stack : list frame) (ts : list (N * token))
  : JSONValue + SyntaxErrorKind :=
  match ts with
  | [] =>
      match p with
      | PDone v => inl v
      | _ => inr UnexpectedEnd
      end
  | (pos, TBad true) :: _ => inr UnexpectedEnd
  | (pos, t) :: ts' =>
      match step p stack t with
      | Some (p', stack') => automaton p' stack' ts'
      | None => inr (UnexpectedToken pos)
      end
  end.

(** The [message] of the [SyntaxError].  Its wording belongs to the
    JavaScript engine; only its presence matters below. *)
Definition describe (e : SyntaxErrorKind) : jsstring :=
  match e with
  | UnexpectedEnd => lit "Unexpected end of JSON input"
  | UnexpectedToken pos =>
      lit "Unexpected token in JSON at position " ++ decimal_of_N pos
  end.

(** [JSON.parse(text)] (no reviver). *)
Definition parse (text : jsstring) : Outcome JSONValue :=
  match automaton PValue [] (lex Main 0 text) with
  | inl v => Ok v
  | inr e => Throw (mkExn ClsSyntaxError (describe e))
  end.

End JSON.

(** ** The dynamic tests of the source on JSON values *)

(** [v] used as a condition: [null], [false], [0], [-0] and [""] are falsy. *)
Definition truthy (v : JSONValue) : bool :=
  match v with
  | JNull => false
  | JBool b => b
  | JNumber (Fin _ m _) => negb (N.eqb m 0)
  | JNumber (Inf _) => true
  | JString s => match s with [] => false | _ => true end
  | JArray _ => true
  | JObject _ => true
  end.

(** [typeof v === 'object']: true of objects, arrays and [null]. *)
Definition typeof_object (v : JSONValue) : bool :=
  match v with
  | JNull | JArray _ | JObject _ => true
  | _ => false
  end.

Definition Array_isArray (v : JSONValue) : bool :=
  match v with
  | JArray _ => true
  | _ => false
  end.

(* ================================================================== *)
(** * lark.ts: variables *)

(** The test [/^-?\d+(?:\.\d+)?$/.test(raw)]. *)
Definition looks_numeric (raw : jsstring) : bool :=
  let s1 := match raw with
            | c :: r => if N.eqb c 45 then r else raw
            | [] => raw
            end in
  let (i, s2) := span_digits s1 in
  match i with
  | [] => false
  | _ =>
      match s2 with
      | [] => true
      | c :: r =>
          if N.eqb c 46 then
            let (f, s3) := span_digits r in
            match f, s3 with
            | _ :: _, [] => true
            | _, _ => false
            end
          else false
      end
  end.

Definition coerceValue (raw : jsstring) : JSONValue :=
  if str_eqb raw (lit "true") then JBool true
  else if str_eqb raw (lit "false") then JBool false
  else if str_eqb raw (lit "null") then JNull
  else
    let fallback :=
      match JSON.parse raw with
      | Ok v => v
      | Throw _ => JString raw
      end in
    match Number_ raw with
    | Some n => if looks_numeric raw then JNumber n else fallback
    | None => fallback
    end.

Definition isSeparator (c : codeunit) : bool := N.eqb c 61 || N.eqb c 58.

(** The regular expression [re] of [parseVariables] is, anchored at both
    ends: a lazy group of any characters (the key), white space, a group
    holding one separator [=] or [:], white space, a greedy group of any
    characters (the raw value).  "Any character" excludes the line
    terminators, and white space is the class [\s].

    [match_after_key] is what follows the key group: white space, a
    separator, white space, and a remainder without line terminators
    that reaches the end of the input.  Both runs of white space are
    greedy; giving a space back can never help, because a space is not a
    separator and the remainder must be free of line terminators either
    way. *)
Definition match_after_key (s : jsstring) : option (codeunit * jsstring) :=
  match dropWhile isSpace s with
  | [] => None
  | c :: r =>
      if isSeparator c then
        let t := dropWhile isSpace r in
        if forallb (fun x => negb (isLineTerminator x)) t then Some (c, t)
        else None
      else None
  end.

(** [re.exec(line)]: the groups [(m[1], m[2], m[3])], or [None] for
    [null].  The key group is lazy:
    the shortest prefix without line terminators after which the rest of
    the pattern matches.  [key_rev] is the prefix tried so far. *)
Fixpoint re_exec_from (key_rev : jsstring) (s : jsstring)
  : option (jsstring * codeunit * jsstring) :=
  match match_after_key s with
  | Some (sep, t) => Some (rev key_rev, sep, t)
  | None =>
      match s with
      | [] => None
      | c :: s' =>
          if isLineTerminator c then None else re_exec_from (c :: key_rev) s'
      end
  end.

Definition re_exec (line : jsstring) : option (jsstring * codeunit * jsstring) :=
  re_exec_from [] line.

(** The lines kept by [.map(l => l.trim()).filter(l => l && !l.startsWith('#'))]. *)
Definition kv_lines (input : jsstring) : list jsstring :=
  filter (fun l => match l with [] => false | _ => true end
                   && negb (startsWith l (lit "#")))
    (map trim (split_lines input)).

(** One turn of the [for] loop of [parseVariables]. *)
Definition kv_step (vars : JSONObject) (line : jsstring) : JSONObject :=
  match re_exec line with
  | None => vars
  | Some (m1, _, m3) =>
      let key := trim m1 in
      let raw := trim m3 in
      obj_assign vars key (coerceValue raw)
  end.

Definition parseVariables (input : option jsstring) : JSONObject :=
  match input with
  | None => []
  | Some input =>
      if match input with [] => true | _ => false end
         || str_eqb (trim input) []
      then []
      else
        let from_json :=
          match JSON.parse input with
          | Ok obj =>
              if truthy obj && typeof_object obj && negb (Array_isArray obj)
              then match obj with
                   | JObject o => Some o
                   | _ => None
                   end
              else None
          | Throw _ => None
          end in
        match from_json with
        | Some o => o
        | None => fold_left kv_step (kv_lines input) []
        end
  end.

(* ================================================================== *)
(** * Numbers that the model holds exactly

    A JavaScript number is a binary64 floating-point number; the model
    keeps the decimal number that a text denotes.  The two determine each
    other for decimal numbers of at most 15 significant digits whose
    magnitude lies between [1e-301] and [1e300], and for zero: there the
    number read from a text, and the text printed for a number, are as
    in JavaScript.  Outside this range JavaScript rounds, or gives
    [Infinity] or zero, and the model does not follow it; statements on
    the values of numbers are made within the range. *)

Definition exact_number (n : JSNumber) : bool :=
  match n with
  | Inf _ => true
  | Fin _ m e =>
      N.eqb m 0
      || (Nat.leb (List.length (decimal_of_N m)) 15
          && (-300 <=? Z.of_nat (List.length (decimal_of_N m)) + e)%Z
          && (Z.of_nat (List.length (decimal_of_N m)) + e <=? 300)%Z)
  end.

(** A value all of whose numbers are exact. *)
Fixpoint exact_value (v : JSONValue) : bool :=
  match v with
  | JNull | JBool _ | JString _ => true
  | JNumber n => exact_number n
  | JArray items => forallb exact_value items
  | JObject props =>
      forallb (fun kv => match kv with (_, x) => exact_value x end) props
  end.

(* ================================================================== *)
(** * Handlebars *)

Module Handlebars.

(** [new h.SafeString(x)]: [x] is kept as given, and may be [undefined]. *)
Record SafeString := mkSafeString { string_ : option jsstring }.

(** [SafeString.prototype.toString], that is ['' + this.string]. *)
Definition toString (x : SafeString) : jsstring :=
  match string_ x with
  | Some s => s
  | None => lit "undefined"
  end.

(** A helper of one argument; the argument is [None] when the path
    given to the helper resolves to [undefined]. *)
Definition Helper := option JSONValue -> Outcome SafeString.
Definition Helpers := list (jsstring * Helper).

(** [h.compile(template, { noEscape: true })] for an environment [h] in
    which [helpers] were registered: the compiled template, a function
    of the context that returns the rendered text or throws. *)
Definition Engine := Helpers -> jsstring -> JSONObject -> Outcome jsstring.

(** ** The fragment of the template language used by the action

    Handlebars itself is a dependency of the repository.  What follows
    transcribes the part of it that the statements on [jstr] and [json]
    need: literal text, [{{name}}] and [{{helper name}}], rendered with
    [noEscape].  On every other template the fragment answers [None]
    and nothing is said.  Left out in particular: a mustache followed
    by a third closing brace (the lexer reads [}}}] as the end of an
    unescaped mustache, and the parser refuses it), two plain mustaches
    that follow each other directly (their values may be added as
    numbers), the names of [Object.prototype], and values whose numbers
    the model does not hold exactly.  Names are looked up among the own
    properties of the context, as the engine does from version 4.6
    on. *)

Inductive segment :=
| Content (text : jsstring)
| Mustache (name : jsstring)
| HelperCall (helper name : jsstring).

Inductive smode :=
| SContent (acc : jsstring)
| SOpen
| SId1 (acc : jsstring)
| SGap1 (id1 : jsstring)
| SId2 (id1 acc : jsstring)
| SGap2 (id1 id2 : jsstring).

Definition isIdStart (c : codeunit) : bool :=
  (N.leb 65 c && N.leb c 90) || (N.leb 97 c && N.leb c 122) || N.eqb c 95.

Definition isIdChar (c : codeunit) : bool := isIdStart c || isDigit c.

Definition LBRACE : codeunit := 123%N.
Definition RBRACE : codeunit := 125%N.

(** The names that [Object.prototype] defines.  What the engine makes
    of them has changed from version to version, so that they are left
    out of the fragment. *)
Definition prototype_names : list jsstring :=
  [lit "constructor"; lit "hasOwnProperty"; lit "isPrototypeOf";
   lit "propertyIsEnumerable"; lit "toLocaleString"; lit "toString";
   lit "valueOf"; lit "__defineGetter__"; lit "__defineSetter__";
   lit "__lookupGetter__"; lit "__lookupSetter__"; lit "__proto__"].

(** Identifiers that the Handlebars lexer does not read as plain
    identifiers: the literals, [this], and anything that starts with
    [else] right after the opening braces. *)
Definition plain_first_id (id : jsstring) : bool :=
  negb (str_eqb id (lit "true") || str_eqb id (lit "false")
        || str_eqb id (lit "null") || str_eqb id (lit "undefined")
        || str_eqb id (lit "this") || startsWith id (lit "else")
        || existsb (str_eqb id) prototype_names).

Definition plain_id (id : jsstring) : bool :=
  negb (str_eqb id (lit "true") || str_eqb id (lit "false")
        || str_eqb id (lit "null") || str_eqb id (lit "undefined")
        || str_eqb id (lit "this")
        || existsb (str_eqb id) prototype_names).

Definition content_segment (acc : jsstring) (rest : list segment) : list segment :=
  match acc with
  | [] => rest
  | _ => Content (rev acc) :: rest
  end.

Definition close1 (id1 : jsstring) (rest : option (list segment))
  : option (list segment) :=
  if plain_first_id id1 then option_map (cons (Mustache id1)) rest else None.

Definition close2 (id1 id2 : jsstring) (rest : option (list segment))
  : option (list segment) :=
  if plain_first_id id1 && plain_id id2
  then option_map (cons (HelperCall id1 id2)) rest
  else None.

(** The template, cut into content and mustaches. *)
Fixpoint scan (m : smode) (s : jsstring) {struct s} : option (list segment) :=
  match s with
  | [] =>
      match m with
      | SContent acc => Some (content_segment acc [])
      | _ => None
      end
  | c :: s' =>
      (* the two closing braces, when [c] is the first of them; three
         closing braces in a row close an unescaped mustache, which none
         of those read here is *)
      let closing (k : option (list segment) -> option (list segment)) :=
        match s' with
        | d :: s'' =>
            if N.eqb d RBRACE then
              match s'' with
              | e :: _ =>
                  if N.eqb e RBRACE then None else k (scan (SContent []) s'')
              | [] => k (scan (SContent []) s'')
              end
            else None
        | [] => None
        end in
      match m with
      | SContent acc =>
          if N.eqb c 0 then None
          else if N.eqb c LBRACE then
            match s' with
            | d :: s'' =>
                if N.eqb d LBRACE then
                  match acc with
                  | b :: _ =>
                      if N.eqb b BACKSLASH then None
                      else option_map (content_segment acc) (scan SOpen s'')
                  | [] => scan SOpen s''
                  end
                else scan (SContent (c :: acc)) s'
            | [] => scan (SContent (c :: acc)) s'
            end
          else scan (SContent (c :: acc)) s'
      | SOpen =>
          if isSpace c then scan SOpen s'
          else if isIdStart c then scan (SId1 [c]) s'
          else None
      | SId1 acc =>
          if isIdChar c then scan (SId1 (c :: acc)) s'
          else if isSpace c then scan (SGap1 (rev acc)) s'
          else if N.eqb c RBRACE then closing (close1 (rev acc))
          else None
      | SGap1 id1 =>
          if isSpace c then scan (SGap1 id1) s'
          else if isIdStart c then scan (SId2 id1 [c]) s'
          else if N.eqb c RBRACE then closing (close1 id1)
          else None
      | SId2 id1 acc =>
          if isIdChar c then scan (SId2 id1 (c :: acc)) s'
          else if isSpace c then scan (SGap2 id1 (rev acc)) s'
          else if N.eqb c RBRACE then closing (close2 id1 (rev acc))
          else None
      | SGap2 id1 id2 =>
          if isSpace c then scan (SGap2 id1 id2) s'
          else if N.eqb c RBRACE then closing (close2 id1 id2)
          else None
      end
  end.

(** Helpers that every Handlebars environment has from the start. *)
Definition builtin_helpers : list jsstring :=
  [lit "helperMissing"; lit "blockHelperMissing"; lit "each"; lit "if";
   lit "unless"; lit "with"; lit "log"; lit "lookup"].

Fixpoint find_helper (helpers : Helpers) (name : jsstring) : option Helper :=
  match helpers with
  | [] => None
  | (n, f) :: r => if str_eqb n name then Some f else find_helper r name
  end.

(** What [buffer += v] appends for a value that is not a helper result;
    arrays and objects are left out of the fragment, and so are numbers
    that the model does not hold exactly. *)
Definition append_value (v : option JSONValue) : option jsstring :=
  match v with
  | None => Some []
  | Some JNull => Some []
  | Some (JBool true) => Some (lit "true")
  | Some (JBool false) => Some (lit "false")
  | Some (JNumber n) => if exact_number n then Some (NumberToString n) else None
  | Some (JString s) => Some s
  | Some (JArray _) => None
  | Some (JObject _) => None
  end.

Definition render_segment (helpers : Helpers) (ctx : JSONObject) (sg : segment)
  : option (Outcome jsstring) :=
  match sg with
  | Content text => Some (Ok text)
  | Mustache name =>
      if existsb (str_eqb name) builtin_helpers then None
      else
        match find_helper helpers name with
        | Some _ => None
        | None => option_map Ok (append_value (obj_get ctx name))
        end
  | HelperCall helper name =>
      if existsb (str_eqb helper) builtin_helpers then None
      else
        match find_helper helpers helper with
        | None => None
        | Some f =>
            (* a helper is followed on the values the model holds exactly *)
            if match obj_get ctx name with
               | Some v => exact_value v
               | None => true
               end
            then Some (match f (obj_get ctx name) with
                       | Ok r => Ok (toString r)
                       | Throw e => Throw e
                       end)
            else None
        end
  end.

(** The compiled template adds up what its segments give with [+], from
    left to right.  With [noEscape] a mustache gives the value itself, so
    that the values of two mustaches that follow each other directly may
    be added as numbers; everywhere else one of the two operands is a
    string (a text, or the result of a helper, an object that [+] turns
    into a string) and [+] concatenates. *)
Definition adds_values (sg : segment) (rest : list segment) : bool :=
  match sg, rest with
  | Mustache _, Mustache _ :: _ => true
  | _, _ => false
  end.

Fixpoint render (helpers : Helpers) (ctx : JSONObject) (sgs : list segment)
  : option (Outcome jsstring) :=
  match sgs with
  | [] => Some (Ok [])
  | sg :: rest =>
      if adds_values sg rest then None else
      match render_segment helpers ctx sg with
      | None => None
      | Some (Throw e) =>
          match render helpers ctx rest with
          | None => None
          | Some _ => Some (Throw e)
          end
      | Some (Ok a) =>
          match render helpers ctx rest with
          | None => None
          | Some (Throw e) => Some (Throw e)
          | Some (Ok b) => Some (Ok (a ++ b))
          end
      end
  end.

Definition fragment (helpers : Helpers) (template : jsstring) (ctx : JSONObject)
  : option (Outcome jsstring) :=
  match scan (SContent []) template with
  | None => None
  | Some sgs => render helpers ctx sgs
  end.

(** An engine behaves as Handlebars does on one template of the
    fragment, with given helpers. *)
Definition agrees_on (compile : Engine) (helpers : Helpers) (template : jsstring)
  : Prop :=
  forall ctx r,
    fragment helpers template ctx = Some r -> compile helpers template ctx = r.

(** One such engine, total: it throws outside the fragment. *)
Definition fragment_engine : Engine :=
  fun helpers template ctx =>
    match fragment helpers template ctx with
    | Some r => r
    | None => Throw (mkExn ClsError (lit "template outside the fragment"))
    end.

End Handlebars.

(* ================================================================== *)
(** * lark.ts: building the body *)

Record BuildResult := mkBuildResult { body : JSONValue; interpolated : jsstring }.

(** The helper [json]: [new h.SafeString(JSON.stringify(v))]. *)
Definition json_helper : Handlebars.Helper :=
  fun v => Ok (Handlebars.mkSafeString (JSON.stringify v)).

(** The helper [jstr]:
    [new h.SafeString(JSON.stringify(v).slice(1, -1))].  When [v] is
    [undefined] so is its serialization, and reading [slice] from it
    throws a [TypeError]. *)
Definition jstr_helper : Handlebars.Helper :=
  fun v =>
    match JSON.stringify v with
    | Some s => Ok (Handlebars.mkSafeString (Some (slice s 1 (-1))))
    | None =>
        Throw (mkExn ClsTypeError
                 (lit "Cannot read properties of undefined (reading 'slice')"))
    end.

Definition registered_helpers : Handlebars.Helpers :=
  [(lit "json", json_helper); (lit "jstr", jstr_helper)].

(** The [try]/[catch] around [JSON.parse(interpolated)]. *)
Definition validate (interpolated : jsstring) : Outcome BuildResult :=
  match JSON.parse interpolated with
  | Ok body => Ok (mkBuildResult body interpolated)
  | Throw err =>
      let msg := message err in
      Throw (mkExn ClsError
               (lit "Interpolated message_template is not valid JSON. Error: "
                ++ msg ++ lit ". Content: " ++ interpolated))
  end.

Section Build.

Variable compile : Handlebars.Engine.

Definition buildBodyFromTemplate (template : jsstring)
  (variablesInput : option jsstring) : Outcome BuildResult :=
  let vars := parseVariables variablesInput in
  let compiled := compile registered_helpers template in
  interpolated <- compiled vars ;;
  validate interpolated.

End Build.

(* ================================================================== *)
(** * node:crypto *)

Module crypto.

Local Open Scope Z_scope.

Definition byte := Z.
Definition bytes := list byte.

(** The UTF-8 encoding of a string, as Node.js encodes string keys and
    data: a surrogate pair is one code point of four bytes, a lone
    surrogate becomes U+FFFD. *)
Fixpoint utf8 (s : jsstring) : bytes :=
  match s with
  | [] => []
  | c :: s' =>
      let u := Z.of_N c in
      let three (x : Z) : bytes :=
        [Z.lor 224 (Z.shiftr x 12);
         Z.lor 128 (Z.land (Z.shiftr x 6) 63);
         Z.lor 128 (Z.land x 63)] in
      if u <? 128 then u :: utf8 s'
      else if u <? 2048 then
        Z.lor 192 (Z.shiftr u 6) :: Z.lor 128 (Z.land u 63) :: utf8 s'
      else if isHighSurrogate c then
        match s' with
        | d :: s'' =>
            if isLowSurrogate d then
              let cp := 65536 + Z.shiftl (u - 55296) 10 + (Z.of_N d - 56320) in
              Z.lor 240 (Z.shiftr cp 18)
              :: Z.lor 128 (Z.land (Z.shiftr cp 12) 63)
              :: Z.lor 128 (Z.land (Z.shiftr cp 6) 63)
              :: Z.lor 128 (Z.land cp 63)
              :: utf8 s''
            else three 65533 ++ utf8 s'
        | [] => three 65533 ++ utf8 s'
        end
      else if isLowSurrogate c then three 65533 ++ utf8 s'
      else three u ++ utf8 s'
  end.

(** ** SHA-256 (FIPS 180-4), on 32-bit words kept in [Z] *)

Definition w32 (x : Z) : Z := x mod 4294967296.
Definition add32 (x y : Z) : Z := w32 (x + y).
Definition rotr (n x : Z) : Z := w32 (Z.lor (Z.shiftr x n) (Z.shiftl x (32 - n))).
Definition not32 (x : Z) : Z := Z.lxor x 4294967295.

Definition Ch (x y z : Z) : Z := Z.lxor (Z.land x y) (Z.land (not32 x) z).
Definition Maj (x y z : Z) : Z :=
  Z.lxor (Z.lxor (Z.land x y) (Z.land x z)) (Z.land y z).
Definition Sigma0 (x : Z) : Z := Z.lxor (Z.lxor (rotr 2 x) (rotr 13 x)) (rotr 22 x).
Definition Sigma1 (x : Z) : Z := Z.lxor (Z.lxor (rotr 6 x) (rotr 11 x)) (rotr 25 x).
Definition sigma0 (x : Z) : Z := Z.lxor (Z.lxor (rotr 7 x) (rotr 18 x)) (Z.shiftr x 3).
Definition sigma1 (x : Z) : Z := Z.lxor (Z.lxor (rotr 17 x) (rotr 19 x)) (Z.shiftr x 10).

Definition K256 : list Z :=
  [1116352408; 1899447441; 3049323471; 3921009573; 961987163; 1508970993;
   2453635748; 2870763221; 3624381080; 310598401; 607225278; 1426881987;
   1925078388; 2162078206; 2614888103; 3248222580; 3835390401; 4022224774;
   264347078; 604807628; 770255983; 1249150122; 1555081692; 1996064986;
   2554220882; 2821834349; 2952996808; 3210313671; 3336571891; 3584528711;
   113926993; 338241895; 666307205; 773529912; 1294757372; 1396182291;
   1695183700; 1986661051; 2177026350; 2456956037; 2730485921; 2820302411;
   3259730800; 3345764771; 3516065817; 3600352804; 4094571909; 275423344;
   430227734; 506948616; 659060556; 883997877; 958139571; 1322822218;
   1537002063; 1747873779; 1955562222; 2024104815; 2227730452; 2361852424;
   2428436474; 2756734187; 3204031479; 3329325298].

Definition H256 : list Z :=
  [1779033703; 3144134277; 1013904242; 2773480762;
   1359893119; 2600822924; 528734635; 1541459225].

(** The padded message: a [1] bit, zeros, and the bit length on 64 bits. *)
Definition pad (msg : bytes) : bytes :=
  let len := Z.of_nat (List.length msg) in
  let k := (55 - len) mod 64 in
  let bits := 8 * len in
  msg ++ [128] ++ repeat 0 (Z.to_nat k)
  ++ map (fun i => Z.land (Z.shiftr bits (8 * (7 - i))) 255) [0; 1; 2; 3; 4; 5; 6; 7].

Fixpoint words (fuel : nat) (b : bytes) : list Z :=
  match fuel, b with
  | S fuel', b0 :: b1 :: b2 :: b3 :: r =>
      (Z.shiftl b0 24 + Z.shiftl b1 16 + Z.shiftl b2 8 + b3) :: words fuel' r
  | _, _ => []
  end.

(** The message schedule, newest word first: [rev_w] holds W[t-1], W[t-2], ... *)
Fixpoint schedule (n : nat) (rev_w : list Z) : list Z :=
  match n with
  | O => rev_w
  | S n' =>
      let w := add32 (add32 (sigma1 (nth 1 rev_w 0)) (nth 6 rev_w 0))
                 (add32 (sigma0 (nth 14 rev_w 0)) (nth 15 rev_w 0)) in
      schedule n' (w :: rev_w)
  end.

Definition round (st : list Z) (kw : Z * Z) : list Z :=
  match st with
  | [a; b; c; d; e; f; g; h] =>
      let t1 := add32 (add32 (add32 h (Sigma1 e)) (add32 (Ch e f g) (fst kw))) (snd kw) in
      let t2 := add32 (Sigma0 a) (Maj a b c) in
      [add32 t1 t2; a; b; c; add32 d t1; e; f; g]
  | _ => st
  end.

Definition compress (st : list Z) (block : list Z) : list Z :=
  let w := rev (schedule 48 (rev block)) in
  let st' := fold_left round (combine K256 w) st in
  map (fun p => add32 (fst p) (snd p)) (combine st st').

Fixpoint blocks (fuel : nat) (ws : list Z) (st : list Z) : list Z :=
  match fuel, ws with
  | S fuel', _ :: _ => blocks fuel' (skipn 16 ws) (compress st (firstn 16 ws))
  | _, _ => st
  end.

Definition sha256 (msg : bytes) : bytes :=
  let p := pad msg in
  let ws := words (List.length p) p in
  let st := blocks (List.length ws) ws H256 in
  flat_map (fun w => [Z.shiftr w 24; Z.land (Z.shiftr w 16) 255;
                      Z.land (Z.shiftr w 8) 255; Z.land w 255]) st.

(** ** HMAC (RFC 2104) with SHA-256 *)

Definition hmac_sha256 (key msg : bytes) : bytes :=
  let k0 := if Z.of_nat (List.length key) >? 64 then sha256 key else key in
  let k := k0 ++ repeat 0 (64 - List.length k0)%nat in
  let ipad := map (Z.lxor 54) k in
  let opad := map (Z.lxor 92) k in
  sha256 (opad ++ sha256 (ipad ++ msg)).

(** ** Base64 (RFC 4648), with padding *)

Definition b64_char (i : Z) : codeunit :=
  Z.to_N (if i <? 26 then 65 + i
          else if i <? 52 then 97 + (i - 26)
          else if i <? 62 then 48 + (i - 52)
          else if i =? 62 then 43 else 47).

Fixpoint base64 (b : bytes) : jsstring :=
  match b with
  | [] => []
  | [x] =>
      [b64_char (Z.shiftr x 2); b64_char (Z.shiftl (Z.land x 3) 4); 61%N; 61%N]
  | [x; y] =>
      [b64_char (Z.shiftr x 2);
       b64_char (Z.lor (Z.shiftl (Z.land x 3) 4) (Z.shiftr y 4));
       b64_char (Z.shiftl (Z.land y 15) 2); 61%N]
  | x :: y :: z :: r =>
      b64_char (Z.shiftr x 2)
      :: b64_char (Z.lor (Z.shiftl (Z.land x 3) 4) (Z.shiftr y 4))
      :: b64_char (Z.lor (Z.shiftl (Z.land y 15) 2) (Z.shiftr z 6))
      :: b64_char (Z.land z 63)
      :: base64 r
  end.

(** ** The [Hmac] object *)

Inductive Algorithm := sha256_.
Inductive Encoding := base64_.

Record Hmac := mkHmac { hmac_key : bytes; hmac_data : bytes }.

(** [createHmac('sha256', key)] with a string key. *)
Definition createHmac (alg : Algorithm) (key : jsstring) : Hmac :=
  mkHmac (utf8 key) [].

(** [h.update(data)] with string data. *)
Definition update (h : Hmac) (data : jsstring) : Hmac :=
  mkHmac (hmac_key h) (hmac_data h ++ utf8 data).

(** [h.digest('base64')]. *)
Definition digest (h : Hmac) (enc : Encoding) : jsstring :=
  base64 (hmac_sha256 (hmac_key h) (hmac_data h)).

End crypto.

(* ================================================================== *)
(** * lark.ts: signing and sending *)

(** [generateLarkWebhookSignature]: the key of the HMAC is the timestamp,
    a line feed and the secret; the message is empty. *)
Definition generateLarkWebhookSignature (webhookKey : jsstring) (timestamp : Z)
  : jsstring :=
  let key := decimal_of_Z timestamp ++ [10%N] ++ webhookKey in
  let h := crypto.createHmac crypto.sha256_ key in
  let h := crypto.update h (lit "") in
  crypto.digest h crypto.base64_.

(** The object literal [{ ...body, timestamp: ts, sign }]: the own
    properties of [body] are copied in order into a fresh object, then
    the two named properties are defined. *)
Definition spread (o : JSONObject) : JSONObject :=
  fold_left (fun acc kv => obj_put acc (fst kv) (snd kv)) o [].

Definition signing_error : exn :=
  mkExn ClsError
    (lit "Signing requires the message_template to be a JSON object to add timestamp and sign fields.").

(** The first half of [sendLarkWebhook]: the body to send, given the
    secret and the request time in seconds.  (The Signature Augmenter,
    [augment], of the specification.) *)
Definition augment (body : JSONValue) (webhookKey : option jsstring)
  (requestTimestamp : Z) : Outcome JSONValue :=
  match webhookKey with
  | Some key =>
      if match key with [] => false | _ => true end
         && negb (str_eqb (trim key) [])
      then
        if negb (truthy body) || negb (typeof_object body) || Array_isArray body
        then Throw signing_error
        else
          let sign := generateLarkWebhookSignature key requestTimestamp in
          match body with
          | JObject o =>
              Ok (JObject
                    (obj_put
                       (obj_put (spread o) (lit "timestamp")
                          (JString (decimal_of_Z requestTimestamp)))
                       (lit "sign") (JString sign)))
          | _ => Ok body
          end
      else Ok body
  | None => Ok body
  end.

(** ** Effects *)

Record Request := mkRequest {
  req_method : jsstring;
  req_headers : list (jsstring * jsstring);
  req_body : jsstring
}.

(** What [fetch] resolves to: the status, and what [res.text()] gives. *)
Record Response := mkResponse {
  status : Z;
  text : Outcome jsstring
}.

(** [res.ok]: the status is in the range 200 to 299. *)
Definition ok (res : Response) : bool :=
  ((200 <=? status res) && (status res <=? 299))%Z.

Inductive OutputValue :=
| OutBool (b : bool)
| OutNumber (n : Z)
| OutString (s : jsstring).

(** The actions of the program on the outside world, in order. *)
Inductive Event :=
| Debug (msg : jsstring)
| Info (msg : jsstring)
| SetOutput (name : jsstring) (value : OutputValue)
| SetFailed (msg : jsstring)
| ConsoleLog (msg : jsstring)
| SetTimeoutAbort (ms : Z)
| ClearTimeout
| Fetch (url : jsstring) (req : Request).

(** A computation that performs events and then returns or throws. *)
Definition Eff (A : Type) : Type := list Event * Outcome A.

Definition ret {A} (a : A) : Eff A := ([], Ok a).
Definition lift {A} (m : Outcome A) : Eff A := ([], m).
Definition emit (evs : list Event) : Eff unit := (evs, Ok tt).

Definition ebind {A B} (m : Eff A) (k : A -> Eff B) : Eff B :=
  match m with
  | (tr, Ok a) => let (tr', r) := k a in (tr ++ tr', r)
  | (tr, Throw e) => (tr, Throw e)
  end.

Notation "x <~ m ;; k" := (ebind m (fun x => k))
  (at level 61, m at next level, right associativity).
Notation "m ;;; k" := (ebind m (fun _ => k))
  (at level 61, right associativity).

(** [options.timeoutMs]: absent, or the number [parseInt] returned
    ([Some None] is NaN). *)
Record SendOptions := mkSendOptions { timeoutMs : option (option Z) }.

(** The delay with which the abort timer is armed:
    [opts.timeoutMs ? setTimeout(...) : undefined].  [undefined], NaN
    and 0 are falsy. *)
Definition abort_delay (opts : SendOptions) : option Z :=
  match timeoutMs opts with
  | Some (Some ms) => if (ms =? 0)%Z then None else Some ms
  | _ => None
  end.

(** The request of [sendLarkWebhook]: a POST of the JSON payload. *)
Definition post_request (payload : jsstring) : Request :=
  mkRequest (lit "POST")
    [(lit "Content-Type", lit "application/json; charset=utf-8")]
    payload.

(** What [run] does with the response: it reads the text, sets the three
    outputs, and fails the run on a status outside 2xx when asked to. *)
Definition report (failOnHttpError : bool) (res : Response) : Eff unit :=
  text <~ lift (text res) ;;
  emit [SetOutput (lit "ok") (OutBool (ok res));
        SetOutput (lit "status") (OutNumber (status res));
        SetOutput (lit "response_text") (OutString text)] ;;;
  if negb (ok res) && failOnHttpError then
    emit [SetFailed (lit "Lark webhook failed with status "
                     ++ decimal_of_Z (status res) ++ lit ": " ++ text)]
  else ret tt.

(** The [catch] of [run]: an exception ends the run with [setFailed]. *)
Definition caught (m : Eff unit) : list Event :=
  match m with
  | (tr, Ok _) => tr
  | (tr, Throw error) => tr ++ [SetFailed (message error)]
  end.

(** The events of a dry run once the body is built. *)
Definition dry_run_events (built : BuildResult) : list Event :=
  [Info (lit "[dry_run] Skipping webhook call. Interpolated JSON:");
   Info (interpolated built);
   SetOutput (lit "ok") (OutBool true);
   SetOutput (lit "status") (OutNumber 0);
   SetOutput (lit "response_text") (OutString (lit "dry_run"))].

(** [timeoutMsInput ? parseInt(timeoutMsInput, 10) : undefined]. *)
Definition timeoutMs_of_input (timeoutMsInput : jsstring) : option (option Z) :=
  match timeoutMsInput with
  | [] => None
  | _ => Some (parseInt10 timeoutMsInput)
  end.

Section Program.

(** The template engine. *)
Variable compile : Handlebars.Engine.
(** [Date.now()], in milliseconds. *)
Variable now_ms : Z.
(** The network: what [fetch] settles to for a request, given the delay
    after which the request is aborted, if any. *)
Variable network : jsstring -> Request -> option Z -> Outcome Response.
(** The inputs of the action: the text given for each input name, [""]
    when there is none. *)
Variable inputs : jsstring -> jsstring.

Definition sendLarkWebhook (webhookUrl : jsstring) (webhookKey : option jsstring)
  (body : JSONValue) (opts : SendOptions) : Eff Response :=
  let requestTimestamp := (now_ms / 1000)%Z in
  signedBody <~ lift (augment body webhookKey requestTimestamp) ;;
  let timeout := abort_delay opts in
  emit (match timeout with Some ms => [SetTimeoutAbort ms] | None => [] end) ;;;
  let req := post_request (JSON.stringify_value signedBody) in
  emit [ConsoleLog (JSON.stringify_value signedBody)] ;;;
  emit [Fetch webhookUrl req] ;;;
  let res := network webhookUrl req timeout in
  (* finally *)
  emit (match timeout with Some _ => [ClearTimeout] | None => [] end) ;;;
  lift res.

(** ** @actions/core *)

(** [core.getInput(name, { required })]: the text of the input, trimmed. *)
Definition getInput (name : jsstring) (required : bool) : Outcome jsstring :=
  let val := inputs name in
  if required && match val with [] => true | _ => false end
  then Throw (mkExn ClsError (lit "Input required and not supplied: " ++ name))
  else Ok (trim val).

(** [core.getBooleanInput(name)]. *)
Definition getBooleanInput (name : jsstring) : Outcome bool :=
  val <- getInput name false ;;
  if str_eqb val (lit "true") || str_eqb val (lit "True") || str_eqb val (lit "TRUE")
  then Ok true
  else if str_eqb val (lit "false") || str_eqb val (lit "False")
          || str_eqb val (lit "FALSE")
  then Ok false
  else Throw (mkExn ClsTypeError
                (jq "Input does not meet YAML 1.2 'Core Schema' specification: "
                 ++ name ++ [10%N]
                 ++ lit "Support boolean input list: `true | True | TRUE | false | False | FALSE`")).

(** * main.ts *)

(** The body of the [try] block of [run]. *)
Definition run_try : Eff unit :=
  webhookUrl <~ lift (getInput (lit "webhook_url") true) ;;
  webhookSecret <~ lift (getInput (lit "webhook_secret") false) ;;
  template <~ lift (getInput (lit "message_template") true) ;;
  variablesInput <~ lift (getInput (lit "variables") false) ;;
  dryRun <~ lift (getBooleanInput (lit "dry_run")) ;;
  timeoutMsInput <~ lift (getInput (lit "request_timeout_ms") false) ;;
  failOnHttpError <~ lift (getBooleanInput (lit "fail_on_http_error")) ;;
  let timeoutMs := timeoutMs_of_input timeoutMsInput in
  emit [Debug (lit "Building Lark message body from template and variables")] ;;;
  built <~ lift (buildBodyFromTemplate compile template (Some variablesInput)) ;;
  if dryRun then emit (dry_run_events built)
  else
    emit [Debug (lit "Sending Lark webhook request")] ;;;
    res <~ sendLarkWebhook webhookUrl (Some webhookSecret) (body built)
             (mkSendOptions timeoutMs) ;;
    report failOnHttpError res.

(** [run]: the events of one invocation of the action.  An exception is
    caught and reported with [core.setFailed]. *)
Definition run : list Event := caught run_try.

End Program.

(* ================================================================== *)
(** * The words of the specification *)

(** "Strips the single leading and trailing double-quote characters":
    a leading quote is removed if there is one, and so is a trailing
    one; nothing else is. *)
Definition strip_quotes (s : jsstring) : jsstring :=
  let s1 := match s with
            | c :: r => if N.eqb c DQUOTE then r else s
            | [] => s
            end in
  match rev s1 with
  | c :: r => if N.eqb c DQUOTE then rev r else s1
  | [] => s1
  end.

(** The signature in the words of the specification: the Base64 text of
    HMAC-SHA256 with, as key, the decimal [nowSeconds], a line feed and
    the secret, and with the empty string as message. *)
Definition spec_signature (secret : jsstring) (nowSeconds : Z) : jsstring :=
  crypto.base64
    (crypto.hmac_sha256
       (crypto.utf8 (decimal_of_Z nowSeconds ++ [10%N] ++ secret)) []).

(** The failure of the Body Validator: an [Error] whose message begins
    as the one [buildBodyFromTemplate] throws. *)
Definition TemplateRenderError (e : exn) : Prop :=
  exn_class e = ClsError
  /\ startsWith (message e)
       (lit "Interpolated message_template is not valid JSON.") = true.

(** The failure of the Signature Augmenter. *)
Definition SigningPreconditionError (e : exn) : Prop := e = signing_error.

(** A secret that enables signing: present and not blank. *)
Definition blank (secret : option jsstring) : bool :=
  match secret with
  | None => true
  | Some s => str_eqb (trim s) []
  end.

(** The template of the end-to-end scenario of the specification,
    [{"msg_type":"text","content":{"text":"Hello {{jstr who}}"}}]. *)
Definition hello_template : jsstring :=
  jq "{'msg_type':'text','content':{'text':'Hello {{jstr who}}'}}".

(** A variables input that binds [who] to the string [v]: the JSON
    object [{"who": v}]. *)
Definition who_is (v : jsstring) : jsstring :=
  jq "{'who':" ++ JSON.stringify_value (JString v) ++ lit "}".

(** An object in the sense of JavaScript has one value per key. *)
Definition obj_wf (o : JSONObject) : Prop := NoDup (map fst o).

(** ** Texts that differ in one string literal

    Two tokens are of the same kind when they are the same token up to
    the contents of a string and the value of a number; modes, frames
    and states of the parser are related in the same way. *)

Definition same_kind (a b : N * JSON.token) : Prop :=
  match snd a, snd b with
  | JSON.TStr _, JSON.TStr _ => True
  | JSON.TNum _, JSON.TNum _ => True
  | x, y => x = y
  end.

Definition mode_sim (m1 m2 : JSON.mode) : Prop :=
  match m1, m2 with
  | JSON.Main, JSON.Main => True
  | JSON.InString _ _, JSON.InString _ _ => True
  | JSON.InNumber _ a, JSON.InNumber _ b => a = b
  | _, _ => False
  end.

Definition frame_sim (f1 f2 : JSON.frame) : Prop :=
  match f1, f2 with
  | JSON.FArr _, JSON.FArr _ => True
  | JSON.FObj _, JSON.FObj _ => True
  | JSON.FObjKey _ _, JSON.FObjKey _ _ => True
  | _, _ => False
  end.

Definition pstate_sim (p1 p2 : JSON.pstate) : Prop :=
  match p1, p2 with
  | JSON.PValue, JSON.PValue => True
  | JSON.PArrFirst, JSON.PArrFirst => True
  | JSON.PArrNext, JSON.PArrNext => True
  | JSON.PObjFirst, JSON.PObjFirst => True
  | JSON.PObjKey, JSON.PObjKey => True
  | JSON.PColon, JSON.PColon => True
  | JSON.PObjNext, JSON.PObjNext => True
  | JSON.PDone _, JSON.PDone _ => True
  | _, _ => False
  end.

(** [text] is syntactically valid JSON. *)
Definition valid_json (text : jsstring) : Prop :=
  exists v, JSON.parse text = Ok v.

(** After [pre], the lexer is inside a string literal opened at [start]
    of which it has read the characters [acc] (kept in reverse), having
    produced the tokens [ts] before it. *)
Definition inside_string_literal (pre : jsstring) (ts : list (N * JSON.token))
  (start : N) (acc : jsstring) : Prop :=
  exists pos, forall rest,
    JSON.lex JSON.Main 0 (pre ++ rest)
    = ts ++ JSON.lex (JSON.InString start acc) pos rest.

(** ** Sample invocations *)

(** The inputs given as a list of names and texts; an input that is not
    listed reads as the empty string. *)
Definition inputs_of (l : list (string * string)) : jsstring -> jsstring :=
  fun name =>
    match find (fun kv => str_eqb (lit (fst kv)) name) l with
    | Some kv => jq (snd kv)
    | None => []
    end.

(** A network on which every request is answered by [200 ok]. *)
Definition network_ok : jsstring -> Request -> option Z -> Outcome Response :=
  fun _ _ _ => Ok (mkResponse 200 (Ok (lit "ok"))).

(** A list body, a secret, and the [dry_run] flag as given. *)
Definition list_body_inputs (dry_run : string) : jsstring -> jsstring :=
  inputs_of [("webhook_url", "https://example"); ("webhook_secret", "abc");
             ("message_template", "[1]"); ("dry_run", dry_run);
             ("request_timeout_ms", "1000"); ("fail_on_http_error", "true")]%string.

(** A text message, no secret, and [request_timeout_ms] as given. *)
Definition text_message_inputs (request_timeout_ms : string) : jsstring -> jsstring :=
  inputs_of [("webhook_url", "https://example");
             ("message_template", "{'msg_type':'text','content':{'text':'Hello {{jstr who}}'}}");
             ("variables", "who=CI"); ("dry_run", "false");
             ("request_timeout_ms", request_timeout_ms);
             ("fail_on_http_error", "true")]%string.

Definition hello_CI : jsstring :=
  jq "{'msg_type':'text','content':{'text':'Hello CI'}}".

(** ** Invariants of the JSON automaton *)

Definition top_wf (v : JSONValue) : Prop :=
  match v with
  | JObject o => obj_wf o
  | _ => True
  end.

Definition frame_wf (f : JSON.frame) : Prop :=
  match f with
  | JSON.FArr _ => True
  | JSON.FObj props => obj_wf props
  | JSON.FObjKey props _ => obj_wf props
  end.

Definition pstate_wf (p : JSON.pstate) : Prop :=
  match p with
  | JSON.PDone v => top_wf v
  | _ => True
  end.

(** ** Observations on a run *)

(** The seven inputs are read without error, with these results. *)
Definition reads (inputs : jsstring -> jsstring)
  (url secret template variables : jsstring) (dry : bool)
  (timeoutMsInput : jsstring) (foe : bool) : Prop :=
  getInput inputs (lit "webhook_url") true = Ok url
  /\ getInput inputs (lit "webhook_secret") false = Ok secret
  /\ getInput inputs (lit "message_template") true = Ok template
  /\ getInput inputs (lit "variables") false = Ok variables
  /\ getBooleanInput inputs (lit "dry_run") = Ok dry
  /\ getInput inputs (lit "request_timeout_ms") false = Ok timeoutMsInput
  /\ getBooleanInput inputs (lit "fail_on_http_error") = Ok foe.

Definition reports_failure (tr : list Event) : Prop :=
  exists msg, In (SetFailed msg) tr.

Definition sets_all_outputs (tr : list Event) : Prop :=
  exists b n t,
    In (SetOutput (lit "ok") (OutBool b)) tr
    /\ In (SetOutput (lit "status") (OutNumber n)) tr
    /\ In (SetOutput (lit "response_text") (OutString t)) tr.

Definition is_fetch (e : Event) : bool :=
  match e with Fetch _ _ => true | _ => false end.
Definition is_set_timeout (e : Event) : bool :=
  match e with SetTimeoutAbort _ => true | _ => false end.
Definition is_clear_timeout (e : Event) : bool :=
  match e with ClearTimeout => true | _ => false end.
Definition is_set_output (e : Event) : bool :=
  match e with SetOutput _ _ => true | _ => false end.

Definition count_events (p : Event -> bool) (tr : list Event) : nat :=
  List.length (filter p tr).

(** The events of [sendLarkWebhook] around the request, for a payload
    and the delay of the abort timer. *)
Definition send_events (url payload : jsstring) (delay : option Z) : list Event :=
  match delay with Some ms => [SetTimeoutAbort ms] | None => [] end
  ++ [ConsoleLog payload; Fetch url (post_request payload)]
  ++ match delay with Some _ => [ClearTimeout] | None => [] end.

(** A network on which every request is answered with the given status
    and text. *)
Definition network_status (st : Z) (body : string)
  : jsstring -> Request -> option Z -> Outcome Response :=
  fun _ _ _ => Ok (mkResponse st (Ok (lit body))).

(** A network that is down. *)
Definition network_down : jsstring -> Request -> option Z -> Outcome Response :=
  fun _ _ _ => Throw (mkExn ClsTypeError (lit "fetch failed")).

(** The six spellings [core.getBooleanInput] accepts. *)
Definition boolean_spelling (val : jsstring) : bool :=
  str_eqb val (lit "true") || str_eqb val (lit "True") || str_eqb val (lit "TRUE")
  || str_eqb val (lit "false") || str_eqb val (lit "False")
  || str_eqb val (lit "FALSE").

(** The message of [core.getBooleanInput] for a text that is not a
    boolean. *)
Definition not_boolean_message (name : jsstring) : jsstring :=
  jq "Input does not meet YAML 1.2 'Core Schema' specification: "
  ++ name ++ [10%N]
  ++ lit "Support boolean input list: `true | True | TRUE | false | False | FALSE`".

(** Inputs without a template. *)
Definition no_template_inputs : jsstring -> jsstring :=
  inputs_of [("webhook_url", "https://example"); ("dry_run", "false");
             ("fail_on_http_error", "true")]%string.

(** Inputs with [dry_run] as given. *)
Definition dry_run_inputs (dry_run : string) : jsstring -> jsstring :=
  inputs_of [("webhook_url", "https://example"); ("message_template", "{}");
             ("dry_run", dry_run); ("fail_on_http_error", "true")]%string.

(** The text does not go on with a digit. *)
Definition no_leading_digit (rest : jsstring) : bool :=
  match rest with
  | [] => true
  | c :: _ => negb (isDigit c)
  end.

(** ** The first token of a JSON text *)

(** The first character of the text that is not JSON white space is an
    opening brace. *)
Definition opens_object (s : jsstring) : bool :=
  match dropWhile JSON.isJSONSpace s with
  | c :: _ => N.eqb c 123
  | [] => false
  end.

Definition first_is_lbrace (ts : list (N * JSON.token)) : bool :=
  match ts with
  | (_, JSON.TLBrace) :: _ => true
  | _ => false
  end.

(** There is a first token, and it is not an opening brace. *)
Definition starts_plain (ts : list (N * JSON.token)) : bool :=
  match ts with
  | [] => false
  | (_, JSON.TLBrace) :: _ => false
  | _ => true
  end.

(** The first character of a text that no JSON value starts with, when
    it is not one of [t], [f] and [n]. *)
Definition starts_json_value (c : codeunit) : bool :=
  N.eqb c 123 || N.eqb c 91 || N.eqb c DQUOTE || N.eqb c 45 || isDigit c.

(** The container that was opened first is an array. *)
Fixpoint arr_bottom (stack : list JSON.frame) : bool :=
  match stack with
  | [] => false
  | f :: st =>
      match st with
      | [] => match f with JSON.FArr _ => true | _ => false end
      | _ :: _ => arr_bottom st
      end
  end.

Definition array_underway (p : JSON.pstate) (stack : list JSON.frame) : Prop :=
  match stack with
  | [] => match p with JSON.PDone (JArray _) => True | _ => False end
  | _ :: _ =>
      arr_bottom stack = true
      /\ match p with JSON.PDone _ => False | _ => True end
  end.

(** ** Templates *)

(** A template without a mustache: no two opening braces in a row (and
    no NUL character, which the Handlebars lexer does not take as
    content). *)
Fixpoint mustache_free (s : jsstring) : bool :=
  match s with
  | [] => true
  | c :: s' =>
      negb (N.eqb c 0)
      && negb (N.eqb c Handlebars.LBRACE
               && match s' with
                  | d :: _ => N.eqb d Handlebars.LBRACE
                  | [] => false
                  end)
      && mustache_free s'
  end.

(** The error of [jstr] on a variable that is not bound. *)
Definition slice_of_undefined : exn :=
  mkExn ClsTypeError (lit "Cannot read properties of undefined (reading 'slice')").

(** ** Values that serialization gives back *)

(** A number in normal form that [JSON.stringify] prints as itself and
    that a binary64 number holds exactly as the model has it: finite,
    without trailing zero in its digits, not minus zero (which is
    printed as [0]), and, when not zero, of at most 15 significant
    digits and of a magnitude between [1e-301] and [1e300]
    ([exact_number]).  So [1e400], which JavaScript reads as [Infinity],
    and an integer of 20 digits, which JavaScript rounds, are not
    canonical. *)
Definition canonical_number (n : JSNumber) : bool :=
  match n with
  | Inf _ => false
  | Fin neg m e =>
      if N.eqb m 0 then negb neg && (e =? 0)%Z
      else negb (N.eqb (N.modulo m 10) 0) && exact_number (Fin neg m e)
  end.

(** A value as JavaScript holds it: its numbers are canonical, and the
    properties of its objects stand in enumeration order, each key once,
    which is to say that defining them one by one on an empty object
    gives the same object. *)
Fixpoint canonical (v : JSONValue) : Prop :=
  match v with
  | JNull | JBool _ | JString _ => True
  | JNumber n => canonical_number n = true
  | JArray items =>
      (fix all (l : list JSONValue) : Prop :=
         match l with
         | [] => True
         | x :: r => canonical x /\ all r
         end) items
  | JObject props =>
      (fix all (l : list (jsstring * JSONValue)) : Prop :=
         match l with
         | [] => True
         | (_, x) :: r => canonical x /\ all r
         end) props
      /\ spread props = props
  end.

(** The part of [number_literal] that follows the integer digits. *)
Definition number_after_int (neg : bool) (i s2 : jsstring) : option JSNumber :=
  let fr :=
    match s2 with
    | 46%N :: r =>
        let (f, s3) := span_digits r in
        match f with
        | [] => None
        | _ => Some (f, s3)
        end
    | _ => Some ([], s2)
    end in
  match fr with
  | None => None
  | Some (f, s3) =>
      match exponent_part s3 with
      | Some x => Some (make_number neg i f x)
      | None => None
      end
  end.

(** The exponent part that [NumberToString] writes. *)
Definition exponent_text (x : Z) : jsstring :=
  lit "e" ++ (if (x <? 0)%Z then lit "-" else lit "+")
  ++ decimal_of_N (Z.abs_N x).

(** The fraction part of a number text: nothing, or a point and digits. *)
Definition fraction_text (f : jsstring) : jsstring :=
  match f with
  | [] => []
  | _ => lit "." ++ f
  end.

(** The states of the automaton in which a value may start. *)
Definition value_state (p : JSON.pstate) : bool :=
  match p with
  | JSON.PValue | JSON.PArrFirst => true
  | _ => false
  end.

(** The text does not go on with a character of a number. *)
Definition ends_number (rest : jsstring) : bool :=
  match rest with
  | [] => true
  | c :: _ => negb (JSON.isNumberChar c)
  end.

(** Induction on a JSON value and, in it, on the values it holds. *)
Section JSONValue_induction.

Variable P : JSONValue -> Prop.
Hypothesis Hnull : P JNull.
Hypothesis Hbool : forall b, P (JBool b).
Hypothesis Hnumber : forall n, P (JNumber n).
Hypothesis Hstring : forall s, P (JString s).
Hypothesis Harray : forall items, Forall P items -> P (JArray items).
Hypothesis Hobject :
  forall props, Forall (fun kv => P (snd kv)) props -> P (JObject props).

Fixpoint JSONValue_induction (v : JSONValue) : P v :=
  match v with
  | JNull => Hnull
  | JBool b => Hbool b
  | JNumber n => Hnumber n
  | JString s => Hstring s
  | JArray items =>
      Harray items
        ((fix go (l : list JSONValue) : Forall P l :=
            match l with
            | [] => Forall_nil P
            | x :: r => Forall_cons x (JSONValue_induction x) (go r)
            end) items)
  | JObject props =>
      Hobject props
        ((fix go (l : list (jsstring * JSONValue))
            : Forall (fun kv => P (snd kv)) l :=
            match l with
            | [] => Forall_nil _
            | (k, x) :: r =>
                Forall_cons (k, x) (JSONValue_induction x) (go r)
            end) props)
  end.

End JSONValue_induction.

(** A card with a text, a number and a list. *)
Definition sample_card : JSONValue :=
  JObject [(lit "msg_type", JString (lit "text"));
           (lit "size", JNumber (Fin false 15 (-1)));
           (lit "tags", JArray [JString (lit "a"); JNull])].

(** The part of [str_decimal_literal] that follows the sign. *)
Definition decimal_body (neg : bool) (s1 : jsstring) : option JSNumber :=
  if str_eqb s1 (lit "Infinity") then Some (Inf neg)
  else
    let (i, s2) := span_digits s1 in
    let '(f, s3) :=
      match s2 with
      | 46%N :: r => span_digits r
      | _ => ([], s2)
      end in
    match i ++ f with
    | [] => None
    | _ =>
        match exponent_part s3 with
        | Some x => Some (make_number neg i f x)
        | None => None
        end
    end.

(** Inputs of a dry run with [fail_on_http_error] as given. *)
Definition fail_on_http_error_inputs (fail_on_http_error : string)
  : jsstring -> jsstring :=
  inputs_of [("webhook_url", "https://example"); ("message_template", "{}");
             ("dry_run", "true");
             ("fail_on_http_error", fail_on_http_error)]%string.

(* ================================================================== *)
(** * Lemmas on strings *)

Lemma str_eqb_spec (a b : jsstring) : reflect (a = b) (str_eqb a b).
Proof.
  revert b; induction a as [|x a IH]; intros [|y b]; simpl;
    try (constructor; congruence).
  destruct (N.eqb_spec x y) as [->|Hne]; simpl.
  - destruct (IH b) as [->|Hne]; constructor; congruence.
  - constructor; congruence.
Qed.

Lemma str_eqb_refl (a : jsstring) : str_eqb a a = true.
Proof. destruct (str_eqb_spec a a); congruence. Qed.

Lemma str_eqb_neq (a b : jsstring) : a <> b -> str_eqb a b = false.
Proof. destruct (str_eqb_spec a b); congruence. Qed.

Lemma dropWhile_all {A} (p : A -> bool) (l : list A) :
  forallb p l = true -> dropWhile p l = [].
Proof.
  induction l as [|x l IH]; simpl; auto.
  destruct (p x); simpl; auto; discriminate.
Qed.

Lemma dropWhile_nil_all {A} (p : A -> bool) (l : list A) :
  dropWhile p l = [] -> forallb p l = true.
Proof.
  induction l as [|x l IH]; simpl; auto.
  destruct (p x); simpl; auto; discriminate.
Qed.

Lemma dropWhile_idem {A} (p : A -> bool) (l : list A) :
  dropWhile p (dropWhile p l) = dropWhile p l.
Proof.
  induction l as [|x l IH]; simpl; auto.
  destruct (p x) eqn:E; auto. simpl. now rewrite E.
Qed.

Lemma dropWhile_app_keep {A} (p : A -> bool) (l r : list A) :
  dropWhile p l <> [] -> dropWhile p (l ++ r) = dropWhile p l ++ r.
Proof.
  induction l as [|x l IH]; simpl; [congruence|].
  destruct (p x); auto.
Qed.

Lemma forallb_rev {A} (p : A -> bool) (l : list A) :
  forallb p (rev l) = forallb p l.
Proof.
  induction l as [|x l IH]; simpl; auto.
  rewrite forallb_app, IH. simpl. rewrite andb_true_r. apply andb_comm.
Qed.

(** [trim] gives the empty string exactly on blank strings. *)
Lemma trim_nil_iff (s : jsstring) : trim s = [] <-> forallb isSpace s = true.
Proof.
  unfold trim, trimEnd, trimStart. split.
  - intros H.
    assert (H1 : dropWhile isSpace (rev (dropWhile isSpace s)) = []).
    { destruct (dropWhile isSpace (rev (dropWhile isSpace s))) eqn:E; auto.
      simpl in H. destruct (rev l); discriminate. }
    apply dropWhile_nil_all in H1. rewrite forallb_rev in H1.
    clear H. induction s as [|x s IH]; simpl in *; auto.
    destruct (isSpace x) eqn:E; simpl; auto.
    simpl in H1. rewrite E in H1. discriminate.
  - intros H. rewrite (dropWhile_all _ _ H). reflexivity.
Qed.

(** A string that begins and ends with characters other than white
    space is its own trimming. *)
Lemma trim_fixed (c : codeunit) (m : jsstring) (d : codeunit) :
  isSpace c = false -> isSpace d = false -> trim (c :: m ++ [d]) = c :: m ++ [d].
Proof.
  intros Hc Hd. unfold trim, trimStart, trimEnd.
  cbn [dropWhile]. rewrite Hc.
  change (c :: m ++ [d]) with ((c :: m) ++ [d]).
  rewrite rev_app_distr. cbn [rev app dropWhile]. rewrite Hd.
  change (d :: rev m ++ [c]) with ([d] ++ rev (c :: m)).
  rewrite rev_app_distr, rev_involutive. reflexivity.
Qed.

Lemma trim_trimStart (s : jsstring) : trim (trimStart s) = trim s.
Proof. unfold trim, trimStart. now rewrite dropWhile_idem. Qed.

(** [slice(1, -1)] removes the first and the last character. *)
Lemma slice_1_m1 (a : codeunit) (m : jsstring) (b : codeunit) :
  slice (a :: m ++ [b]) 1 (-1) = m.
Proof.
  unfold slice.
  assert (Hlen : Z.of_nat (List.length (a :: m ++ [b]))
                 = (Z.of_nat (List.length m) + 2)%Z).
  { simpl List.length. rewrite length_app. simpl. lia. }
  rewrite Hlen. clear Hlen.
  change (1 <? 0)%Z with false. change (-1 <? 0)%Z with true. cbv iota.
  assert (Hfrom : Z.to_nat (Z.min 1 (Z.of_nat (List.length m) + 2)) = 1%nat) by lia.
  assert (Hspan : Z.to_nat (Z.max (Z.of_nat (List.length m) + 2 + -1) 0
                            - Z.min 1 (Z.of_nat (List.length m) + 2))
                  = List.length m) by lia.
  rewrite Hfrom, Hspan. cbn [skipn].
  rewrite firstn_app, firstn_all, Nat.sub_diag. simpl. apply app_nil_r.
Qed.

(** In general [slice(1, -1)] is the string without its first and its
    last character, whatever they are. *)
Lemma slice_1_m1_gen (s : jsstring) : slice s 1 (-1) = removelast (tl s).
Proof.
  destruct s as [|a s]; [reflexivity|].
  destruct (rev s) as [|b r] eqn:E.
  - apply (f_equal (@rev _)) in E. rewrite rev_involutive in E. subst s.
    reflexivity.
  - apply (f_equal (@rev _)) in E. rewrite rev_involutive in E. simpl in E.
    subst s. rewrite slice_1_m1. simpl tl. now rewrite removelast_last.
Qed.

(* ================================================================== *)
(** * Lemmas on JSON strings: the lexer undoes [QuoteJSONString] *)

Lemma lex_string_close (start : N) (acc : jsstring) (pos : N) (r : jsstring) :
  JSON.lex (JSON.InString start acc) pos (DQUOTE :: r)
  = (start, JSON.TStr (rev acc)) :: JSON.lex JSON.Main (pos + 1) r.
Proof. reflexivity. Qed.

Lemma lex_string_plain (start : N) (acc : jsstring) (pos : N) (c : codeunit)
  (r : jsstring) :
  N.eqb c DQUOTE = false -> N.eqb c BACKSLASH = false -> N.ltb c 32 = false ->
  JSON.lex (JSON.InString start acc) pos (c :: r)
  = JSON.lex (JSON.InString start (c :: acc)) (pos + 1) r.
Proof.
  intros H1 H2 H3. cbn [JSON.lex]. rewrite H1, H2, H3. reflexivity.
Qed.

Lemma lex_string_escape (start : N) (acc : jsstring) (pos : N) (e x : codeunit)
  (r : jsstring) :
  JSON.unescape e = Some x ->
  JSON.lex (JSON.InString start acc) pos (BACKSLASH :: e :: r)
  = JSON.lex (JSON.InString start (x :: acc)) (pos + 2) r.
Proof.
  intros H. cbn [JSON.lex].
  change (N.eqb BACKSLASH DQUOTE) with false.
  change (N.eqb BACKSLASH BACKSLASH) with true. cbv iota.
  rewrite H. reflexivity.
Qed.

Lemma lex_string_unicode (start : N) (acc : jsstring) (pos : N)
  (h1 h2 h3 h4 x : codeunit) (r : jsstring) :
  JSON.hex4 h1 h2 h3 h4 = Some x ->
  JSON.lex (JSON.InString start acc) pos
    (BACKSLASH :: 117%N :: h1 :: h2 :: h3 :: h4 :: r)
  = JSON.lex (JSON.InString start (x :: acc)) (pos + 6) r.
Proof.
  intros H. cbn [JSON.lex].
  change (N.eqb BACKSLASH DQUOTE) with false.
  change (N.eqb BACKSLASH BACKSLASH) with true. cbv iota.
  change (JSON.unescape 117%N) with (@None codeunit). cbv iota.
  change (N.eqb 117 117) with true. cbv iota.
  rewrite H. reflexivity.
Qed.

(** Each two-character escape is read back as the character it stands for. *)
Lemma unescape_short_escape (c e : codeunit) :
  short_escape c = Some e -> JSON.unescape e = Some c.
Proof.
  unfold short_escape.
  repeat match goal with
         | |- context [N.eqb c ?k] =>
             destruct (N.eqb_spec c k) as [->|?];
             [intros H; injection H as <-; reflexivity|]
         end.
  discriminate.
Qed.

Lemma short_escape_none (c : codeunit) :
  short_escape c = None ->
  N.eqb c DQUOTE = false /\ N.eqb c BACKSLASH = false.
Proof.
  unfold short_escape.
  repeat match goal with
         | |- context [N.eqb c ?k] =>
             destruct (N.eqb_spec c k) as [->|?]; [discriminate|]
         end.
  intros _. split; reflexivity.
Qed.

Lemma hex_digit_ok (n : N) :
  (n < 16)%N -> isHexDigit (hex_digit n) = true /\ hex_value (hex_digit n) = n.
Proof.
  intros H.
  assert (E : In n [0; 1; 2; 3; 4; 5; 6; 7; 8; 9; 10; 11; 12; 13; 14; 15]%N).
  { simpl. lia. }
  simpl in E.
  repeat (destruct E as [<-|E]; [split; reflexivity|]). contradiction.
Qed.

(** A [\uXXXX] escape is read back as the code unit it was made from. *)
Lemma hex4_UnicodeEscape (c : codeunit) :
  (c < 65536)%N ->
  JSON.hex4 (hex_digit (N.modulo (N.div c 4096) 16))
    (hex_digit (N.modulo (N.div c 256) 16))
    (hex_digit (N.modulo (N.div c 16) 16))
    (hex_digit (N.modulo c 16)) = Some c.
Proof.
  intros Hc. unfold JSON.hex4.
  assert (H16 : forall x, (x mod 16 < 16)%N) by (intros; apply N.mod_lt; lia).
  destruct (hex_digit_ok _ (H16 (c / 4096)%N)) as [A1 B1].
  destruct (hex_digit_ok _ (H16 (c / 256)%N)) as [A2 B2].
  destruct (hex_digit_ok _ (H16 (c / 16)%N)) as [A3 B3].
  destruct (hex_digit_ok _ (H16 c)) as [A4 B4].
  rewrite A1, A2, A3, A4, B1, B2, B3, B4. cbn [andb]. f_equal.
  pose proof (N.div_mod c 16 ltac:(lia)).
  pose proof (N.div_mod (c / 16) 16 ltac:(lia)).
  pose proof (N.div_mod (c / 256) 16 ltac:(lia)).
  assert (E1 : (c / 16 / 16 = c / 256)%N) by (rewrite N.Div0.div_div; reflexivity).
  assert (E2 : (c / 256 / 16 = c / 4096)%N) by (rewrite N.Div0.div_div; reflexivity).
  assert (E3 : (c / 4096 < 16)%N) by (apply N.Div0.div_lt_upper_bound; lia).
  rewrite (N.mod_small (c / 4096) 16) by assumption.
  rewrite E1 in *. rewrite E2 in *. lia.
Qed.

(** The string lexer, anywhere inside a string literal, reads the output
    of [quote_contents] as the original characters and stays inside the
    literal. *)
Lemma lex_quote_contents_len (n : nat) :
  forall s, (List.length s <= n)%nat ->
  forall start acc pos rest,
  exists pos',
    JSON.lex (JSON.InString start acc) pos (quote_contents s ++ rest)
    = JSON.lex (JSON.InString start (rev s ++ acc)) pos' rest.
Proof.
  induction n as [|n IH]; intros s Hlen start acc pos rest.
  - destruct s; [|simpl in Hlen; lia]. exists pos. reflexivity.
  - destruct s as [|c s']; [exists pos; reflexivity|].
    simpl in Hlen.
    assert (Hs' : (List.length s' <= n)%nat) by lia.
    assert (Hstep : forall x, rev x ++ c :: acc = rev (c :: x) ++ acc).
    { intros x. cbn [rev]. rewrite <- app_assoc. reflexivity. }
    assert (Huni : (c < 65536)%N ->
              exists pos',
                JSON.lex (JSON.InString start acc) pos
                  ((UnicodeEscape c ++ quote_contents s') ++ rest)
                = JSON.lex (JSON.InString start (rev (c :: s') ++ acc)) pos' rest).
    { intros Hc. unfold UnicodeEscape. cbn [app].
      rewrite (lex_string_unicode _ _ _ _ _ _ _ _ _ (hex4_UnicodeEscape _ Hc)).
      destruct (IH s' Hs' start (c :: acc) (pos + 6)%N rest) as [p Hp].
      exists p. rewrite Hp, Hstep. reflexivity. }
    assert (Hplain : N.eqb c DQUOTE = false -> N.eqb c BACKSLASH = false ->
              N.ltb c 32 = false ->
              exists pos',
                JSON.lex (JSON.InString start acc) pos
                  ((c :: quote_contents s') ++ rest)
                = JSON.lex (JSON.InString start (rev (c :: s') ++ acc)) pos' rest).
    { intros H1 H2 H3. cbn [app]. rewrite (lex_string_plain _ _ _ _ _ H1 H2 H3).
      destruct (IH s' Hs' start (c :: acc) (pos + 1)%N rest) as [p Hp].
      exists p. rewrite Hp, Hstep. reflexivity. }
    cbn [quote_contents].
    destruct (short_escape c) as [e|] eqn:Ese.
    + cbn [app].
      rewrite (lex_string_escape _ _ _ _ _ _ (unescape_short_escape _ _ Ese)).
      destruct (IH s' Hs' start (c :: acc) (pos + 2)%N rest) as [p Hp].
      exists p. rewrite Hp, Hstep. reflexivity.
    + destruct (short_escape_none _ Ese) as [Hq Hb].
      destruct (N.ltb c 32) eqn:Hctl.
      { apply Huni. apply N.ltb_lt in Hctl. lia. }
      destruct (isHighSurrogate c) eqn:Hhi.
      { assert (Hc : (c < 65536)%N).
        { unfold isHighSurrogate in Hhi. apply andb_prop in Hhi as [_ Hhi].
          apply N.leb_le in Hhi. lia. }
        destruct s' as [|d s''].
        - apply Huni, Hc.
        - destruct (isLowSurrogate d) eqn:Hlo.
          + cbn [app]. rewrite (lex_string_plain _ _ _ _ _ Hq Hb Hctl).
            assert (Hd : N.eqb d DQUOTE = false /\ N.eqb d BACKSLASH = false
                         /\ N.ltb d 32 = false).
            { unfold isLowSurrogate in Hlo. apply andb_prop in Hlo as [Hlo _].
              apply N.leb_le in Hlo. unfold DQUOTE, BACKSLASH.
              repeat split; [apply N.eqb_neq|apply N.eqb_neq|apply N.ltb_ge]; lia. }
            destruct Hd as (Hd1 & Hd2 & Hd3).
            rewrite (lex_string_plain _ _ _ _ _ Hd1 Hd2 Hd3).
            simpl in Hs'.
            destruct (IH s'' ltac:(lia) start (d :: c :: acc) (pos + 1 + 1)%N rest)
              as [p Hp].
            exists p. rewrite Hp. cbn [rev]. rewrite <- !app_assoc. reflexivity.
          + apply Huni, Hc. }
      destruct (isLowSurrogate c) eqn:Hlo.
      { apply Huni. unfold isLowSurrogate in Hlo. apply andb_prop in Hlo as [_ Hlo].
        apply N.leb_le in Hlo. lia. }
      apply Hplain; auto.
Qed.

Lemma lex_quote_contents (s : jsstring) (start : N) (acc : jsstring) (pos : N)
  (rest : jsstring) :
  exists pos',
    JSON.lex (JSON.InString start acc) pos (quote_contents s ++ rest)
    = JSON.lex (JSON.InString start (rev s ++ acc)) pos' rest.
Proof. apply (lex_quote_contents_len (List.length s)). lia. Qed.

(** Followed by the closing quote, it gives the string token. *)
Lemma lex_quote_contents_close (s : jsstring) (start : N) (acc : jsstring)
  (pos : N) (rest : jsstring) :
  exists pos',
    JSON.lex (JSON.InString start acc) pos (quote_contents s ++ DQUOTE :: rest)
    = (start, JSON.TStr (rev acc ++ s)) :: JSON.lex JSON.Main pos' rest.
Proof.
  destruct (lex_quote_contents s start acc pos (DQUOTE :: rest)) as [p Hp].
  exists (p + 1)%N. rewrite Hp, lex_string_close, rev_app_distr, rev_involutive.
  reflexivity.
Qed.

(** [JSON.parse] inverts [JSON.stringify] on strings. *)
Lemma parse_QuoteJSONString (s : jsstring) :
  JSON.parse (QuoteJSONString s) = Ok (JString s).
Proof.
  unfold JSON.parse, QuoteJSONString.
  change (JSON.lex JSON.Main 0 (DQUOTE :: quote_contents s ++ [DQUOTE]))
    with (JSON.lex (JSON.InString 0 []) (0 + 1) (quote_contents s ++ [DQUOTE])).
  destruct (lex_quote_contents_close s 0%N [] (0 + 1)%N []) as [p Hp].
  rewrite Hp. reflexivity.
Qed.

(* ================================================================== *)
(** * The helper [jstr] *)

Lemma strip_quotes_quoted (m : jsstring) :
  strip_quotes (DQUOTE :: m ++ [DQUOTE]) = m.
Proof.
  unfold strip_quotes. change (N.eqb DQUOTE DQUOTE) with true. cbv iota.
  rewrite rev_app_distr. cbn [rev app].
  change (N.eqb DQUOTE DQUOTE) with true. cbv iota. apply rev_involutive.
Qed.

(** What [jstr] inserts for a string is the escaped contents. *)
Lemma jstr_helper_string (s : jsstring) :
  jstr_helper (Some (JString s))
  = Ok (Handlebars.mkSafeString (Some (quote_contents s))).
Proof.
  unfold jstr_helper, JSON.stringify, option_map, JSON.stringify_value,
    QuoteJSONString.
  rewrite slice_1_m1. reflexivity.
Qed.

(** C3: on a string the helper does what the claim says, it strips the
    two quotes of the serialization and nothing else; on a value that is
    not a string it does not.  The variables [n=42] bind [n] to the
    number 42, whose serialization [42] has no quotes to strip; [jstr]
    removes its two digits, and the template [{"n":"{{jstr n}}"}] is
    built into [{"n":""}].  Likewise [true] gives [ru]. *)
Theorem jstr_mangles_what_is_not_a_string :
  (forall s : jsstring,
      jstr_helper (Some (JString s))
      = Ok (Handlebars.mkSafeString
              (Some (strip_quotes (JSON.stringify_value (JString s))))))
  /\ parseVariables (Some (lit "n=42")) = [(lit "n", JNumber (Fin false 42 0))]
  /\ JSON.stringify_value (JNumber (Fin false 42 0)) = lit "42"
  /\ strip_quotes (lit "42") = lit "42"
  /\ jstr_helper (Some (JNumber (Fin false 42 0)))
     = Ok (Handlebars.mkSafeString (Some []))
  /\ buildBodyFromTemplate Handlebars.fragment_engine (jq "{'n':'{{jstr n}}'}")
       (Some (lit "n=42"))
     = Ok (mkBuildResult (JObject [(lit "n", JString [])]) (jq "{'n':''}"))
  /\ jstr_helper (Some (JBool true))
     = Ok (Handlebars.mkSafeString (Some (lit "ru"))).
Proof.
  split.
  { intros s. rewrite jstr_helper_string. cbn [JSON.stringify_value].
    unfold QuoteJSONString. now rewrite strip_quotes_quoted. }
  repeat split; vm_compute; reflexivity.
Qed.

(* ================================================================== *)
(** * [jstr] inside quotes *)

Lemma who_is_eq (v : jsstring) :
  who_is v = jq "{'who':" ++ DQUOTE :: quote_contents v ++ DQUOTE :: lit "}".
Proof.
  unfold who_is. cbn [JSON.stringify_value]. unfold QuoteJSONString.
  f_equal. cbn [app]. f_equal. rewrite <- app_assoc. reflexivity.
Qed.

Lemma parse_who_is (v : jsstring) :
  JSON.parse (who_is v) = Ok (JObject [(lit "who", JString v)]).
Proof.
  rewrite who_is_eq. unfold JSON.parse.
  match goal with
  | |- context [JSON.lex JSON.Main 0 ?t] =>
      change (JSON.lex JSON.Main 0 t)
        with ([(0, JSON.TLBrace); (1, JSON.TStr (lit "who")); (6, JSON.TColon)]%N
              ++ JSON.lex (JSON.InString 7 []) 8
                   (quote_contents v ++ DQUOTE :: lit "}"))
  end.
  destruct (lex_quote_contents_close v 7%N [] 8%N (lit "}")) as [p Hp].
  rewrite Hp. reflexivity.
Qed.

(* ================================================================== *)
(** * [parseVariables]: the JSON path *)

Lemma isSpace_cases (c : codeunit) :
  isSpace c = true ->
  (c = 9 \/ c = 10 \/ c = 11 \/ c = 12 \/ c = 13 \/ c = 32 \/ 160 <= c)%N.
Proof.
  unfold isSpace, isWhiteSpaceOnly, isLineTerminator.
  rewrite !orb_true_iff, !andb_true_iff, !N.eqb_eq, !N.leb_le. lia.
Qed.

(** A blank text has no token, or a bad one first. *)
Lemma lex_blank (s : jsstring) :
  forallb isSpace s = true ->
  forall pos,
    JSON.lex JSON.Main pos s = []
    \/ exists p, JSON.lex JSON.Main pos s = [(p, JSON.TBad false)].
Proof.
  induction s as [|c s IH]; intros H pos; [left; reflexivity|].
  cbn [forallb] in H. apply andb_prop in H as [Hc Hs].
  cbn [JSON.lex].
  destruct (JSON.isJSONSpace c) eqn:Hj; [apply IH, Hs|].
  right. exists pos.
  apply isSpace_cases in Hc.
  assert (Hc' : (c = 11 \/ c = 12 \/ 160 <= c)%N).
  { unfold JSON.isJSONSpace in Hj.
    rewrite !orb_false_iff, !N.eqb_neq in Hj. lia. }
  clear Hc Hj.
  unfold isDigit, DQUOTE.
  repeat match goal with
         | |- context [N.eqb c ?k] => destruct (N.eqb_spec c k); [lia|]
         | |- context [N.leb ?a ?b] => destruct (N.leb_spec a b); [try lia|try lia]
         end; reflexivity.
Qed.

(** [JSON.parse] throws on a blank text. *)
Lemma parse_blank (s : jsstring) :
  forallb isSpace s = true -> exists e, JSON.parse s = Throw e.
Proof.
  intros H. unfold JSON.parse.
  destruct (lex_blank s H 0%N) as [E|[p E]]; rewrite E; cbn; eauto.
Qed.

(** A text that decodes to an object is returned decoded. *)
Lemma parseVariables_decoded (s : jsstring) (o : JSONObject) :
  JSON.parse s = Ok (JObject o) -> parseVariables (Some s) = o.
Proof.
  intros H. unfold parseVariables.
  destruct (forallb isSpace s) eqn:Hb.
  { destruct (parse_blank s Hb) as [e He]. congruence. }
  assert (Ht : str_eqb (trim s) [] = false).
  { apply str_eqb_neq. intros Ht. apply trim_nil_iff in Ht. congruence. }
  rewrite Ht, H. destruct s; [discriminate|]. reflexivity.
Qed.

(** C9: for every input that parses as a JSON object, [parseVariables]
    returns the decoded object itself: the mapping is the JSON decode
    of the input, with no coercion of its values. *)
Theorem parseVariables_json_object (s : jsstring) (o : JSONObject) :
  JSON.parse s = Ok (JObject o) -> parseVariables (Some s) = o.
Proof.
  intros H. destruct (JSON.parse s) as [v|e] eqn:E; [|discriminate].
  injection H as ->. apply parseVariables_decoded, E.
Qed.

Lemma parseVariables_json_object_witness :
  JSON.parse (jq "{'name':'World','nested':{'n':1},'arr':[1,2,3]}")
  = Ok (JObject
          [(lit "name", JString (lit "World"));
           (lit "nested", JObject [(lit "n", JNumber (Fin false 1 0))]);
           (lit "arr", JArray [JNumber (Fin false 1 0); JNumber (Fin false 2 0);
                               JNumber (Fin false 3 0)])])
  /\ parseVariables (Some (jq "{'name':'World','nested':{'n':1},'arr':[1,2,3]}"))
     = [(lit "name", JString (lit "World"));
        (lit "nested", JObject [(lit "n", JNumber (Fin false 1 0))]);
        (lit "arr", JArray [JNumber (Fin false 1 0); JNumber (Fin false 2 0);
                            JNumber (Fin false 3 0)])].
Proof.
  split; [vm_compute; reflexivity|].
  apply parseVariables_json_object. vm_compute. reflexivity.
Defined.

Lemma parseVariables_who_is (v : jsstring) :
  parseVariables (Some (who_is v)) = [(lit "who", JString v)].
Proof. apply parseVariables_decoded, parse_who_is. Qed.

(** The text rendered from [hello_template] when [who] is the string [v]. *)
Lemma fragment_hello (v : jsstring) :
  Handlebars.fragment registered_helpers hello_template [(lit "who", JString v)]
  = Some (Ok (jq "{'msg_type':'text','content':{'text':'Hello "
              ++ quote_contents v ++ jq "'}}")).
Proof.
  unfold Handlebars.fragment.
  change (Handlebars.scan (Handlebars.SContent []) hello_template)
    with (Some [Handlebars.Content (jq "{'msg_type':'text','content':{'text':'Hello ");
                Handlebars.HelperCall (lit "jstr") (lit "who");
                Handlebars.Content (jq "'}}")]).
  cbn [Handlebars.render Handlebars.render_segment Handlebars.adds_values].
  change (existsb (str_eqb (lit "jstr")) Handlebars.builtin_helpers) with false.
  change (Handlebars.find_helper registered_helpers (lit "jstr"))
    with (Some jstr_helper).
  change (obj_get [(lit "who", JString v)] (lit "who")) with (Some (JString v)).
  cbv iota. rewrite jstr_helper_string.
  cbn [Handlebars.toString Handlebars.string_]. rewrite app_nil_r. reflexivity.
Qed.

Lemma parse_hello (v : jsstring) :
  JSON.parse (jq "{'msg_type':'text','content':{'text':'Hello "
              ++ quote_contents v ++ jq "'}}")
  = Ok (JObject
          [(lit "msg_type", JString (lit "text"));
           (lit "content", JObject [(lit "text", JString (lit "Hello " ++ v))])]).
Proof.
  unfold JSON.parse.
  match goal with
  | |- context [JSON.lex JSON.Main 0 ?t] =>
      change (JSON.lex JSON.Main 0 t)
        with ([(0, JSON.TLBrace); (1, JSON.TStr (lit "msg_type")); (11, JSON.TColon);
               (12, JSON.TStr (lit "text")); (18, JSON.TComma);
               (19, JSON.TStr (lit "content")); (28, JSON.TColon);
               (29, JSON.TLBrace); (30, JSON.TStr (lit "text")); (36, JSON.TColon)]%N
              ++ JSON.lex (JSON.InString 37 (rev (lit "Hello "))) 44
                   (quote_contents v ++ DQUOTE :: lit "}}"))
  end.
  destruct (lex_quote_contents_close v 37%N (rev (lit "Hello ")) 44%N (lit "}}"))
    as [p Hp].
  rewrite Hp. reflexivity.
Qed.

(** The end-to-end scenario of the specification, for every string:
    rendering [hello_template] with [who] bound to [v] gives valid JSON
    whose text field is [Hello ] followed by [v]. *)
Lemma hello_template_roundtrip (compile : Handlebars.Engine) (v : jsstring) :
  Handlebars.agrees_on compile registered_helpers hello_template ->
  buildBodyFromTemplate compile hello_template (Some (who_is v))
  = Ok (mkBuildResult
          (JObject
             [(lit "msg_type", JString (lit "text"));
              (lit "content",
               JObject [(lit "text", JString (lit "Hello " ++ v))])])
          (jq "{'msg_type':'text','content':{'text':'Hello "
           ++ quote_contents v ++ jq "'}}")).
Proof.
  intros Hext. unfold buildBodyFromTemplate. rewrite parseVariables_who_is.
  rewrite (Hext _ _ (fragment_hello v)).
  cbn [bind]. unfold validate. rewrite parse_hello. reflexivity.
Qed.

Lemma fragment_engine_agrees (helpers : Handlebars.Helpers) (template : jsstring) :
  Handlebars.agrees_on Handlebars.fragment_engine helpers template.
Proof.
  intros ctx r H. unfold Handlebars.fragment_engine. rewrite H. reflexivity.
Defined.

(* ================================================================== *)
(** * The Body Validator *)

Lemma includes_intro (pre t post : jsstring) : includes (pre ++ t ++ post) t.
Proof. exists pre, post. reflexivity. Qed.

(** C7: [buildBodyFromTemplate], once the template is rendered to [text],
    returns the JSON decode of [text] when [text] is valid JSON, and
    otherwise throws an error whose message contains both the message of
    the parse error and the whole of [text]. *)
Theorem validation_is_self_diagnosing (compile : Handlebars.Engine)
  (template : jsstring) (variablesInput : option jsstring) (text : jsstring) :
  compile registered_helpers template (parseVariables variablesInput) = Ok text ->
  match JSON.parse text with
  | Ok v =>
      buildBodyFromTemplate compile template variablesInput
      = Ok (mkBuildResult v text)
  | Throw err =>
      exists e,
        buildBodyFromTemplate compile template variablesInput = Throw e
        /\ TemplateRenderError e
        /\ includes (message e) (message err)
        /\ includes (message e) text
  end.
Proof.
  intros Hr. unfold buildBodyFromTemplate. rewrite Hr. cbn [bind].
  unfold validate. destruct (JSON.parse text) as [v|err]; [reflexivity|].
  eexists. split; [reflexivity|]. repeat split.
  - apply includes_intro.
  - cbn [message]. exists
      (lit "Interpolated message_template is not valid JSON. Error: "
       ++ message err ++ lit ". Content: "), [].
    rewrite app_nil_r, <- !app_assoc. reflexivity.
Qed.

(** The scenario of a raw [{{who}}] whose value holds a double quote. *)
Lemma validation_witness :
  Handlebars.fragment_engine registered_helpers (jq "{'a':'{{who}}'}")
    (parseVariables (Some (jq "{'who':'x\'y'}")))
  = Ok (jq "{'a':'x'y'}")
  /\ exists e,
       buildBodyFromTemplate Handlebars.fragment_engine (jq "{'a':'{{who}}'}")
         (Some (jq "{'who':'x\'y'}")) = Throw e
       /\ TemplateRenderError e
       /\ includes (message e) (lit "Unexpected token in JSON at position 8")
       /\ includes (message e) (jq "{'a':'x'y'}").
Proof.
  split; [reflexivity|].
  exact (validation_is_self_diagnosing Handlebars.fragment_engine
           (jq "{'a':'{{who}}'}") (Some (jq "{'who':'x\'y'}"))
           (jq "{'a':'x'y'}") eq_refl).
Defined.

(* ================================================================== *)
(** * Signing *)

(** C4: the signature is the Base64 text of the HMAC-SHA256 of the empty
    message under the key made of the decimal timestamp, a line feed and
    the secret.  It is a function of the secret and the timestamp alone,
    so that equal inputs give equal signatures.  For the secret [abc] at
    1700000000 the key is [1700000000\nabc], and the signature is the
    text shown. *)
Theorem signature_is_hmac_of_empty_message (secret : jsstring) (nowSeconds : Z) :
  generateLarkWebhookSignature secret nowSeconds = spec_signature secret nowSeconds
  /\ generateLarkWebhookSignature (lit "abc") 1700000000
     = crypto.base64
         (crypto.hmac_sha256 (crypto.utf8 (lit "1700000000" ++ [10%N] ++ lit "abc")) [])
  /\ generateLarkWebhookSignature (lit "abc") 1700000000
     = lit "VIS10b0EBvzzSdFnuk4tznEmK5wHaruvf/WnViv2yR4=".
Proof.
  split; [|split].
  - unfold generateLarkWebhookSignature, spec_signature, crypto.digest,
      crypto.update, crypto.createHmac.
    cbn [crypto.hmac_key crypto.hmac_data]. reflexivity.
  - vm_compute. reflexivity.
  - vm_compute. reflexivity.
Qed.

(** ** Objects: reading after writing *)

Lemma obj_has_In (o : JSONObject) (k : jsstring) :
  obj_has o k = true <-> In k (map fst o).
Proof.
  induction o as [|[k' v'] o IH]; simpl; [split; [discriminate|tauto]|].
  rewrite orb_true_iff, IH.
  destruct (str_eqb_spec k' k); intuition congruence.
Qed.

Lemma obj_has_get_none (o : JSONObject) (k : jsstring) :
  obj_has o k = false -> obj_get o k = None.
Proof.
  induction o as [|[k' v'] o IH]; simpl; auto.
  destruct (str_eqb k' k); simpl; auto; discriminate.
Qed.

Lemma obj_get_replace_eq (o : JSONObject) (k : jsstring) (v : JSONValue) :
  obj_has o k = true -> obj_get (obj_replace o k v) k = Some v.
Proof.
  induction o as [|[k' v'] o IH]; simpl; [discriminate|].
  destruct (str_eqb k' k) eqn:E; simpl; rewrite E; auto.
Qed.

Lemma obj_get_replace_neq (o : JSONObject) (k k' : jsstring) (v : JSONValue) :
  k' <> k -> obj_get (obj_replace o k v) k' = obj_get o k'.
Proof.
  intros Hne. induction o as [|[k0 v0] o IH]; simpl; auto.
  destruct (str_eqb_spec k0 k) as [->|H0]; simpl.
  - rewrite (str_eqb_neq k k') by congruence. reflexivity.
  - destruct (str_eqb k0 k'); auto.
Qed.

Lemma obj_get_insert_index (o : JSONObject) (i : N) (k k' : jsstring)
  (v : JSONValue) :
  obj_has o k = false ->
  obj_get (obj_insert_index o i k v) k'
  = if str_eqb k k' then Some v else obj_get o k'.
Proof.
  induction o as [|[k0 v0] o IH]; intros Hno; simpl; auto.
  simpl in Hno. apply orb_false_elim in Hno as [H0 Hno].
  destruct (array_index k0) as [j|]; [destruct (N.ltb j i)|]; simpl; auto.
  rewrite (IH Hno).
  destruct (str_eqb_spec k0 k'), (str_eqb_spec k k'); auto.
  subst. rewrite str_eqb_refl in H0. discriminate.
Qed.

Lemma obj_get_app_new (o : JSONObject) (k k' : jsstring) (v : JSONValue) :
  obj_has o k = false ->
  obj_get (o ++ [(k, v)]) k' = if str_eqb k k' then Some v else obj_get o k'.
Proof.
  induction o as [|[k0 v0] o IH]; intros Hno; simpl; auto.
  simpl in Hno. apply orb_false_elim in Hno as [H0 Hno].
  rewrite (IH Hno).
  destruct (str_eqb_spec k0 k'), (str_eqb_spec k k'); auto.
  subst. rewrite str_eqb_refl in H0. discriminate.
Qed.

(** After [o.k = v], reading [k] gives [v]... *)
Lemma obj_get_put_eq (o : JSONObject) (k : jsstring) (v : JSONValue) :
  obj_get (obj_put o k v) k = Some v.
Proof.
  unfold obj_put. destruct (obj_has o k) eqn:E.
  - apply obj_get_replace_eq, E.
  - destruct (array_index k).
    + rewrite obj_get_insert_index, str_eqb_refl by assumption. reflexivity.
    + rewrite obj_get_app_new, str_eqb_refl by assumption. reflexivity.
Qed.

(** ... and reading any other key gives what it gave before. *)
Lemma obj_get_put_neq (o : JSONObject) (k k' : jsstring) (v : JSONValue) :
  k' <> k -> obj_get (obj_put o k v) k' = obj_get o k'.
Proof.
  intros Hne. unfold obj_put. destruct (obj_has o k) eqn:E.
  - apply obj_get_replace_neq, Hne.
  - destruct (array_index k).
    + rewrite obj_get_insert_index, str_eqb_neq by congruence. reflexivity.
    + rewrite obj_get_app_new, str_eqb_neq by congruence. reflexivity.
Qed.

Lemma keys_replace (o : JSONObject) (k : jsstring) (v : JSONValue) :
  map fst (obj_replace o k v) = map fst o.
Proof.
  induction o as [|[k0 v0] o IH]; simpl; auto.
  destruct (str_eqb k0 k); simpl; congruence.
Qed.

Lemma keys_insert_index (o : JSONObject) (i : N) (k : jsstring) (v : JSONValue) :
  exists l1 l2,
    map fst o = l1 ++ l2 /\ map fst (obj_insert_index o i k v) = l1 ++ k :: l2.
Proof.
  induction o as [|[k0 v0] o IH]; simpl.
  - exists [], []. auto.
  - destruct (array_index k0) as [j|]; [destruct (N.ltb j i)|].
    + destruct IH as (l1 & l2 & E1 & E2). exists (k0 :: l1), l2.
      simpl. rewrite E1, E2. auto.
    + exists [], (k0 :: map fst o). auto.
    + exists [], (k0 :: map fst o). auto.
Qed.

(** Writing a property keeps the keys distinct. *)
Lemma obj_put_wf (o : JSONObject) (k : jsstring) (v : JSONValue) :
  obj_wf o -> obj_wf (obj_put o k v).
Proof.
  unfold obj_wf, obj_put. intros Hwf.
  destruct (obj_has o k) eqn:E.
  - now rewrite keys_replace.
  - assert (Hnin : ~ In k (map fst o)).
    { rewrite <- obj_has_In. congruence. }
    destruct (array_index k) as [i|].
    + destruct (keys_insert_index o i k v) as (l1 & l2 & E1 & E2).
      rewrite E2. rewrite E1 in Hwf, Hnin.
      apply NoDup_Add with (a := k) (l := l1 ++ l2); [apply Add_app|].
      split; assumption.
    + rewrite map_app. simpl.
      apply NoDup_Add with (a := k) (l := map fst o ++ []).
      * apply Add_app.
      * rewrite app_nil_r. split; assumption.
Qed.

Lemma fold_put_wf (l : JSONObject) (acc : JSONObject) :
  obj_wf acc ->
  obj_wf (fold_left (fun a kv => obj_put a (fst kv) (snd kv)) l acc).
Proof.
  revert acc. induction l as [|[k v] l IH]; intros acc H; simpl; auto.
  apply IH, obj_put_wf, H.
Qed.

Lemma fold_put_get (l : JSONObject) :
  obj_wf l ->
  forall acc k,
    obj_get (fold_left (fun a kv => obj_put a (fst kv) (snd kv)) l acc) k
    = match obj_get l k with
      | Some v => Some v
      | None => obj_get acc k
      end.
Proof.
  induction l as [|[k0 v0] l IH]; intros Hwf acc k; simpl; auto.
  unfold obj_wf in Hwf. simpl in Hwf. apply NoDup_cons_iff in Hwf as [Hnin Hwf].
  rewrite (IH Hwf).
  destruct (str_eqb_spec k0 k) as [->|Hne].
  - rewrite obj_has_get_none.
    + apply obj_get_put_eq.
    + destruct (obj_has l k) eqn:E; auto. apply obj_has_In in E. contradiction.
  - rewrite obj_get_put_neq by congruence. reflexivity.
Qed.

(** The copy made by the spread has the properties of the original. *)
Lemma spread_get (o : JSONObject) (k : jsstring) :
  obj_wf o -> obj_get (spread o) k = obj_get o k.
Proof.
  intros H. unfold spread. rewrite (fold_put_get o H).
  destruct (obj_get o k); reflexivity.
Qed.

Lemma spread_wf (o : JSONObject) : obj_wf (spread o).
Proof. apply fold_put_wf. constructor. Qed.

(** ** Decoded objects have distinct keys *)

Lemma deliver_wf (v : JSONValue) (st : list JSON.frame) p' st' :
  top_wf v -> Forall frame_wf st ->
  JSON.deliver v st = Some (p', st') -> pstate_wf p' /\ Forall frame_wf st'.
Proof.
  intros Hv Hst. destruct st as [|[items|props|props k] st]; simpl;
    intros H; inversion H; subst; clear H.
  - split; [exact Hv|constructor].
  - inversion Hst; subst. split; [exact I|]. constructor; [exact I|assumption].
  - inversion Hst; subst. split; [exact I|].
    constructor; [apply obj_put_wf; assumption|assumption].
Qed.

Lemma step_wf (p : JSON.pstate) (st : list JSON.frame) (t : JSON.token) p' st' :
  Forall frame_wf st ->
  JSON.step p st t = Some (p', st') -> pstate_wf p' /\ Forall frame_wf st'.
Proof.
  intros Hst.
  assert (Hstart : forall t, JSON.start_value t st = Some (p', st') ->
                             pstate_wf p' /\ Forall frame_wf st').
  { intros t0. destruct t0; simpl; intros H;
      try discriminate;
      try (eapply deliver_wf; [|exact Hst|exact H]; exact I);
      inversion H; subst; (split; [exact I|]);
      (constructor; [constructor|assumption]). }
  assert (Hca : JSON.close_array st = Some (p', st') ->
                pstate_wf p' /\ Forall frame_wf st').
  { unfold JSON.close_array. destruct st as [|[items|props|props k] st];
      try discriminate.
    inversion Hst; subst. intros H. eapply deliver_wf; [|eassumption|exact H].
    exact I. }
  assert (Hco : JSON.close_object st = Some (p', st') ->
                pstate_wf p' /\ Forall frame_wf st').
  { unfold JSON.close_object. destruct st as [|[items|props|props k] st];
      try discriminate.
    inversion Hst; subst. intros H. eapply deliver_wf; [|eassumption|exact H].
    assumption. }
  assert (Hkey : JSON.read_key t st = Some (p', st') ->
                 pstate_wf p' /\ Forall frame_wf st').
  { unfold JSON.read_key. destruct t; try discriminate.
    destruct st as [|[items|props|props k] st]; try discriminate.
    intros H. inversion H; subst. inversion Hst; subst.
    split; [exact I|]. constructor; assumption. }
  unfold JSON.step.
  destruct p; try discriminate; destruct t; try discriminate; eauto;
    intros H; inversion H; subst; (split; [exact I|assumption]).
Qed.

Lemma automaton_wf (ts : list (N * JSON.token)) :
  forall p st v,
    pstate_wf p -> Forall frame_wf st ->
    JSON.automaton p st ts = inl v -> top_wf v.
Proof.
  induction ts as [|[pos t] ts IH]; intros p st v Hp Hst; simpl.
  - destruct p; try discriminate. intros H. inversion H; subst. exact Hp.
  - assert (Hgo : match JSON.step p st t with
                  | Some (p', stack') => JSON.automaton p' stack' ts
                  | None => inr (JSON.UnexpectedToken pos)
                  end = inl v -> top_wf v).
    { destruct (JSON.step p st t) as [[p' st']|] eqn:E; [|discriminate].
      destruct (step_wf _ _ _ _ _ Hst E) as [Hp' Hst'].
      apply IH; assumption. }
    destruct t; auto. destruct at_end; [discriminate|auto].
Qed.

(** The object decoded from a JSON text has one value per key. *)
Lemma parse_object_wf (text : jsstring) (o : JSONObject) :
  JSON.parse text = Ok (JObject o) -> obj_wf o.
Proof.
  unfold JSON.parse.
  destruct (JSON.automaton JSON.PValue [] (JSON.lex JSON.Main 0 text)) as [v|e] eqn:E;
    [|discriminate].
  intros H. inversion H; subst.
  exact (automaton_wf _ JSON.PValue [] (JObject o) I (Forall_nil _) E).
Qed.

(** C5: with a blank secret (absent, empty or white space only) the body
    is returned unchanged whatever its type; with any other secret, a
    body that is not an object (a list or a scalar, [null] included) makes
    [augment] fail with the signing precondition error, and
    [sendLarkWebhook] then throws it before any request is made. *)
Theorem signing_requires_an_object (body : JSONValue) (secret : option jsstring)
  (now_ms : Z) (network : jsstring -> Request -> option Z -> Outcome Response)
  (url : jsstring) (opts : SendOptions) :
  if blank secret then augment body secret (now_ms / 1000) = Ok body
  else
    match body with
    | JObject _ => True
    | _ =>
        augment body secret (now_ms / 1000) = Throw signing_error
        /\ SigningPreconditionError signing_error
        /\ sendLarkWebhook now_ms network url secret body opts
           = ([], Throw signing_error)
    end.
Proof.
  destruct secret as [key|]; [|reflexivity].
  unfold blank. destruct (str_eqb (trim key) []) eqn:E.
  - unfold augment. rewrite E. rewrite andb_false_r. reflexivity.
  - assert (Hk : match key with [] => false | _ => true end = true).
    { destruct key; [discriminate|reflexivity]. }
    assert (Hsend : forall b,
               augment b (Some key) (now_ms / 1000) = Throw signing_error ->
               sendLarkWebhook now_ms network url (Some key) b opts
               = ([], Throw signing_error)).
    { intros b Hb. unfold sendLarkWebhook. rewrite Hb. reflexivity. }
    assert (Haug : forall b,
               negb (truthy b) || negb (typeof_object b) || Array_isArray b = true ->
               augment b (Some key) (now_ms / 1000) = Throw signing_error).
    { intros b Hb. unfold augment. rewrite Hk, E, Hb. reflexivity. }
    destruct body; auto;
      match goal with
      | |- augment ?b _ _ = _ /\ _ =>
          assert (Hb : augment b (Some key) (now_ms / 1000) = Throw signing_error)
            by (apply Haug; cbn [truthy typeof_object Array_isArray negb];
                rewrite ?orb_true_r; reflexivity)
      end;
      (split; [exact Hb|split; [reflexivity|apply Hsend, Hb]]).
Qed.

(** C6: for an object body and a secret that is not blank, signing
    returns an object whose [timestamp] is the decimal string of the
    timestamp and whose [sign] is the signature, whether or not the body
    had such fields, and in which every other field reads as in the body. *)
Theorem signing_adds_timestamp_and_sign (o : JSONObject) (secret : jsstring)
  (nowSeconds : Z) :
  blank (Some secret) = false -> obj_wf o ->
  exists o',
    augment (JObject o) (Some secret) nowSeconds = Ok (JObject o')
    /\ obj_wf o'
    /\ obj_get o' (lit "timestamp") = Some (JString (decimal_of_Z nowSeconds))
    /\ obj_get o' (lit "sign")
       = Some (JString (generateLarkWebhookSignature secret nowSeconds))
    /\ forall k, k <> lit "timestamp" -> k <> lit "sign" ->
                 obj_get o' k = obj_get o k.
Proof.
  intros Hb Hwf. unfold blank in Hb.
  assert (Hk : match secret with [] => false | _ => true end = true).
  { destruct secret; [discriminate|reflexivity]. }
  eexists. split.
  { unfold augment. rewrite Hk, Hb. reflexivity. }
  split; [apply obj_put_wf, obj_put_wf, spread_wf|].
  split; [|split].
  - rewrite obj_get_put_neq by discriminate. apply obj_get_put_eq.
  - apply obj_get_put_eq.
  - intros k H1 H2. rewrite !obj_get_put_neq by assumption.
    apply spread_get, Hwf.
Qed.

Lemma signing_adds_timestamp_and_sign_witness :
  blank (Some (lit "abc")) = false
  /\ obj_wf [(lit "msg_type", JString (lit "text")); (lit "sign", JNull)]
  /\ exists o',
       augment (JObject [(lit "msg_type", JString (lit "text")); (lit "sign", JNull)])
         (Some (lit "abc")) 1700000000 = Ok (JObject o')
       /\ obj_wf o'
       /\ obj_get o' (lit "timestamp") = Some (JString (decimal_of_Z 1700000000))
       /\ obj_get o' (lit "sign")
          = Some (JString (generateLarkWebhookSignature (lit "abc") 1700000000))
       /\ forall k, k <> lit "timestamp" -> k <> lit "sign" ->
                    obj_get o' k
                    = obj_get [(lit "msg_type", JString (lit "text"));
                               (lit "sign", JNull)] k.
Proof.
  assert (Hwf : obj_wf [(lit "msg_type", JString (lit "text")); (lit "sign", JNull)]).
  { apply (parse_object_wf (jq "{'msg_type':'text','sign':null}")). reflexivity. }
  split; [reflexivity|]. split; [exact Hwf|].
  apply signing_adds_timestamp_and_sign; [reflexivity|exact Hwf].
Defined.

(* ================================================================== *)
(** * [parseVariables]: lines that start with a separator *)

Lemma isSeparator_not_space (c : codeunit) :
  isSeparator c = true -> isSpace c = false.
Proof.
  unfold isSeparator. rewrite orb_true_iff, !N.eqb_eq.
  intros [->| ->]; reflexivity.
Qed.

(** In fallback mode the mapping is built from the kept lines, in order. *)
Lemma parseVariables_fallback (input : jsstring) :
  forallb isSpace input = false ->
  (forall o, JSON.parse input <> Ok (JObject o)) ->
  parseVariables (Some input) = fold_left kv_step (kv_lines input) [].
Proof.
  intros Hb Hj. unfold parseVariables.
  assert (Ht : str_eqb (trim input) [] = false).
  { apply str_eqb_neq. intros Ht. apply trim_nil_iff in Ht. congruence. }
  rewrite Ht. destruct input as [|c input]; [discriminate|].
  cbn [orb]. destruct (JSON.parse (c :: input)) as [obj|e]; [|reflexivity].
  destruct obj; try reflexivity;
    try (destruct (truthy _ && typeof_object _ && negb (Array_isArray _));
         reflexivity).
  exfalso. apply (Hj props). reflexivity.
Qed.

(** C10, as stated, fails: the line [=a<CR>b] is trimmed, starts with a
    separator and is read in fallback mode, yet the pattern does not
    match it (its value part holds a line terminator), so the line is
    skipped and no entry is made for the empty key. *)
Lemma separator_line_with_CR_counterexample :
  trim (lit "=a" ++ [13%N] ++ lit "b") = lit "=a" ++ [13%N] ++ lit "b"
  /\ (exists e, JSON.parse (lit "=a" ++ [13%N] ++ lit "b") = Throw e)
  /\ kv_lines (lit "=a" ++ [13%N] ++ lit "b") = [lit "=a" ++ [13%N] ++ lit "b"]
  /\ re_exec (lit "=a" ++ [13%N] ++ lit "b") = None
  /\ parseVariables (Some (lit "=a" ++ [13%N] ++ lit "b")) = []
  /\ obj_get (parseVariables (Some (lit "=a" ++ [13%N] ++ lit "b"))) [] = None.
Proof.
  split; [reflexivity|]. split; [eexists; reflexivity|].
  repeat split.
Qed.

(** C10, amended: a line whose first character is a separator, and
    whose text after the separator and the white space that follows it
    holds no line terminator, is not skipped: the pattern matches with
    an empty key, the loop sets the entry of the empty key to the coerced
    remainder of the line, and when the line is the last one of an input
    read in fallback mode, that is the entry of the empty key in the
    mapping [parseVariables] returns. *)
Theorem separator_first_line_sets_empty_key (vars : JSONObject)
  (sep : codeunit) (rest : jsstring) :
  isSeparator sep = true ->
  forallb (fun x => negb (isLineTerminator x)) (trimStart rest) = true ->
  re_exec (sep :: rest) = Some ([], sep, trimStart rest)
  /\ kv_step vars (sep :: rest) = obj_put vars [] (coerceValue (trim rest))
  /\ obj_get (kv_step vars (sep :: rest)) [] = Some (coerceValue (trim rest))
  /\ forall (input : jsstring) (before : list jsstring),
       forallb isSpace input = false ->
       (forall o, JSON.parse input <> Ok (JObject o)) ->
       kv_lines input = before ++ [sep :: rest] ->
       obj_get (parseVariables (Some input)) [] = Some (coerceValue (trim rest)).
Proof.
  intros Hsep Hlt.
  assert (Hre : re_exec (sep :: rest) = Some ([], sep, trimStart rest)).
  { unfold re_exec, re_exec_from, match_after_key.
    cbn [dropWhile]. rewrite (isSeparator_not_space _ Hsep), Hsep.
    unfold trimStart in Hlt. rewrite Hlt. reflexivity. }
  assert (Hstep : forall vars0, kv_step vars0 (sep :: rest)
                  = obj_put vars0 [] (coerceValue (trim rest))).
  { intros vars0. unfold kv_step. rewrite Hre, trim_trimStart. reflexivity. }
  split; [exact Hre|]. split; [apply Hstep|].
  split; [rewrite Hstep; apply obj_get_put_eq|].
  intros input before Hb Hj Hlines.
  rewrite (parseVariables_fallback input Hb Hj), Hlines, fold_left_app.
  cbn [fold_left]. rewrite Hstep. apply obj_get_put_eq.
Qed.

Lemma separator_first_line_witness :
  isSeparator 61%N = true
  /\ forallb (fun x => negb (isLineTerminator x)) (trimStart (lit "foo")) = true
  /\ parseVariables (Some (lit "=foo")) = [([], JString (lit "foo"))]
  /\ re_exec (lit "=foo") = Some ([], 61%N, lit "foo")
  /\ kv_step [] (lit "=foo") = [([], JString (lit "foo"))]
  /\ obj_get (kv_step [] (lit "=foo")) [] = Some (JString (lit "foo")).
Proof.
  split; [reflexivity|]. split; [reflexivity|]. split; [reflexivity|].
  destruct (separator_first_line_sets_empty_key [] 61%N (lit "foo") eq_refl eq_refl)
    as (H1 & H2 & H3 & _).
  split; [exact H1|]. split; [exact H2|exact H3].
Defined.

(* ================================================================== *)
(** * Decimal numerals are read back by [parseInt] *)

Lemma digits_value_uint (d : Decimal.uint) :
  forall a : Decimal.uint,
    digits_value (DecimalPos.Unsigned.of_lu a) (uint_units d)
    = DecimalPos.Unsigned.of_lu (Decimal.revapp d a).
Proof.
  induction d; intros a; cbn [uint_units digits_value Decimal.revapp];
    try reflexivity;
    rewrite <- IHd; f_equal; cbn [DecimalPos.Unsigned.of_lu];
    unfold digit_unit; lia.
Qed.

Lemma digits_value_decimal (n : N) : digits_value 0 (decimal_of_N n) = n.
Proof.
  unfold decimal_of_N.
  pose proof (digits_value_uint (N.to_uint n) Decimal.Nil) as H.
  cbn [DecimalPos.Unsigned.of_lu] in H. rewrite H.
  change (Decimal.revapp (N.to_uint n) Decimal.Nil) with (Decimal.rev (N.to_uint n)).
  rewrite <- DecimalPos.Unsigned.of_uint_alt.
  apply DecimalN.Unsigned.of_to.
Qed.

Lemma span_digits_uint (d : Decimal.uint) :
  span_digits (uint_units d) = (uint_units d, []).
Proof.
  induction d; cbn [uint_units span_digits]; try reflexivity;
    change (isDigit (digit_unit _)) with true; cbv iota; rewrite IHd; reflexivity.
Qed.

Lemma uint_units_nonempty_pos (p : positive) : uint_units (Pos.to_uint p) <> [].
Proof.
  pose proof (DecimalPos.Unsigned.to_uint_nonnil p) as H.
  destruct (Pos.to_uint p); cbn; congruence.
Qed.

(** [parseInt] reads the decimal numeral of a positive integer back. *)
Lemma parseInt10_decimal (n : Z) :
  (0 < n)%Z -> parseInt10 (decimal_of_Z n) = Some n.
Proof.
  intros Hn. destruct n as [|p|p]; try lia.
  unfold decimal_of_Z, decimal_of_N, parseInt10.
  change (N.to_uint (N.pos p)) with (Pos.to_uint p).
  pose proof (uint_units_nonempty_pos p) as Hne.
  pose proof (span_digits_uint (Pos.to_uint p)) as Hsp.
  pose proof (digits_value_decimal (N.pos p)) as Hv.
  unfold decimal_of_N in Hv.
  change (N.to_uint (N.pos p)) with (Pos.to_uint p) in Hv.
  destruct (Pos.to_uint p) eqn:E; cbn [uint_units] in *; try congruence;
    unfold trimStart; cbn [dropWhile];
    change (isSpace (digit_unit _)) with false; cbv iota;
    cbv beta iota delta [digit_unit N.add Pos.add Pos.succ];
    cbv beta iota delta [digit_unit N.add Pos.add Pos.succ] in Hsp;
    cbv beta iota delta [digit_unit N.add Pos.add Pos.succ] in Hv;
    rewrite Hsp, Hv; reflexivity.
Qed.

(* ================================================================== *)
(** * [run] *)

Lemma ebind_lift_ok {A B} (a : A) (k : A -> Eff B) : ebind (lift (Ok a)) k = k a.
Proof. unfold ebind, lift. destruct (k a). reflexivity. Qed.

Lemma ebind_lift_throw {A B} (e : exn) (k : A -> Eff B) :
  ebind (lift (Throw e)) k = ([], Throw e).
Proof. reflexivity. Qed.

Lemma caught_emit (evs : list Event) (k : unit -> Eff unit) :
  caught (ebind (emit evs) k) = evs ++ caught (k tt).
Proof.
  unfold caught, ebind, emit. destruct (k tt) as [tr [u|e]]; auto.
  symmetry. apply app_assoc.
Qed.

Lemma caught_ebind {A} (tr : list Event) (r : Outcome A) (k : A -> Eff unit) :
  caught (ebind (tr, r) k)
  = tr ++ caught (ebind (lift r) k).
Proof.
  unfold caught, ebind, lift. destruct r as [a|e]; [|reflexivity].
  destruct (k a) as [tr' [u|e]]; cbn [app]; auto. symmetry. apply app_assoc.
Qed.

(** An input that is absent, empty or blank reads as the empty string. *)
Lemma getInput_blank (inputs : jsstring -> jsstring) (name : jsstring) :
  forallb isSpace (inputs name) = true -> getInput inputs name false = Ok [].
Proof.
  intros H. unfold getInput. cbn [andb].
  apply trim_nil_iff in H. rewrite H. reflexivity.
Qed.

(** What [sendLarkWebhook] does once the body is signed: it arms the
    abort timer if there is a delay, logs and posts the payload, and
    clears the timer. *)
Lemma sendLarkWebhook_trace (now_ms : Z)
  (network : jsstring -> Request -> option Z -> Outcome Response)
  (url : jsstring) (key : option jsstring) (body signed : JSONValue)
  (opts : SendOptions) :
  augment body key (now_ms / 1000) = Ok signed ->
  sendLarkWebhook now_ms network url key body opts
  = (match abort_delay opts with Some ms => [SetTimeoutAbort ms] | None => [] end
     ++ [ConsoleLog (JSON.stringify_value signed);
         Fetch url (post_request (JSON.stringify_value signed))]
     ++ match abort_delay opts with Some _ => [ClearTimeout] | None => [] end,
     network url (post_request (JSON.stringify_value signed)) (abort_delay opts)).
Proof.
  intros H. unfold sendLarkWebhook. rewrite H, ebind_lift_ok.
  unfold ebind, emit, lift.
  destruct (abort_delay opts); cbn [app]; rewrite ?app_nil_r; reflexivity.
Qed.

(** Once the inputs are read, [run] builds the body and then either
    reports a dry run or sends the request. *)
Lemma run_after_inputs (compile : Handlebars.Engine) (now_ms : Z)
  (network : jsstring -> Request -> option Z -> Outcome Response)
  (inputs : jsstring -> jsstring)
  (url secret template variables timeoutMsInput : jsstring) (dry foe : bool) :
  getInput inputs (lit "webhook_url") true = Ok url ->
  getInput inputs (lit "webhook_secret") false = Ok secret ->
  getInput inputs (lit "message_template") true = Ok template ->
  getInput inputs (lit "variables") false = Ok variables ->
  getBooleanInput inputs (lit "dry_run") = Ok dry ->
  getInput inputs (lit "request_timeout_ms") false = Ok timeoutMsInput ->
  getBooleanInput inputs (lit "fail_on_http_error") = Ok foe ->
  run compile now_ms network inputs
  = Debug (lit "Building Lark message body from template and variables")
    :: caught
         (built <~ lift (buildBodyFromTemplate compile template (Some variables)) ;;
          if dry then emit (dry_run_events built)
          else
            emit [Debug (lit "Sending Lark webhook request")] ;;;
            res <~ sendLarkWebhook now_ms network url (Some secret) (body built)
                     (mkSendOptions (timeoutMs_of_input timeoutMsInput)) ;;
            report foe res).
Proof.
  intros H1 H2 H3 H4 H5 H6 H7. unfold run, run_try.
  rewrite H1, H2, H3, H4, H5, H6, H7, !ebind_lift_ok.
  rewrite caught_emit. reflexivity.
Qed.

(** C1, as stated, fails: with the secret [abc] and the template [[1]],
    whose body is a list, a dry run does not fail; it reports success.
    The signing check is made by [sendLarkWebhook] only: the same inputs
    without [dry_run] end in the signing error. *)
Lemma dry_run_list_body_counterexample :
  run Handlebars.fragment_engine 1700000000123 network_ok (list_body_inputs "true")
  = [Debug (lit "Building Lark message body from template and variables");
     Info (lit "[dry_run] Skipping webhook call. Interpolated JSON:");
     Info (lit "[1]");
     SetOutput (lit "ok") (OutBool true);
     SetOutput (lit "status") (OutNumber 0);
     SetOutput (lit "response_text") (OutString (lit "dry_run"))]
  /\ run Handlebars.fragment_engine 1700000000123 network_ok (list_body_inputs "false")
     = [Debug (lit "Building Lark message body from template and variables");
        Debug (lit "Sending Lark webhook request");
        SetFailed (message signing_error)].
Proof. split; vm_compute; reflexivity. Qed.

(** C1, amended: a dry run reads the inputs and builds the body with the
    same call as a normal run, and a failure to build ends either run the
    same way; when the body is built, the dry run logs the interpolated
    text and sets [ok = true], [status = 0] and
    [response_text = "dry_run"], and does nothing else: no timer, no
    request, and no signing check, whatever the secret and the body. *)
Theorem dry_run_builds_and_skips_dispatch (compile : Handlebars.Engine)
  (now_ms : Z) (network : jsstring -> Request -> option Z -> Outcome Response)
  (inputs : jsstring -> jsstring)
  (url secret template variables timeoutMsInput : jsstring) (dry foe : bool) :
  getInput inputs (lit "webhook_url") true = Ok url ->
  getInput inputs (lit "webhook_secret") false = Ok secret ->
  getInput inputs (lit "message_template") true = Ok template ->
  getInput inputs (lit "variables") false = Ok variables ->
  getBooleanInput inputs (lit "dry_run") = Ok dry ->
  getInput inputs (lit "request_timeout_ms") false = Ok timeoutMsInput ->
  getBooleanInput inputs (lit "fail_on_http_error") = Ok foe ->
  match buildBodyFromTemplate compile template (Some variables) with
  | Throw e =>
      run compile now_ms network inputs
      = [Debug (lit "Building Lark message body from template and variables");
         SetFailed (message e)]
  | Ok built =>
      dry = true ->
      run compile now_ms network inputs
      = Debug (lit "Building Lark message body from template and variables")
        :: dry_run_events built
  end.
Proof.
  intros H1 H2 H3 H4 H5 H6 H7.
  rewrite (run_after_inputs compile now_ms network inputs _ _ _ _ _ _ _
             H1 H2 H3 H4 H5 H6 H7).
  destruct (buildBodyFromTemplate compile template (Some variables)) as [built|e].
  - intros ->. rewrite ebind_lift_ok. cbn [caught emit]. reflexivity.
  - reflexivity.
Qed.

Lemma dry_run_witness :
  getInput (list_body_inputs "true") (lit "webhook_url") true = Ok (lit "https://example")
  /\ getBooleanInput (list_body_inputs "true") (lit "dry_run") = Ok true
  /\ run Handlebars.fragment_engine 1700000000123 network_ok (list_body_inputs "true")
     = Debug (lit "Building Lark message body from template and variables")
       :: dry_run_events (mkBuildResult (JArray [JNumber (Fin false 1 0)]) (lit "[1]")).
Proof.
  split; [reflexivity|]. split; [reflexivity|].
  exact (dry_run_builds_and_skips_dispatch Handlebars.fragment_engine
           1700000000123 network_ok (list_body_inputs "true")
           (lit "https://example") (lit "abc") (lit "[1]") [] (lit "1000")
           true true eq_refl eq_refl eq_refl eq_refl eq_refl eq_refl eq_refl
           eq_refl).
Defined.

(** C2, as stated, fails: when [request_timeout_ms] is empty the request
    is sent with no abort timer at all, not with one of 10000 ms. *)
Lemma empty_timeout_counterexample :
  text_message_inputs "" (lit "request_timeout_ms") = []
  /\ run Handlebars.fragment_engine 1700000000123 network_ok (text_message_inputs "")
     = [Debug (lit "Building Lark message body from template and variables");
        Debug (lit "Sending Lark webhook request");
        ConsoleLog hello_CI;
        Fetch (lit "https://example") (post_request hello_CI);
        SetOutput (lit "ok") (OutBool true);
        SetOutput (lit "status") (OutNumber 200);
        SetOutput (lit "response_text") (OutString (lit "ok"))]
  /\ ~ In (SetTimeoutAbort 10000)
         (run Handlebars.fragment_engine 1700000000123 network_ok
            (text_message_inputs "")).
Proof.
  split; [reflexivity|]. split; [vm_compute; reflexivity|].
  vm_compute. intros H.
  repeat (destruct H as [H|H]; [discriminate H|]). exact H.
Qed.

Lemma timeoutMs_of_decimal (n : Z) :
  (0 < n)%Z ->
  abort_delay (mkSendOptions (timeoutMs_of_input (decimal_of_Z n))) = Some n.
Proof.
  intros Hn. unfold timeoutMs_of_input.
  pose proof (parseInt10_decimal n Hn) as Hp.
  destruct (decimal_of_Z n) eqn:E.
  - destruct n; try lia. unfold decimal_of_Z, decimal_of_N in E.
    exfalso. exact (uint_units_nonempty_pos p E).
  - rewrite Hp. unfold abort_delay. cbn [timeoutMs].
    destruct (Z.eqb_spec n 0); [lia|reflexivity].
Qed.

(** C2, amended: the program itself applies no default.  When the text
    read for [request_timeout_ms] is empty, the request is sent with no
    abort timer, and the network is left to its own devices; when it is
    the decimal numeral of a positive integer [n] (within the range in
    which JavaScript numbers are exact), [setTimeout] is called with the
    delay [n] to abort the request, before the request is made, and the
    timer is cleared when the request settles. *)
Theorem timeout_follows_input (compile : Handlebars.Engine)
  (now_ms : Z) (network : jsstring -> Request -> option Z -> Outcome Response)
  (inputs : jsstring -> jsstring)
  (url secret template variables timeoutMsInput : jsstring) (foe : bool)
  (built : BuildResult) (signed : JSONValue) :
  getInput inputs (lit "webhook_url") true = Ok url ->
  getInput inputs (lit "webhook_secret") false = Ok secret ->
  getInput inputs (lit "message_template") true = Ok template ->
  getInput inputs (lit "variables") false = Ok variables ->
  getBooleanInput inputs (lit "dry_run") = Ok false ->
  getInput inputs (lit "request_timeout_ms") false = Ok timeoutMsInput ->
  getBooleanInput inputs (lit "fail_on_http_error") = Ok foe ->
  buildBodyFromTemplate compile template (Some variables) = Ok built ->
  augment (body built) (Some secret) (now_ms / 1000) = Ok signed ->
  (timeoutMsInput = [] ->
   run compile now_ms network inputs
   = [Debug (lit "Building Lark message body from template and variables");
      Debug (lit "Sending Lark webhook request");
      ConsoleLog (JSON.stringify_value signed);
      Fetch url (post_request (JSON.stringify_value signed))]
     ++ caught (res <~ lift (network url (post_request (JSON.stringify_value signed))
                               None) ;;
                report foe res))
  /\ (forall n : Z,
        (0 < n <= 9007199254740991)%Z ->
        timeoutMsInput = decimal_of_Z n ->
        run compile now_ms network inputs
        = [Debug (lit "Building Lark message body from template and variables");
           Debug (lit "Sending Lark webhook request");
           SetTimeoutAbort n;
           ConsoleLog (JSON.stringify_value signed);
           Fetch url (post_request (JSON.stringify_value signed));
           ClearTimeout]
          ++ caught (res <~ lift (network url
                                    (post_request (JSON.stringify_value signed))
                                    (Some n)) ;;
                     report foe res)).
Proof.
  intros H1 H2 H3 H4 H5 H6 H7 Hb Hs.
  rewrite (run_after_inputs compile now_ms network inputs _ _ _ _ _ _ _
             H1 H2 H3 H4 H5 H6 H7).
  rewrite Hb, ebind_lift_ok, caught_emit.
  rewrite (sendLarkWebhook_trace now_ms network url (Some secret) (body built)
             signed _ Hs).
  rewrite caught_ebind. split.
  - intros ->. reflexivity.
  - intros n [Hn _] ->. rewrite (timeoutMs_of_decimal n Hn). reflexivity.
Qed.

Lemma timeout_follows_input_witness :
  getInput (text_message_inputs "2500") (lit "request_timeout_ms") false
  = Ok (decimal_of_Z 2500)
  /\ (0 < 2500 <= 9007199254740991)%Z
  /\ run Handlebars.fragment_engine 1700000000123 network_ok
       (text_message_inputs "2500")
     = [Debug (lit "Building Lark message body from template and variables");
        Debug (lit "Sending Lark webhook request");
        SetTimeoutAbort 2500;
        ConsoleLog hello_CI;
        Fetch (lit "https://example") (post_request hello_CI);
        ClearTimeout;
        SetOutput (lit "ok") (OutBool true);
        SetOutput (lit "status") (OutNumber 200);
        SetOutput (lit "response_text") (OutString (lit "ok"))].
Proof.
  split; [reflexivity|]. split; [lia|].
  apply (proj2
           (timeout_follows_input Handlebars.fragment_engine 1700000000123
              network_ok (text_message_inputs "2500")
              (lit "https://example") [] hello_template (lit "who=CI")
              (decimal_of_Z 2500) true
              (mkBuildResult
                 (JObject [(lit "msg_type", JString (lit "text"));
                           (lit "content",
                            JObject [(lit "text", JString (lit "Hello CI"))])])
                 hello_CI)
              (JObject [(lit "msg_type", JString (lit "text"));
                        (lit "content",
                         JObject [(lit "text", JString (lit "Hello CI"))])])
              eq_refl eq_refl eq_refl eq_refl eq_refl eq_refl eq_refl eq_refl
              eq_refl)
           2500%Z); [lia|reflexivity].
Defined.

(* ================================================================== *)
(** * Validity does not depend on the contents of a string literal *)

Lemma same_kind_number_token (p1 p2 : N) (text : jsstring) :
  same_kind (JSON.number_token p1 text) (JSON.number_token p2 text).
Proof.
  unfold JSON.number_token. destruct (number_literal text); exact I || reflexivity.
Qed.

Ltac lex_branch :=
  match goal with
  | |- context [if ?b then _ else _] => destruct b
  | |- context [match ?l with [] => _ | _ :: _ => _ end] => destruct l
  | |- context [match ?o with Some _ => _ | None => _ end] => destruct o
  end.

(** The tokens read from a text have the same kinds wherever the lexer
    stands at its start, as long as it starts in the same mode. *)
Lemma lex_sim (n : nat) :
  forall s, (List.length s <= n)%nat ->
  forall m1 m2 p1 p2, mode_sim m1 m2 ->
    Forall2 same_kind (JSON.lex m1 p1 s) (JSON.lex m2 p2 s).
Proof.
  induction n as [|n IH]; intros s Hlen m1 m2 p1 p2 Hm.
  - destruct s; [|simpl in Hlen; lia].
    destruct m1, m2; try contradiction; cbn [JSON.lex]; repeat constructor.
    simpl in Hm. subst. apply same_kind_number_token.
  - destruct s as [|c s].
    { destruct m1, m2; try contradiction; cbn [JSON.lex]; repeat constructor.
      simpl in Hm. subst. apply same_kind_number_token. }
    simpl in Hlen.
    assert (Hrec : forall s' m1 m2 p1 p2,
               (List.length s' <= List.length s)%nat -> mode_sim m1 m2 ->
               Forall2 same_kind (JSON.lex m1 p1 s') (JSON.lex m2 p2 s')).
    { intros. apply IH; [lia|assumption]. }
    clear IH.
    destruct m1, m2; try contradiction; cbn [JSON.lex];
      try (simpl in Hm; subst);
      repeat lex_branch;
      repeat first
        [ apply Forall2_nil
        | apply Forall2_cons; [first [exact I | reflexivity
                                     | apply same_kind_number_token]|]
        | apply Hrec; [simpl; lia | first [exact I | reflexivity]] ].
Qed.

Lemma step_sim (p1 p2 : JSON.pstate) (st1 st2 : list JSON.frame)
  (t1 t2 : N * JSON.token) :
  pstate_sim p1 p2 -> Forall2 frame_sim st1 st2 -> same_kind t1 t2 ->
  match JSON.step p1 st1 (snd t1), JSON.step p2 st2 (snd t2) with
  | Some (p1', st1'), Some (p2', st2') =>
      pstate_sim p1' p2' /\ Forall2 frame_sim st1' st2'
  | None, None => True
  | _, _ => False
  end.
Proof.
  intros Hp Hst Ht. unfold same_kind in Ht.
  assert (Hdel : forall v1 v2,
             match JSON.deliver v1 st1, JSON.deliver v2 st2 with
             | Some (p1', st1'), Some (p2', st2') =>
                 pstate_sim p1' p2' /\ Forall2 frame_sim st1' st2'
             | None, None => True
             | _, _ => False
             end).
  { intros v1 v2. destruct Hst as [|f1 f2 st1 st2 Hf Hst]; cbn; [auto|].
    destruct f1, f2; try contradiction; cbn; auto;
      (split; [exact I|constructor; [exact I|assumption]]). }
  assert (Hca :
             match JSON.close_array st1, JSON.close_array st2 with
             | Some (p1', st1'), Some (p2', st2') =>
                 pstate_sim p1' p2' /\ Forall2 frame_sim st1' st2'
             | None, None => True
             | _, _ => False
             end).
  { destruct Hst as [|f1 f2 st1 st2 Hf Hst]; cbn; [auto|].
    destruct f1, f2; try contradiction; auto.
    destruct Hst as [|g1 g2 st1 st2 Hg Hst]; cbn; [auto|].
    destruct g1, g2; try contradiction; cbn; auto;
      (split; [exact I|constructor; [exact I|assumption]]). }
  assert (Hco :
             match JSON.close_object st1, JSON.close_object st2 with
             | Some (p1', st1'), Some (p2', st2') =>
                 pstate_sim p1' p2' /\ Forall2 frame_sim st1' st2'
             | None, None => True
             | _, _ => False
             end).
  { destruct Hst as [|f1 f2 st1 st2 Hf Hst]; cbn; [auto|].
    destruct f1, f2; try contradiction; auto.
    destruct Hst as [|g1 g2 st1 st2 Hg Hst]; cbn; [auto|].
    destruct g1, g2; try contradiction; cbn; auto;
      (split; [exact I|constructor; [exact I|assumption]]). }
  assert (Hkey : forall k1 k2,
             match JSON.read_key (JSON.TStr k1) st1, JSON.read_key (JSON.TStr k2) st2 with
             | Some (p1', st1'), Some (p2', st2') =>
                 pstate_sim p1' p2' /\ Forall2 frame_sim st1' st2'
             | None, None => True
             | _, _ => False
             end).
  { intros k1 k2. destruct Hst as [|f1 f2 st1 st2 Hf Hst]; cbn; [auto|].
    destruct f1, f2; try contradiction; auto. }
  assert (Hpush : forall f1 f2, frame_sim f1 f2 ->
             Forall2 frame_sim (f1 :: st1) (f2 :: st2))
    by (intros; constructor; assumption).
  destruct t1 as [q1 t1], t2 as [q2 t2]. cbn [snd] in *.
  destruct p1, p2; try contradiction;
    destruct t1, t2; try discriminate; try contradiction;
    cbn [JSON.step JSON.start_value JSON.read_key];
    try exact I;
    try apply Hdel; try apply Hca; try apply Hco; try apply Hkey;
    try (split; [exact I|]; first [apply Hpush; exact I | assumption]);
    try (destruct st1, st2; exact I).
Qed.

(** A sequence of tokens is accepted or rejected according to the kinds
    of its tokens only. *)
Lemma automaton_sim (ts1 : list (N * JSON.token)) :
  forall ts2 p1 p2 st1 st2,
    Forall2 same_kind ts1 ts2 ->
    pstate_sim p1 p2 -> Forall2 frame_sim st1 st2 ->
    (exists v, JSON.automaton p1 st1 ts1 = inl v) ->
    exists v', JSON.automaton p2 st2 ts2 = inl v'.
Proof.
  induction ts1 as [|t1 ts1 IH]; intros ts2 p1 p2 st1 st2 Hts Hp Hst [v Hv];
    inversion Hts as [|? t2 ? ts2' Hk Hts']; subst.
  - cbn in *. destruct p1, p2; try contradiction; try discriminate. eauto.
  - pose proof (step_sim p1 p2 st1 st2 t1 t2 Hp Hst Hk) as Hstep.
    destruct t1 as [q1 t1], t2 as [q2 t2]. cbn [snd] in Hstep.
    assert (Hgo : (exists v, match JSON.step p1 st1 t1 with
                             | Some (p', stack') => JSON.automaton p' stack' ts1
                             | None => inr (JSON.UnexpectedToken q1)
                             end = inl v) ->
                  exists v', match JSON.step p2 st2 t2 with
                             | Some (p', stack') => JSON.automaton p' stack' ts2'
                             | None => inr (JSON.UnexpectedToken q2)
                             end = inl v').
    { intros [w Hw].
      destruct (JSON.step p1 st1 t1) as [[p1' st1']|];
        destruct (JSON.step p2 st2 t2) as [[p2' st2']|];
        try contradiction; try discriminate.
      destruct Hstep as [Hp' Hst'].
      apply (IH ts2' p1' p2' st1' st2' Hts' Hp' Hst'). eauto. }
    unfold same_kind in Hk. cbn [snd] in Hk. cbn [JSON.automaton] in *.
    destruct t1, t2; try discriminate; try contradiction;
      try (apply Hgo; eauto).
    injection Hk as <-. destruct at_end; [discriminate|]. apply Hgo. eauto.
Qed.

Lemma Forall2_same_kind_refl (ts : list (N * JSON.token)) :
  Forall2 same_kind ts ts.
Proof.
  induction ts as [|[q t] ts IH]; constructor; auto.
  unfold same_kind. destruct t; reflexivity || exact I.
Qed.

(** Inside a string literal, the text [jstr] inserts for one string can
    be exchanged for the text it inserts for another without changing
    whether the whole is valid JSON. *)
Lemma jstr_text_exchange (pre post : jsstring) (ts : list (N * JSON.token))
  (start : N) (acc : jsstring) (w v : jsstring) :
  inside_string_literal pre ts start acc ->
  valid_json (pre ++ quote_contents w ++ post) ->
  valid_json (pre ++ quote_contents v ++ post).
Proof.
  intros [pos Hpre] [x Hx]. unfold valid_json, JSON.parse in *.
  rewrite Hpre in *.
  destruct (lex_quote_contents w start acc pos post) as [pw Hw].
  destruct (lex_quote_contents v start acc pos post) as [pv Hv].
  rewrite Hw in Hx. rewrite Hv.
  destruct (JSON.automaton JSON.PValue []
              (ts ++ JSON.lex (JSON.InString start (rev w ++ acc)) pw post))
    as [y|e] eqn:E; [|discriminate].
  assert (Hk : Forall2 same_kind
                 (ts ++ JSON.lex (JSON.InString start (rev w ++ acc)) pw post)
                 (ts ++ JSON.lex (JSON.InString start (rev v ++ acc)) pv post)).
  { apply Forall2_app; [apply Forall2_same_kind_refl|].
    apply (lex_sim (List.length post)); [lia|exact I]. }
  destruct (automaton_sim _ _ JSON.PValue JSON.PValue [] [] Hk I (Forall2_nil _)
              (ex_intro _ y E)) as [y' Hy'].
  rewrite Hy'. eauto.
Qed.

(** What the mustache [{{jstr name}}] gives for a string: its escaped
    contents. *)
Lemma render_jstr_string (ctx : JSONObject) (name v : jsstring) :
  obj_get ctx name = Some (JString v) ->
  Handlebars.render_segment registered_helpers ctx
    (Handlebars.HelperCall (lit "jstr") name)
  = Some (Ok (quote_contents v)).
Proof.
  intros Hget. cbn [Handlebars.render_segment].
  change (existsb (str_eqb (lit "jstr")) Handlebars.builtin_helpers) with false.
  change (Handlebars.find_helper registered_helpers (lit "jstr"))
    with (Some jstr_helper).
  cbv iota. rewrite Hget. cbn [exact_value]. rewrite jstr_helper_string.
  reflexivity.
Qed.

(** The text of a template around one of its helper calls: what the
    segments before it give, what the call gives, what the segments
    after it give. *)
Lemma render_around (helpers : Handlebars.Helpers) (ctx : JSONObject)
  (before after : list Handlebars.segment) (helper name : jsstring)
  (mid post : jsstring) :
  Handlebars.render_segment helpers ctx (Handlebars.HelperCall helper name)
  = Some (Ok mid) ->
  Handlebars.render helpers ctx after = Some (Ok post) ->
  forall pre,
    Handlebars.render helpers ctx before = Some (Ok pre) ->
    Handlebars.render helpers ctx
      (before ++ Handlebars.HelperCall helper name :: after)
    = Some (Ok (pre ++ mid ++ post)).
Proof.
  intros Hm Ha. induction before as [|b before IH]; intros pre Hb.
  - cbn in Hb. injection Hb as <-.
    cbn [app Handlebars.render Handlebars.adds_values]. rewrite Hm, Ha.
    reflexivity.
  - assert (Hadd : Handlebars.adds_values b
                     (before ++ Handlebars.HelperCall helper name :: after)
                   = Handlebars.adds_values b before).
    { destruct b; try reflexivity. destruct before; reflexivity. }
    cbn [app]. cbn [Handlebars.render] in Hb |- *. rewrite Hadd.
    destruct (Handlebars.adds_values b before); [discriminate Hb|].
    destruct (Handlebars.render_segment helpers ctx b) as [[a|e]|];
      [| |discriminate Hb].
    + destruct (Handlebars.render helpers ctx before) as [[r|e]|];
        try discriminate Hb.
      injection Hb as <-. rewrite (IH r eq_refl). now rewrite <- app_assoc.
    + destruct (Handlebars.render helpers ctx before) as [r|];
        discriminate Hb.
Qed.

(** On a variable that is not bound, [jstr] throws. *)
Lemma jstr_helper_undefined :
  jstr_helper None
  = Throw (mkExn ClsTypeError
             (lit "Cannot read properties of undefined (reading 'slice')")).
Proof. reflexivity. Qed.

(** C8: let a template hold the mustache [{{jstr name}}], with any
    segments before and after it, which render to the texts [pre] and
    [post]; let [pre] end inside a JSON string literal (the mustache
    stands between two quotes) and let the template be otherwise valid
    JSON (with the contents of some string [w] in place of the mustache,
    the empty one for instance, the text is valid JSON).  Then for every
    string [v] bound to [name], with quotes, backslashes, control
    characters or lone surrogates in it, the body builds: the rendered
    text is valid JSON, and the body is its decode.  In it the literal
    that holds the mustache decodes to what preceded the mustache in the
    literal followed by exactly the characters of [v]; when the closing
    quote follows the mustache, that is the whole of the literal.  In
    particular the text inserted for [v], between two quotes, decodes to
    [v]. *)
Theorem jstr_inside_quotes_is_valid_json (compile : Handlebars.Engine)
  (template : jsstring) (variablesInput : option jsstring)
  (before after : list Handlebars.segment)
  (pre name post : jsstring) (ts : list (N * JSON.token)) (start : N)
  (acc w v : jsstring) :
  Handlebars.agrees_on compile registered_helpers template ->
  Handlebars.scan (Handlebars.SContent []) template
  = Some (before ++ Handlebars.HelperCall (lit "jstr") name :: after) ->
  Handlebars.render registered_helpers (parseVariables variablesInput) before
  = Some (Ok pre) ->
  Handlebars.render registered_helpers (parseVariables variablesInput) after
  = Some (Ok post) ->
  obj_get (parseVariables variablesInput) name = Some (JString v) ->
  inside_string_literal pre ts start acc ->
  valid_json (pre ++ quote_contents w ++ post) ->
  (exists body,
      JSON.parse (pre ++ quote_contents v ++ post) = Ok body
      /\ buildBodyFromTemplate compile template variablesInput
         = Ok (mkBuildResult body (pre ++ quote_contents v ++ post)))
  /\ (exists pos,
         JSON.lex JSON.Main 0 (pre ++ quote_contents v ++ post)
         = ts ++ JSON.lex (JSON.InString start (rev v ++ acc)) pos post)
  /\ (forall post', post = DQUOTE :: post' ->
       exists pos,
         JSON.lex JSON.Main 0 (pre ++ quote_contents v ++ post)
         = ts ++ (start, JSON.TStr (rev acc ++ v)) :: JSON.lex JSON.Main pos post')
  /\ JSON.parse (DQUOTE :: quote_contents v ++ [DQUOTE]) = Ok (JString v).
Proof.
  intros Hagree Hscan Hbefore Hafter Hget Hpre Hvalid.
  split; [|split; [|split]].
  - destruct (jstr_text_exchange pre post ts start acc w v Hpre Hvalid)
      as [body Hbody].
    exists body. unfold buildBodyFromTemplate.
    assert (Hf : Handlebars.fragment registered_helpers template
                   (parseVariables variablesInput)
                 = Some (Ok (pre ++ quote_contents v ++ post))).
    { unfold Handlebars.fragment. rewrite Hscan.
      apply (render_around registered_helpers _ before after (lit "jstr") name
               (quote_contents v) post (render_jstr_string _ name v Hget)
               Hafter pre Hbefore). }
    split; [exact Hbody|].
    rewrite (Hagree _ _ Hf). cbn [bind]. unfold validate. rewrite Hbody.
    reflexivity.
  - destruct Hpre as [pos Hpre].
    destruct (lex_quote_contents v start acc pos post) as [pos' Hv].
    exists pos'. rewrite Hpre, Hv. reflexivity.
  - intros post' ->. destruct Hpre as [pos Hpre].
    destruct (lex_quote_contents_close v start acc pos post') as [pos' Hv].
    exists pos'. rewrite Hpre, Hv. reflexivity.
  - apply (parse_QuoteJSONString v).
Qed.

Lemma jstr_inside_quotes_witness :
  Handlebars.agrees_on Handlebars.fragment_engine registered_helpers hello_template
  /\ Handlebars.scan (Handlebars.SContent []) hello_template
     = Some ([Handlebars.Content (jq "{'msg_type':'text','content':{'text':'Hello ")]
             ++ Handlebars.HelperCall (lit "jstr") (lit "who")
                :: [Handlebars.Content (jq "'}}")])
  /\ obj_get (parseVariables (Some (who_is (jq "say 'hi' \ bye")))) (lit "who")
     = Some (JString (jq "say 'hi' \ bye"))
  /\ inside_string_literal (jq "{'msg_type':'text','content':{'text':'Hello ")
       [(0, JSON.TLBrace); (1, JSON.TStr (lit "msg_type")); (11, JSON.TColon);
        (12, JSON.TStr (lit "text")); (18, JSON.TComma);
        (19, JSON.TStr (lit "content")); (28, JSON.TColon);
        (29, JSON.TLBrace); (30, JSON.TStr (lit "text")); (36, JSON.TColon)]%N
       37%N (rev (lit "Hello "))
  /\ valid_json (jq "{'msg_type':'text','content':{'text':'Hello "
                 ++ quote_contents [] ++ jq "'}}")
  /\ exists body,
       JSON.parse (jq "{'msg_type':'text','content':{'text':'Hello "
                   ++ quote_contents (jq "say 'hi' \ bye") ++ jq "'}}")
       = Ok body
       /\ buildBodyFromTemplate Handlebars.fragment_engine hello_template
            (Some (who_is (jq "say 'hi' \ bye")))
          = Ok (mkBuildResult body
                  (jq "{'msg_type':'text','content':{'text':'Hello "
                   ++ quote_contents (jq "say 'hi' \ bye") ++ jq "'}}")).
Proof.
  assert (Hin : inside_string_literal
                  (jq "{'msg_type':'text','content':{'text':'Hello ")
                  [(0, JSON.TLBrace); (1, JSON.TStr (lit "msg_type"));
                   (11, JSON.TColon); (12, JSON.TStr (lit "text"));
                   (18, JSON.TComma); (19, JSON.TStr (lit "content"));
                   (28, JSON.TColon); (29, JSON.TLBrace);
                   (30, JSON.TStr (lit "text")); (36, JSON.TColon)]%N
                  37%N (rev (lit "Hello "))).
  { exists 44%N. intros rest. reflexivity. }
  assert (Hval : valid_json (jq "{'msg_type':'text','content':{'text':'Hello "
                             ++ quote_contents [] ++ jq "'}}")).
  { eexists. vm_compute. reflexivity. }
  split; [apply fragment_engine_agrees|]. split; [reflexivity|].
  split; [vm_compute; reflexivity|]. split; [exact Hin|]. split; [exact Hval|].
  apply (jstr_inside_quotes_is_valid_json Handlebars.fragment_engine hello_template
           (Some (who_is (jq "say 'hi' \ bye")))
           [Handlebars.Content (jq "{'msg_type':'text','content':{'text':'Hello ")]
           [Handlebars.Content (jq "'}}")]
           (jq "{'msg_type':'text','content':{'text':'Hello ") (lit "who")
           (jq "'}}") _ _ _ [] (jq "say 'hi' \ bye")
           (fragment_engine_agrees _ _) eq_refl eq_refl eq_refl eq_refl Hin Hval).
Defined.

(* ================================================================== *)
(** * Further properties of [run] *)

Lemma reads_run (compile : Handlebars.Engine) (now_ms : Z)
  (network : jsstring -> Request -> option Z -> Outcome Response)
  (inputs : jsstring -> jsstring)
  (url secret template variables timeoutMsInput : jsstring) (dry foe : bool) :
  reads inputs url secret template variables dry timeoutMsInput foe ->
  run compile now_ms network inputs
  = Debug (lit "Building Lark message body from template and variables")
    :: caught
         (built <~ lift (buildBodyFromTemplate compile template (Some variables)) ;;
          if dry then emit (dry_run_events built)
          else
            emit [Debug (lit "Sending Lark webhook request")] ;;;
            res <~ sendLarkWebhook now_ms network url (Some secret) (body built)
                     (mkSendOptions (timeoutMs_of_input timeoutMsInput)) ;;
            report foe res).
Proof.
  intros (H1 & H2 & H3 & H4 & H5 & H6 & H7). now apply run_after_inputs.
Qed.

(** The events of a run that sends: the two debug lines, the events of
    the request, and what the outcome of the request leads to. *)
Lemma run_sends (compile : Handlebars.Engine) (now_ms : Z)
  (network : jsstring -> Request -> option Z -> Outcome Response)
  (inputs : jsstring -> jsstring)
  (url secret template variables timeoutMsInput : jsstring) (foe : bool)
  (built : BuildResult) (signed : JSONValue) :
  reads inputs url secret template variables false timeoutMsInput foe ->
  buildBodyFromTemplate compile template (Some variables) = Ok built ->
  augment (body built) (Some secret) (now_ms / 1000) = Ok signed ->
  run compile now_ms network inputs
  = [Debug (lit "Building Lark message body from template and variables");
     Debug (lit "Sending Lark webhook request")]
    ++ send_events url (JSON.stringify_value signed)
         (abort_delay (mkSendOptions (timeoutMs_of_input timeoutMsInput)))
    ++ caught (res <~ lift (network url (post_request (JSON.stringify_value signed))
                              (abort_delay
                                 (mkSendOptions (timeoutMs_of_input timeoutMsInput)))) ;;
               report foe res).
Proof.
  intros Hr Hb Hs. rewrite (reads_run _ _ _ _ _ _ _ _ _ _ _ Hr).
  rewrite Hb, ebind_lift_ok, caught_emit.
  rewrite (sendLarkWebhook_trace now_ms network url (Some secret) (body built)
             signed _ Hs).
  rewrite caught_ebind. unfold send_events. reflexivity.
Qed.

(** X1: with a response in hand, the run sets the three outputs from it;
    a status outside 200..299 fails the run, with a message that holds
    the status and the response text, exactly when [fail_on_http_error]
    is set, and the outputs are set in either case. *)
Theorem response_sets_outputs_then_may_fail (compile : Handlebars.Engine)
  (now_ms : Z) (network : jsstring -> Request -> option Z -> Outcome Response)
  (inputs : jsstring -> jsstring)
  (url secret template variables timeoutMsInput : jsstring) (foe : bool)
  (built : BuildResult) (signed : JSONValue) (st : Z) (t : jsstring) :
  reads inputs url secret template variables false timeoutMsInput foe ->
  buildBodyFromTemplate compile template (Some variables) = Ok built ->
  augment (body built) (Some secret) (now_ms / 1000) = Ok signed ->
  network url (post_request (JSON.stringify_value signed))
    (abort_delay (mkSendOptions (timeoutMs_of_input timeoutMsInput)))
  = Ok (mkResponse st (Ok t)) ->
  run compile now_ms network inputs
  = [Debug (lit "Building Lark message body from template and variables");
     Debug (lit "Sending Lark webhook request")]
    ++ send_events url (JSON.stringify_value signed)
         (abort_delay (mkSendOptions (timeoutMs_of_input timeoutMsInput)))
    ++ [SetOutput (lit "ok") (OutBool ((200 <=? st) && (st <=? 299))%Z);
        SetOutput (lit "status") (OutNumber st);
        SetOutput (lit "response_text") (OutString t)]
    ++ (if ((200 <=? st) && (st <=? 299))%Z then []
        else if foe then
          [SetFailed (lit "Lark webhook failed with status "
                      ++ decimal_of_Z st ++ lit ": " ++ t)]
        else []).
Proof.
  intros Hr Hb Hs Hn. rewrite (run_sends _ _ _ _ _ _ _ _ _ _ _ _ Hr Hb Hs), Hn.
  do 2 f_equal. rewrite ebind_lift_ok. unfold report. cbn [text lift].
  rewrite ebind_lift_ok. unfold ok. cbn [status].
  destruct ((200 <=? st) && (st <=? 299))%Z, foe; reflexivity.
Qed.

Lemma response_sets_outputs_witness :
  reads (text_message_inputs "2500") (lit "https://example") [] hello_template
    (lit "who=CI") false (lit "2500") true
  /\ run Handlebars.fragment_engine 1700000000123 (network_status 429 "slow down")
       (text_message_inputs "2500")
     = [Debug (lit "Building Lark message body from template and variables");
        Debug (lit "Sending Lark webhook request");
        SetTimeoutAbort 2500;
        ConsoleLog hello_CI;
        Fetch (lit "https://example") (post_request hello_CI);
        ClearTimeout;
        SetOutput (lit "ok") (OutBool false);
        SetOutput (lit "status") (OutNumber 429);
        SetOutput (lit "response_text") (OutString (lit "slow down"));
        SetFailed (lit "Lark webhook failed with status 429: slow down")].
Proof.
  assert (Hr : reads (text_message_inputs "2500") (lit "https://example") []
                 hello_template (lit "who=CI") false (lit "2500") true).
  { repeat split. }
  split; [exact Hr|].
  exact (response_sets_outputs_then_may_fail Handlebars.fragment_engine
           1700000000123 (network_status 429 "slow down")
           (text_message_inputs "2500") _ _ _ _ _ _
           (mkBuildResult
              (JObject [(lit "msg_type", JString (lit "text"));
                        (lit "content",
                         JObject [(lit "text", JString (lit "Hello CI"))])])
              hello_CI)
           (JObject [(lit "msg_type", JString (lit "text"));
                     (lit "content",
                      JObject [(lit "text", JString (lit "Hello CI"))])])
           429%Z (lit "slow down") Hr eq_refl eq_refl eq_refl).
Defined.

(** X2: when the request does not settle to a response (the network
    fails, or the request is aborted by the timer), or when the text of
    the response cannot be read, the run fails with the message of that
    error and sets no output; the timer, if one was armed, has been
    cleared. *)
Theorem transport_failure_fails_the_run (compile : Handlebars.Engine)
  (now_ms : Z) (network : jsstring -> Request -> option Z -> Outcome Response)
  (inputs : jsstring -> jsstring)
  (url secret template variables timeoutMsInput : jsstring) (foe : bool)
  (built : BuildResult) (signed : JSONValue) (e : exn) :
  reads inputs url secret template variables false timeoutMsInput foe ->
  buildBodyFromTemplate compile template (Some variables) = Ok built ->
  augment (body built) (Some secret) (now_ms / 1000) = Ok signed ->
  (network url (post_request (JSON.stringify_value signed))
     (abort_delay (mkSendOptions (timeoutMs_of_input timeoutMsInput)))
   = Throw e
   \/ exists st,
       network url (post_request (JSON.stringify_value signed))
         (abort_delay (mkSendOptions (timeoutMs_of_input timeoutMsInput)))
       = Ok (mkResponse st (Throw e))) ->
  run compile now_ms network inputs
  = [Debug (lit "Building Lark message body from template and variables");
     Debug (lit "Sending Lark webhook request")]
    ++ send_events url (JSON.stringify_value signed)
         (abort_delay (mkSendOptions (timeoutMs_of_input timeoutMsInput)))
    ++ [SetFailed (message e)].
Proof.
  intros Hr Hb Hs Hn. rewrite (run_sends _ _ _ _ _ _ _ _ _ _ _ _ Hr Hb Hs).
  do 2 f_equal. destruct Hn as [Hn|[st Hn]]; rewrite Hn; reflexivity.
Qed.

Lemma transport_failure_witness :
  reads (text_message_inputs "2500") (lit "https://example") [] hello_template
    (lit "who=CI") false (lit "2500") true
  /\ run Handlebars.fragment_engine 1700000000123 network_down
       (text_message_inputs "2500")
     = [Debug (lit "Building Lark message body from template and variables");
        Debug (lit "Sending Lark webhook request");
        SetTimeoutAbort 2500;
        ConsoleLog hello_CI;
        Fetch (lit "https://example") (post_request hello_CI);
        ClearTimeout;
        SetFailed (lit "fetch failed")].
Proof.
  assert (Hr : reads (text_message_inputs "2500") (lit "https://example") []
                 hello_template (lit "who=CI") false (lit "2500") true).
  { repeat split. }
  split; [exact Hr|].
  exact (transport_failure_fails_the_run Handlebars.fragment_engine
           1700000000123 network_down
           (text_message_inputs "2500") _ _ _ _ _ _
           (mkBuildResult
              (JObject [(lit "msg_type", JString (lit "text"));
                        (lit "content",
                         JObject [(lit "text", JString (lit "Hello CI"))])])
              hello_CI)
           (JObject [(lit "msg_type", JString (lit "text"));
                     (lit "content",
                      JObject [(lit "text", JString (lit "Hello CI"))])])
           (mkExn ClsTypeError (lit "fetch failed")) Hr eq_refl eq_refl
           (or_introl eq_refl)).
Defined.

Lemma getInput_ok (inputs : jsstring -> jsstring) (name : jsstring)
  (required : bool) (v : jsstring) :
  getInput inputs name required = Ok v -> v = trim (inputs name).
Proof.
  unfold getInput. destruct (required && _); [discriminate|]. now intros [= <-].
Qed.

(** The shapes of a run: an input is refused; the body cannot be built;
    a dry run; signing is refused; or one request is made, and either no
    response can be read or the outputs are set. *)
Lemma run_shape (compile : Handlebars.Engine) (now_ms : Z)
  (network : jsstring -> Request -> option Z -> Outcome Response)
  (inputs : jsstring -> jsstring) :
  (exists msg, run compile now_ms network inputs = [SetFailed msg])
  \/ (exists msg,
        run compile now_ms network inputs
        = [Debug (lit "Building Lark message body from template and variables");
           SetFailed msg])
  \/ (exists built,
        run compile now_ms network inputs
        = Debug (lit "Building Lark message body from template and variables")
          :: dry_run_events built)
  \/ (exists msg,
        run compile now_ms network inputs
        = [Debug (lit "Building Lark message body from template and variables");
           Debug (lit "Sending Lark webhook request");
           SetFailed msg])
  \/ (exists built signed delay tail,
        buildBodyFromTemplate compile (trim (inputs (lit "message_template")))
          (Some (trim (inputs (lit "variables")))) = Ok built
        /\ augment (body built) (Some (trim (inputs (lit "webhook_secret"))))
             (now_ms / 1000) = Ok signed
        /\ run compile now_ms network inputs
           = [Debug (lit "Building Lark message body from template and variables");
              Debug (lit "Sending Lark webhook request")]
             ++ send_events (trim (inputs (lit "webhook_url")))
                  (JSON.stringify_value signed) delay
             ++ tail
        /\ ((exists msg, tail = [SetFailed msg])
            \/ (exists b n t,
                  tail = [SetOutput (lit "ok") (OutBool b);
                          SetOutput (lit "status") (OutNumber n);
                          SetOutput (lit "response_text") (OutString t)])
            \/ (exists b n t msg,
                  tail = [SetOutput (lit "ok") (OutBool b);
                          SetOutput (lit "status") (OutNumber n);
                          SetOutput (lit "response_text") (OutString t);
                          SetFailed msg]))).
Proof.
  destruct (getInput inputs (lit "webhook_url") true) as [url|e] eqn:H1;
    [|left; exists (message e); unfold run, run_try; rewrite H1; reflexivity].
  destruct (getInput inputs (lit "webhook_secret") false) as [secret|e] eqn:H2;
    [|left; exists (message e); unfold run, run_try; rewrite H1, H2; reflexivity].
  destruct (getInput inputs (lit "message_template") true) as [template|e] eqn:H3;
    [|left; exists (message e); unfold run, run_try; rewrite H1, H2, H3;
      reflexivity].
  destruct (getInput inputs (lit "variables") false) as [variables|e] eqn:H4;
    [|left; exists (message e); unfold run, run_try; rewrite H1, H2, H3, H4;
      reflexivity].
  destruct (getBooleanInput inputs (lit "dry_run")) as [dry|e] eqn:H5;
    [|left; exists (message e); unfold run, run_try; rewrite H1, H2, H3, H4, H5;
      reflexivity].
  destruct (getInput inputs (lit "request_timeout_ms") false)
    as [timeoutMsInput|e] eqn:H6;
    [|left; exists (message e); unfold run, run_try;
      rewrite H1, H2, H3, H4, H5, H6; reflexivity].
  destruct (getBooleanInput inputs (lit "fail_on_http_error")) as [foe|e] eqn:H7;
    [|left; exists (message e); unfold run, run_try;
      rewrite H1, H2, H3, H4, H5, H6, H7; reflexivity].
  right.
  rewrite (run_after_inputs compile now_ms network inputs _ _ _ _ _ _ _
             H1 H2 H3 H4 H5 H6 H7).
  apply getInput_ok in H1, H2, H3, H4. subst url secret template variables.
  destruct (buildBodyFromTemplate compile _ _) as [built|e] eqn:Hb;
    [|left; exists (message e); reflexivity].
  right. rewrite ebind_lift_ok.
  destruct dry; [left; exists built; reflexivity|].
  right. rewrite caught_emit.
  destruct (augment (body built) (Some (trim (inputs (lit "webhook_secret"))))
              (now_ms / 1000)) as [signed|e] eqn:Hs.
  - right.
    rewrite (sendLarkWebhook_trace now_ms network _ _ (body built) signed _ Hs).
    rewrite caught_ebind.
    exists built, signed,
      (abort_delay (mkSendOptions (timeoutMs_of_input timeoutMsInput))).
    destruct (network _ _ _) as [[st [t|e]]|e].
    + rewrite ebind_lift_ok. unfold report. cbn [text lift].
      rewrite ebind_lift_ok. unfold ok. cbn [status].
      destruct (negb _ && foe); eexists; (split; [reflexivity|]);
        (split; [exact Hs|]); (split; [reflexivity|]); right.
      * right. do 4 eexists. reflexivity.
      * left. do 3 eexists. reflexivity.
    + eexists. split; [reflexivity|]. split; [exact Hs|].
      split; [reflexivity|]. left. eexists. reflexivity.
    + eexists. split; [reflexivity|]. split; [exact Hs|].
      split; [reflexivity|]. left. eexists. reflexivity.
  - left. exists (message e). unfold sendLarkWebhook. rewrite Hs. reflexivity.
Qed.

Lemma count_events_app (p : Event -> bool) (a b : list Event) :
  count_events p (a ++ b) = count_events p a + count_events p b.
Proof. unfold count_events. now rewrite filter_app, length_app. Qed.

(** X3: a run never ends silently: whatever the inputs, the template
    engine and the network do, it reports a failure or sets the three
    outputs [ok], [status] and [response_text]. *)
Theorem run_fails_or_sets_outputs (compile : Handlebars.Engine) (now_ms : Z)
  (network : jsstring -> Request -> option Z -> Outcome Response)
  (inputs : jsstring -> jsstring) :
  reports_failure (run compile now_ms network inputs)
  \/ sets_all_outputs (run compile now_ms network inputs).
Proof.
  destruct (run_shape compile now_ms network inputs)
    as [[msg ->]|[[msg ->]|[[built ->]|[[msg ->]|
        (built & signed & delay & tail & _ & _ & -> & Ht)]]]].
  - left. exists msg. simpl. auto.
  - left. exists msg. simpl. auto.
  - right. exists true, 0%Z, (lit "dry_run"). unfold dry_run_events.
    cbn [In]. auto 10.
  - left. exists msg. simpl. auto.
  - destruct Ht as [[msg ->]|[(b & n & t & ->)|(b & n & t & msg & ->)]].
    + left. exists msg. rewrite !in_app_iff. cbn [In]. auto.
    + right. exists b, n, t. rewrite !in_app_iff. cbn [In]. auto 10.
    + left. exists msg. rewrite !in_app_iff. cbn [In]. auto 10.
Qed.

(** X4: a run makes at most one request (there is no retry); it arms the
    abort timer at most once and only for a request, and every timer it
    arms is cleared, also when the request fails. *)
Theorem one_request_and_timers_cleared (compile : Handlebars.Engine) (now_ms : Z)
  (network : jsstring -> Request -> option Z -> Outcome Response)
  (inputs : jsstring -> jsstring) :
  count_events is_fetch (run compile now_ms network inputs) <= 1
  /\ count_events is_set_timeout (run compile now_ms network inputs)
     <= count_events is_fetch (run compile now_ms network inputs)
  /\ count_events is_clear_timeout (run compile now_ms network inputs)
     = count_events is_set_timeout (run compile now_ms network inputs).
Proof.
  destruct (run_shape compile now_ms network inputs)
    as [[msg ->]|[[msg ->]|[[built ->]|[[msg ->]|
        (built & signed & delay & tail & _ & _ & -> & Ht)]]]];
    try (cbn; lia).
  rewrite !count_events_app.
  assert (Ht' : count_events is_fetch tail = 0
                /\ count_events is_set_timeout tail = 0
                /\ count_events is_clear_timeout tail = 0).
  { destruct Ht as [[msg ->]|[(b & n & t & ->)|(b & n & t & msg & ->)]];
      cbn; auto. }
  destruct Ht' as (-> & -> & ->). destruct delay; cbn; lia.
Qed.

(** The request of a run, if it makes one. *)
Lemma fetch_of_run (compile : Handlebars.Engine)
  (now_ms : Z) (network : jsstring -> Request -> option Z -> Outcome Response)
  (inputs : jsstring -> jsstring) (url : jsstring) (req : Request) :
  In (Fetch url req) (run compile now_ms network inputs) ->
  url = trim (inputs (lit "webhook_url"))
  /\ req_method req = lit "POST"
  /\ req_headers req
     = [(lit "Content-Type", lit "application/json; charset=utf-8")]
  /\ exists built signed,
       buildBodyFromTemplate compile (trim (inputs (lit "message_template")))
         (Some (trim (inputs (lit "variables")))) = Ok built
       /\ augment (body built) (Some (trim (inputs (lit "webhook_secret"))))
            (now_ms / 1000) = Ok signed
       /\ req_body req = JSON.stringify_value signed.
Proof.
  destruct (run_shape compile now_ms network inputs)
    as [[msg ->]|[[msg ->]|[[built ->]|[[msg ->]|
        (built & signed & delay & tail & Hb & Hs & -> & Ht)]]]];
    try (cbn [In dry_run_events]; intros H;
         repeat (destruct H as [H|H]; try discriminate H); now destruct H).
  intros H. apply in_app_iff in H. destruct H as [H|H].
  { cbn [In] in H. repeat (destruct H as [H|H]; try discriminate H).
    destruct H. }
  assert (Hf : Fetch url req
               = Fetch (trim (inputs (lit "webhook_url")))
                   (post_request (JSON.stringify_value signed))).
  { apply in_app_iff in H. destruct H as [H|H].
    - unfold send_events in H. rewrite !in_app_iff in H.
      destruct H as [H|[H|H]].
      + destruct delay; cbn [In] in H;
          repeat (destruct H as [H|H]; try discriminate H); destruct H.
      + cbn [In] in H. destruct H as [H|[H|H]]; try discriminate H;
          [now symmetry|destruct H].
      + destruct delay; cbn [In] in H;
          repeat (destruct H as [H|H]; try discriminate H); destruct H.
    - destruct Ht as [[msg ->]|[(b & n & t & ->)|(b & n & t & msg & ->)]];
        cbn [In] in H; repeat (destruct H as [H|H]; try discriminate H);
        destruct H. }
  injection Hf as -> ->. split; [reflexivity|]. split; [reflexivity|].
  split; [reflexivity|]. exists built, signed. auto.
Qed.

(** X5: the only request a run can make is a POST of a JSON text to the
    address given as [webhook_url], with the one header [Content-Type];
    it is made only after the template was rendered to a body that
    passed validation, and what is posted is the serialized body, signed
    if a secret asks for it. *)
Theorem request_is_post_of_validated_body (compile : Handlebars.Engine)
  (now_ms : Z) (network : jsstring -> Request -> option Z -> Outcome Response)
  (inputs : jsstring -> jsstring) (url : jsstring) (req : Request) :
  In (Fetch url req) (run compile now_ms network inputs) ->
  url = trim (inputs (lit "webhook_url"))
  /\ req_method req = lit "POST"
  /\ req_headers req
     = [(lit "Content-Type", lit "application/json; charset=utf-8")]
  /\ exists built signed,
       buildBodyFromTemplate compile (trim (inputs (lit "message_template")))
         (Some (trim (inputs (lit "variables")))) = Ok built
       /\ augment (body built) (Some (trim (inputs (lit "webhook_secret"))))
            (now_ms / 1000) = Ok signed
       /\ req_body req = JSON.stringify_value signed.
Proof. apply fetch_of_run. Qed.

Lemma request_is_post_witness :
  In (Fetch (lit "https://example") (post_request hello_CI))
    (run Handlebars.fragment_engine 1700000000123 network_ok
       (text_message_inputs "2500"))
  /\ lit "https://example"
     = trim (text_message_inputs "2500" (lit "webhook_url"))
  /\ req_method (post_request hello_CI) = lit "POST"
  /\ req_headers (post_request hello_CI)
     = [(lit "Content-Type", lit "application/json; charset=utf-8")]
  /\ exists built signed,
       buildBodyFromTemplate Handlebars.fragment_engine
         (trim (text_message_inputs "2500" (lit "message_template")))
         (Some (trim (text_message_inputs "2500" (lit "variables")))) = Ok built
       /\ augment (body built)
            (Some (trim (text_message_inputs "2500" (lit "webhook_secret"))))
            (1700000000123 / 1000) = Ok signed
       /\ req_body (post_request hello_CI) = JSON.stringify_value signed.
Proof.
  assert (H : In (Fetch (lit "https://example") (post_request hello_CI))
                (run Handlebars.fragment_engine 1700000000123 network_ok
                   (text_message_inputs "2500"))).
  { vm_compute. auto 10. }
  split; [exact H|].
  exact (request_is_post_of_validated_body Handlebars.fragment_engine
           1700000000123 network_ok (text_message_inputs "2500") _ _ H).
Defined.

(* ================================================================== *)
(** * Reading the inputs *)

(** X6: when [webhook_url] is not supplied the run fails at once with
    the message that names it, and does nothing else; so it does when
    [webhook_url] is supplied and [message_template] is not.  No body is
    built and no request is made. *)
Theorem missing_required_input_fails_first (compile : Handlebars.Engine)
  (now_ms : Z) (network : jsstring -> Request -> option Z -> Outcome Response)
  (inputs : jsstring -> jsstring) (name : jsstring) :
  (name = lit "webhook_url" /\ inputs (lit "webhook_url") = [])
  \/ (name = lit "message_template" /\ inputs (lit "webhook_url") <> []
      /\ inputs (lit "message_template") = []) ->
  run compile now_ms network inputs
  = [SetFailed (lit "Input required and not supplied: " ++ name)].
Proof.
  intros [[-> H]|(-> & H1 & H2)]; unfold run, run_try.
  - unfold getInput at 1. rewrite H. reflexivity.
  - unfold getInput at 1. destruct (inputs (lit "webhook_url")) eqn:E;
      [congruence|]. cbn [andb]. rewrite ebind_lift_ok.
    unfold getInput at 1. cbn [andb]. rewrite ebind_lift_ok.
    unfold getInput at 1. rewrite H2. reflexivity.
Qed.

Lemma missing_required_input_witness :
  run Handlebars.fragment_engine 1700000000123 network_ok no_template_inputs
  = [SetFailed (lit "Input required and not supplied: message_template")].
Proof.
  apply (missing_required_input_fails_first Handlebars.fragment_engine
           1700000000123 network_ok no_template_inputs (lit "message_template")).
  right. split; [reflexivity|]. split; [discriminate|reflexivity].
Defined.

Lemma getBooleanInput_refused (inputs : jsstring -> jsstring) (name : jsstring) :
  boolean_spelling (trim (inputs name)) = false ->
  getBooleanInput inputs name
  = Throw (mkExn ClsTypeError (not_boolean_message name)).
Proof.
  unfold boolean_spelling, getBooleanInput, getInput. cbn [andb bind].
  intros H. rewrite !orb_false_iff in H.
  destruct H as (((((-> & ->) & ->) & ->) & ->) & ->). reflexivity.
Qed.

(** X7: [dry_run] is read strictly: with the two required inputs given,
    a text for [dry_run] other than [true], [True], [TRUE], [false],
    [False] and [FALSE] (the empty text, [yes] or [1] for instance)
    fails the run with the message of [core.getBooleanInput], before
    anything is built or sent. *)
Theorem dry_run_must_be_boolean (compile : Handlebars.Engine)
  (now_ms : Z) (network : jsstring -> Request -> option Z -> Outcome Response)
  (inputs : jsstring -> jsstring) :
  inputs (lit "webhook_url") <> [] ->
  inputs (lit "message_template") <> [] ->
  boolean_spelling (trim (inputs (lit "dry_run"))) = false ->
  run compile now_ms network inputs
  = [SetFailed (not_boolean_message (lit "dry_run"))].
Proof.
  intros H1 H3 H5. unfold run, run_try.
  rewrite (getBooleanInput_refused inputs (lit "dry_run") H5).
  unfold getInput. destruct (inputs (lit "webhook_url")); [congruence|].
  destruct (inputs (lit "message_template")); [congruence|].
  cbn [andb]. rewrite !ebind_lift_ok. reflexivity.
Qed.

Lemma dry_run_must_be_boolean_witness :
  run Handlebars.fragment_engine 1700000000123 network_ok (dry_run_inputs "yes")
  = [SetFailed
       (jq "Input does not meet YAML 1.2 'Core Schema' specification: dry_run"
        ++ [10%N]
        ++ lit "Support boolean input list: `true | True | TRUE | false | False | FALSE`")].
Proof.
  apply (dry_run_must_be_boolean Handlebars.fragment_engine 1700000000123
           network_ok (dry_run_inputs "yes")).
  - discriminate.
  - discriminate.
  - reflexivity.
Defined.

(** * The timeout *)

Lemma parseInt10_unsigned (c : codeunit) (r : jsstring) :
  isSpace c = false -> c <> 43%N -> c <> 45%N ->
  parseInt10 (c :: r)
  = let (d, _) := span_digits (c :: r) in
    match d with
    | [] => None
    | _ => Some (Z.of_N (digits_value 0 d))
    end.
Proof.
  intros Hs H43 H45. unfold parseInt10, trimStart. cbn [dropWhile]. rewrite Hs.
  destruct c as [|p]; [reflexivity|].
  do 6 (destruct p as [p|p|]; try reflexivity); congruence.
Qed.

Lemma span_digits_uint_app (d : Decimal.uint) (rest : jsstring) :
  no_leading_digit rest = true ->
  span_digits (uint_units d ++ rest) = (uint_units d, rest).
Proof.
  intros Hr.
  induction d; cbn [uint_units span_digits app];
    try (change (isDigit (digit_unit _)) with true; cbv iota; rewrite IHd;
         reflexivity).
  destruct rest as [|c rest]; [reflexivity|]. cbn [span_digits].
  cbn [no_leading_digit] in Hr. apply negb_true_iff in Hr. rewrite Hr. reflexivity.
Qed.

Lemma parseInt10_decimal_prefix (n : Z) (rest : jsstring) :
  no_leading_digit rest = true ->
  parseInt10 (decimal_of_Z n ++ rest) = Some n.
Proof.
  intros Hr.
  assert (Hpos : forall m : N,
             exists c d, decimal_of_N m = c :: d /\ isDigit c = true
                         /\ isSpace c = false /\ c <> 43%N /\ c <> 45%N).
  { intros m. unfold decimal_of_N.
    assert (Hne : uint_units (N.to_uint m) <> []).
    { destruct m as [|p]; [discriminate|]. apply uint_units_nonempty_pos. }
    destruct (N.to_uint m); cbn [uint_units] in *; try congruence;
      eexists; eexists; (split; [reflexivity|]); repeat split; discriminate. }
  assert (Hd : forall m : N,
             (let (d, _) := span_digits (decimal_of_N m ++ rest) in
              match d with
              | [] => None
              | _ => Some (digits_value 0 d)
              end) = Some m).
  { intros m. unfold decimal_of_N at 1. rewrite (span_digits_uint_app _ _ Hr).
    fold (decimal_of_N m). destruct (Hpos m) as (c & d & E & _).
    rewrite <- (digits_value_decimal m) at 2. rewrite E. reflexivity. }
  assert (Hnat : forall m : N,
             parseInt10 (decimal_of_N m ++ rest) = Some (Z.of_N m)).
  { intros m. specialize (Hd m). destruct (Hpos m) as (c & d & E & _ & Hs & H43 & H45).
    rewrite E in *. cbn [app] in *.
    rewrite (parseInt10_unsigned c (d ++ rest) Hs H43 H45).
    destruct (span_digits (c :: d ++ rest)) as [ds r].
    destruct ds; [discriminate|]. injection Hd as <-. reflexivity. }
  destruct n as [|p|p].
  - apply (Hnat 0%N).
  - apply (Hnat (N.pos p)).
  - specialize (Hd (N.pos p)). unfold decimal_of_Z, parseInt10, trimStart.
    cbn [app dropWhile]. change (isSpace 45%N) with false. cbv iota.
    destruct (span_digits (decimal_of_N (N.pos p) ++ rest)) as [ds r].
    destruct ds as [|c ds]; [discriminate|].
    remember (digits_value 0 (c :: ds)) as v. injection Hd as ->. reflexivity.
Qed.

(** X8: the timeout is what [parseInt] makes of the text.  For the
    numeral of an integer [n] (within the range in which JavaScript
    numbers are exact), alone or followed by anything that is not a
    digit (a unit, a fraction, an exponent), the abort timer is armed
    with [n] milliseconds, also when [n] is negative, and with no timer
    at all when [n] is zero. *)
Theorem timeout_is_leading_integer (n : Z) (rest : jsstring) :
  (Z.abs n <= 9007199254740992)%Z ->
  no_leading_digit rest = true ->
  abort_delay (mkSendOptions (timeoutMs_of_input (decimal_of_Z n ++ rest)))
  = if (n =? 0)%Z then None else Some n.
Proof.
  intros _ Hr. unfold timeoutMs_of_input.
  rewrite (parseInt10_decimal_prefix n rest Hr).
  destruct (decimal_of_Z n ++ rest) eqn:E; [|reflexivity].
  exfalso. apply app_eq_nil in E. destruct E as [E _].
  destruct n as [|p|p]; try discriminate E.
  exact (uint_units_nonempty_pos p E).
Qed.

Lemma timeout_is_leading_integer_witness :
  abort_delay (mkSendOptions (timeoutMs_of_input (lit "1e3"))) = Some 1%Z
  /\ abort_delay (mkSendOptions (timeoutMs_of_input (lit "2.5s"))) = Some 2%Z
  /\ abort_delay (mkSendOptions (timeoutMs_of_input (lit "-5"))) = Some (-5)%Z
  /\ abort_delay (mkSendOptions (timeoutMs_of_input (lit "0"))) = None.
Proof.
  split; [apply (timeout_is_leading_integer 1 (lit "e3")); [simpl; lia|reflexivity]|].
  split; [apply (timeout_is_leading_integer 2 (lit ".5s")); [simpl; lia|reflexivity]|].
  split; [apply (timeout_is_leading_integer (-5) []); [simpl; lia|reflexivity]|].
  apply (timeout_is_leading_integer 0 []); [simpl; lia|reflexivity].
Defined.

(** X9: a text for the timeout that starts with something other than a
    digit or a sign is not a number to [parseInt]: no abort timer is
    armed, and no error is raised for it. *)
Theorem timeout_not_a_number_arms_no_timer (c : codeunit) (rest : jsstring) :
  isDigit c = false -> isSpace c = false -> c <> 43%N -> c <> 45%N ->
  timeoutMs_of_input (c :: rest) = Some None
  /\ abort_delay (mkSendOptions (timeoutMs_of_input (c :: rest))) = None.
Proof.
  intros Hd Hs H43 H45.
  assert (H : timeoutMs_of_input (c :: rest) = Some None).
  { unfold timeoutMs_of_input. rewrite (parseInt10_unsigned c rest Hs H43 H45).
    cbn [span_digits]. rewrite Hd. reflexivity. }
  split; [exact H|]. rewrite H. reflexivity.
Qed.

Lemma timeout_not_a_number_witness :
  timeoutMs_of_input (lit "ten") = Some None
  /\ abort_delay (mkSendOptions (timeoutMs_of_input (lit "ten"))) = None.
Proof.
  apply (timeout_not_a_number_arms_no_timer 116%N (lit "en")).
  - reflexivity.
  - reflexivity.
  - discriminate.
  - discriminate.
Defined.

(* ================================================================== *)
(** * Which inputs are read as key and value lines *)

Lemma starts_plain_number_token (start : N) (text : jsstring)
  (ts : list (N * JSON.token)) :
  starts_plain (JSON.number_token start text :: ts) = true.
Proof. unfold JSON.number_token. destruct (number_literal text); reflexivity. Qed.

(** Inside a string or a number there is a next token, and it is not a
    brace. *)
Lemma lex_inside_plain (n : nat) :
  forall s, (List.length s <= n)%nat ->
  forall m pos, m <> JSON.Main -> starts_plain (JSON.lex m pos s) = true.
Proof.
  induction n as [|n IH]; intros s Hlen m pos Hm.
  - destruct s; [|simpl in Hlen; lia].
    destruct m; try congruence; cbn [JSON.lex]; [reflexivity|].
    apply starts_plain_number_token.
  - destruct s as [|c s].
    { destruct m; try congruence; cbn [JSON.lex]; [reflexivity|].
      apply starts_plain_number_token. }
    simpl in Hlen.
    assert (Hrec : forall s' m pos,
               (List.length s' <= List.length s)%nat -> m <> JSON.Main ->
               starts_plain (JSON.lex m pos s') = true).
    { intros. apply IH; [lia|assumption]. }
    clear IH.
    destruct m; try congruence; cbn [JSON.lex].
    + destruct (N.eqb c DQUOTE); [reflexivity|].
      destruct (N.eqb c BACKSLASH).
      * destruct s as [|e s]; [reflexivity|].
        destruct (JSON.unescape e).
        { apply Hrec; [simpl; lia|discriminate]. }
        destruct (N.eqb e 117); [|reflexivity].
        destruct s as [|h1 [|h2 [|h3 [|h4 s5]]]]; try reflexivity.
        destruct (JSON.hex4 h1 h2 h3 h4); [|reflexivity].
        apply Hrec; [simpl; lia|discriminate].
      * destruct (N.ltb c 32); [reflexivity|].
        apply Hrec; [lia|discriminate].
    + destruct (JSON.isNumberChar c).
      * apply Hrec; [lia|discriminate].
      * apply starts_plain_number_token.
Qed.

Lemma starts_plain_spec (ts : list (N * JSON.token)) :
  starts_plain ts = true -> first_is_lbrace ts = false /\ ts <> [].
Proof.
  destruct ts as [|[pos t] ts]; [discriminate|].
  destruct t; try discriminate; (split; [reflexivity|discriminate]).
Qed.

(** The first token of a text is a brace only if the text opens with
    one. *)
Lemma lex_first_token (s : jsstring) :
  forall pos, opens_object s = false ->
  first_is_lbrace (JSON.lex JSON.Main pos s) = false.
Proof.
  induction s as [|c s IH]; intros pos H; [reflexivity|].
  unfold opens_object in H. cbn [dropWhile] in H. cbn [JSON.lex].
  destruct (JSON.isJSONSpace c); [apply IH, H|].
  rewrite H.
  repeat match goal with
         | |- first_is_lbrace (if ?b then _ else _) = false => destruct b
         | |- first_is_lbrace (match ?l with [] => _ | _ :: _ => _ end) = false =>
             destruct l
         end;
    try reflexivity;
    apply starts_plain_spec, (lex_inside_plain (List.length s) s (le_n _));
    discriminate.
Qed.

Lemma step_array_underway (p p' : JSON.pstate) (st st' : list JSON.frame)
  (t : JSON.token) :
  array_underway p st -> JSON.step p st t = Some (p', st') ->
  array_underway p' st'.
Proof.
  intros Hinv H.
  destruct p; destruct t; cbn in H; try discriminate;
    destruct st as [|[items|props|props k] [|[items2|props2|props2 k2] [|f st]]];
    cbn in *; try discriminate; try tauto;
    inversion H; subst; cbn; try tauto; destruct Hinv; discriminate.
Qed.

Lemma automaton_array_underway (ts : list (N * JSON.token)) :
  forall p st v,
    array_underway p st -> JSON.automaton p st ts = inl v ->
    exists items, v = JArray items.
Proof.
  induction ts as [|[pos t] ts IH]; intros p st v Hinv; simpl.
  - destruct p; try discriminate. intros H. inversion H; subst.
    destruct st; [|destruct Hinv as [_ []]]. cbn in Hinv.
    destruct v; try contradiction. eauto.
  - assert (Hgo : match JSON.step p st t with
                  | Some (p', stack') => JSON.automaton p' stack' ts
                  | None => inr (JSON.UnexpectedToken pos)
                  end = inl v -> exists items, v = JArray items).
    { destruct (JSON.step p st t) as [[p' st']|] eqn:E; [|discriminate].
      apply IH. exact (step_array_underway _ _ _ _ _ Hinv E). }
    destruct t; auto. destruct at_end; [discriminate|auto].
Qed.

Lemma automaton_done (ts : list (N * JSON.token)) (v w : JSONValue) :
  JSON.automaton (JSON.PDone v) [] ts = inl w -> w = v.
Proof.
  destruct ts as [|[pos t] ts]; simpl.
  - intros H. now inversion H.
  - destruct t; try discriminate. destruct at_end; discriminate.
Qed.

(** [JSON.parse] gives an object only for a text that opens with a
    brace. *)
Lemma parse_object_opens (s : jsstring) (o : JSONObject) :
  JSON.parse s = Ok (JObject o) -> opens_object s = true.
Proof.
  intros H. destruct (opens_object s) eqn:E; [reflexivity|exfalso].
  pose proof (lex_first_token s 0%N E) as Hf.
  unfold JSON.parse in H.
  destruct (JSON.automaton JSON.PValue [] (JSON.lex JSON.Main 0 s)) as [v|e] eqn:Ea;
    [|discriminate].
  inversion H; subst v. clear H.
  destruct (JSON.lex JSON.Main 0 s) as [|[pos t] ts]; [discriminate|].
  cbn [first_is_lbrace] in Hf.
  destruct t; try discriminate; cbn in Ea; try discriminate;
    try (apply automaton_done in Ea; discriminate).
  - apply automaton_array_underway in Ea; [|split; [reflexivity|exact I]].
    destruct Ea as [items Ea]. discriminate.
  - destruct at_end; discriminate.
Qed.

Lemma dropWhile_app_all {A} (p : A -> bool) (l r : list A) :
  forallb p l = true -> dropWhile p (l ++ r) = dropWhile p r.
Proof.
  induction l as [|x l IH]; simpl; auto.
  destruct (p x); simpl; auto; discriminate.
Qed.

Lemma dropWhile_first {A} (p : A -> bool) (l : list A) (c : A) (r : list A) :
  dropWhile p l = c :: r -> In c l /\ p c = false.
Proof.
  induction l as [|x l IH]; simpl; [discriminate|].
  destruct (p x) eqn:E.
  - intros H. destruct (IH H). auto.
  - intros H. inversion H; subst. auto.
Qed.

(** White space at the end of a text does not change what [trim] gives. *)
Lemma trim_app_space (a b : jsstring) :
  forallb isSpace b = true -> trim (a ++ b) = trim a.
Proof.
  intros Hb. unfold trim, trimEnd, trimStart.
  destruct (dropWhile isSpace a) as [|c r] eqn:E.
  - apply dropWhile_nil_all in E.
    rewrite (dropWhile_all isSpace (a ++ b)); [reflexivity|].
    rewrite forallb_app, E, Hb. reflexivity.
  - rewrite dropWhile_app_keep by congruence. rewrite E.
    rewrite rev_app_distr, (dropWhile_app_all isSpace (rev b)); [reflexivity|].
    now rewrite forallb_rev.
Qed.

Lemma split_lines_from_cons (cur : jsstring) (c : codeunit) (s : jsstring) :
  split_lines_from cur (c :: s)
  = if N.eqb c 10 then rev cur :: split_lines_from [] s
    else if N.eqb c 13 then
      match s with
      | d :: s'' =>
          if N.eqb d 10 then rev cur :: split_lines_from [] s''
          else split_lines_from (c :: cur) s
      | [] => split_lines_from (c :: cur) s
      end
    else split_lines_from (c :: cur) s.
Proof. reflexivity. Qed.

(** The trimmed lines of two texts joined by a line break are the
    trimmed lines of the one followed by those of the other. *)
Lemma trimmed_lines_app (nl : jsstring) (n : nat) :
  nl = [10%N] \/ nl = [13%N; 10%N] ->
  forall a, (List.length a <= n)%nat ->
  forall cur b,
    map trim (split_lines_from cur (a ++ nl ++ b))
    = map trim (split_lines_from cur a) ++ map trim (split_lines_from [] b).
Proof.
  intros Hnl. induction n as [|n IH]; intros a Hlen cur b.
  - destruct a; [|simpl in Hlen; lia].
    destruct Hnl as [-> | ->]; reflexivity.
  - destruct a as [|c a].
    { destruct Hnl as [-> | ->]; reflexivity. }
    simpl in Hlen. cbn [app]. rewrite !split_lines_from_cons.
    destruct (N.eqb c 10) eqn:E10.
    { cbn [map app]. f_equal. apply IH. lia. }
    destruct (N.eqb_spec c 13) as [->|E13]; [|apply IH; lia].
    destruct a as [|d a].
    + cbn [app split_lines_from map].
      destruct Hnl as [-> | ->]; cbn [app]; rewrite ?split_lines_from_cons;
        change (N.eqb 10 10) with true; change (N.eqb 13 10) with false;
        change (N.eqb 13 13) with true; cbv iota; cbn [map rev app];
        [|reflexivity].
      f_equal. symmetry. apply trim_app_space. reflexivity.
    + cbn [app]. destruct (N.eqb d 10) eqn:Ed.
      * cbn [map app]. f_equal. apply IH. simpl in Hlen. lia.
      * apply (IH (d :: a)). lia.
Qed.

Lemma kv_lines_app (nl a b : jsstring) :
  nl = [10%N] \/ nl = [13%N; 10%N] ->
  kv_lines (a ++ nl ++ b) = kv_lines a ++ kv_lines b.
Proof.
  intros Hnl. unfold kv_lines, split_lines.
  rewrite (trimmed_lines_app nl (List.length a) Hnl a (le_n _)).
  apply filter_app.
Qed.

(** A text without a line feed is one line. *)
Lemma split_lines_from_one (s : jsstring) :
  forall cur,
    forallb (fun x => negb (N.eqb x 10)) s = true ->
    split_lines_from cur s = [rev cur ++ s].
Proof.
  induction s as [|c s IH]; intros cur H.
  - cbn. now rewrite app_nil_r.
  - cbn [forallb] in H. apply andb_prop in H as [Hc Hs].
    apply negb_true_iff in Hc. rewrite split_lines_from_cons, Hc.
    assert (Hgo : split_lines_from (c :: cur) s = [rev cur ++ c :: s]).
    { rewrite (IH _ Hs). cbn [rev]. now rewrite <- app_assoc. }
    destruct (N.eqb c 13); [|exact Hgo].
    destruct s as [|d s]; [exact Hgo|].
    cbn [forallb] in Hs. apply andb_prop in Hs as [Hd _].
    apply negb_true_iff in Hd. rewrite Hd. exact Hgo.
Qed.

(** A blank line and a comment line are not kept. *)
Lemma kv_lines_dropped (c : jsstring) :
  forallb (fun x => negb (N.eqb x 10)) c = true ->
  trim c = [] \/ startsWith (trim c) (lit "#") = true ->
  kv_lines c = [].
Proof.
  intros Hc H. unfold kv_lines, split_lines.
  rewrite (split_lines_from_one c [] Hc). cbn [rev app map filter].
  destruct H as [-> | ->]; [reflexivity|].
  destruct (trim c); reflexivity.
Qed.

Lemma kv_lines_blank (n : nat) :
  forall s, (List.length s <= n)%nat ->
  forall cur,
    forallb isSpace cur = true -> forallb isSpace s = true ->
    filter (fun l => match l with [] => false | _ => true end
                     && negb (startsWith l (lit "#")))
      (map trim (split_lines_from cur s)) = [].
Proof.
  assert (Hone : forall cur : jsstring,
             forallb isSpace cur = true -> trim (rev cur) = []).
  { intros cur H. apply trim_nil_iff. now rewrite forallb_rev. }
  induction n as [|n IH]; intros s Hlen cur Hcur Hs.
  - destruct s; [|simpl in Hlen; lia]. cbn [split_lines_from map filter].
    now rewrite (Hone _ Hcur).
  - destruct s as [|c s].
    { cbn [split_lines_from map filter]. now rewrite (Hone _ Hcur). }
    simpl in Hlen. cbn [forallb] in Hs. apply andb_prop in Hs as [Hc Hs].
    assert (Hgo : filter (fun l => match l with [] => false | _ => true end
                                   && negb (startsWith l (lit "#")))
                    (map trim (split_lines_from (c :: cur) s)) = []).
    { apply IH; [lia| |exact Hs]. cbn [forallb]. now rewrite Hc, Hcur. }
    assert (Hcut : forall s', (List.length s' <= n)%nat ->
               forallb isSpace s' = true ->
               filter (fun l => match l with [] => false | _ => true end
                                && negb (startsWith l (lit "#")))
                 (map trim (rev cur :: split_lines_from [] s')) = []).
    { intros s' Hl Hs'. cbn [map filter]. rewrite (Hone _ Hcur). cbn [andb].
      apply IH; auto. }
    rewrite split_lines_from_cons.
    destruct (N.eqb c 10); [apply Hcut; [lia|exact Hs]|].
    destruct (N.eqb c 13); [|exact Hgo].
    destruct s as [|d s]; [exact Hgo|].
    destruct (N.eqb d 10); [|exact Hgo].
    cbn [forallb] in Hs. apply andb_prop in Hs as [_ Hs].
    apply Hcut; [simpl in Hlen; lia|exact Hs].
Qed.

(** An input that does not open with a brace is read as lines. *)
Lemma parseVariables_key_value_mode (input : jsstring) :
  opens_object input = false ->
  parseVariables (Some input) = fold_left kv_step (kv_lines input) [].
Proof.
  intros H. destruct (forallb isSpace input) eqn:Hb.
  - unfold kv_lines, split_lines.
    rewrite (kv_lines_blank (List.length input) input (le_n _) [] eq_refl Hb).
    unfold parseVariables. apply trim_nil_iff in Hb. rewrite Hb.
    rewrite orb_true_r. reflexivity.
  - apply parseVariables_fallback; [exact Hb|].
    intros o Ho. apply parse_object_opens in Ho. congruence.
Qed.

(** X10: an input whose first character after JSON white space is not
    an opening brace is never taken for a JSON object: it is read as
    lines of keys and values, whatever JSON it may hold (a list, a
    quoted string, a number); a blank input gives the empty mapping. *)
Theorem no_brace_means_key_value_lines (input : jsstring) :
  opens_object input = false ->
  parseVariables (Some input) = fold_left kv_step (kv_lines input) []
  /\ (forallb isSpace input = true -> parseVariables (Some input) = []).
Proof.
  intros H. split; [apply parseVariables_key_value_mode, H|].
  intros Hb. unfold parseVariables. apply trim_nil_iff in Hb. rewrite Hb.
  rewrite orb_true_r. reflexivity.
Qed.

Lemma no_brace_witness :
  parseVariables (Some (lit "[1,2]")) = []
  /\ parseVariables (Some (lit "name=Ada")) = [(lit "name", JString (lit "Ada"))].
Proof.
  split.
  - exact (proj1 (no_brace_means_key_value_lines (lit "[1,2]") eq_refl)).
  - exact (proj1 (no_brace_means_key_value_lines (lit "name=Ada") eq_refl)).
Defined.

Lemma re_exec_from_cons (key_rev : jsstring) (c : codeunit) (s : jsstring) :
  re_exec_from key_rev (c :: s)
  = match match_after_key (c :: s) with
    | Some (sep, t) => Some (rev key_rev, sep, t)
    | None =>
        if isLineTerminator c then None else re_exec_from (c :: key_rev) s
    end.
Proof. reflexivity. Qed.

Lemma match_after_key_separator (k : jsstring) (sep : codeunit) (v : jsstring) :
  forallb isSpace k = true -> isSeparator sep = true ->
  forallb (fun x => negb (isLineTerminator x)) (trimStart v) = true ->
  match_after_key (k ++ sep :: v) = Some (sep, trimStart v).
Proof.
  intros Hk Hsep Hv. unfold match_after_key.
  rewrite (dropWhile_app_all isSpace k (sep :: v) Hk). cbn [dropWhile].
  rewrite (isSeparator_not_space _ Hsep), Hsep.
  unfold trimStart in Hv. rewrite Hv. reflexivity.
Qed.

(** The key group of the pattern ends at the first separator, white
    space before the separator left out. *)
Lemma re_exec_from_key (k : jsstring) :
  forall (key_rev : jsstring) (sep : codeunit) (v : jsstring),
    forallb (fun c => negb (isSeparator c) && negb (isLineTerminator c)) k = true ->
    isSeparator sep = true ->
    forallb (fun x => negb (isLineTerminator x)) (trimStart v) = true ->
    exists k1 k2,
      k = k1 ++ k2 /\ forallb isSpace k2 = true
      /\ re_exec_from key_rev (k ++ sep :: v)
         = Some (rev key_rev ++ k1, sep, trimStart v).
Proof.
  induction k as [|c k IH]; intros key_rev sep v Hk Hsep Hv.
  - exists [], []. split; [reflexivity|]. split; [reflexivity|].
    pose proof (match_after_key_separator [] sep v eq_refl Hsep Hv) as Hm.
    cbn [app] in *. rewrite re_exec_from_cons, Hm.
    now rewrite app_nil_r.
  - destruct (forallb isSpace (c :: k)) eqn:Hall.
    + exists [], (c :: k). split; [reflexivity|]. split; [exact Hall|].
      cbn [app]. rewrite re_exec_from_cons.
      change (c :: k ++ sep :: v) with ((c :: k) ++ sep :: v).
      rewrite (match_after_key_separator (c :: k) sep v Hall Hsep Hv).
      now rewrite app_nil_r.
    + assert (Hnone : match_after_key ((c :: k) ++ sep :: v) = None).
      { unfold match_after_key.
        destruct (dropWhile isSpace (c :: k)) as [|c' r] eqn:Ed.
        { apply dropWhile_nil_all in Ed. congruence. }
        rewrite dropWhile_app_keep by congruence. rewrite Ed. cbn [app].
        apply dropWhile_first in Ed. destruct Ed as [Hin _].
        rewrite forallb_forall in Hk. specialize (Hk _ Hin).
        apply andb_prop in Hk as [Hk _]. apply negb_true_iff in Hk.
        now rewrite Hk. }
      cbn [forallb] in Hk. apply andb_prop in Hk as [Hc Hk].
      apply andb_prop in Hc as [_ Hc]. apply negb_true_iff in Hc.
      destruct (IH (c :: key_rev) sep v Hk Hsep Hv) as (k1 & k2 & -> & H2 & E).
      exists (c :: k1), k2. split; [reflexivity|]. split; [exact H2|].
      cbn [app] in *. rewrite re_exec_from_cons, Hnone, Hc, E.
      cbn [rev]. now rewrite <- app_assoc.
Qed.

Lemma kv_step_line (vars : JSONObject) (k : jsstring) (sep : codeunit)
  (v : jsstring) :
  forallb (fun c => negb (isSeparator c) && negb (isLineTerminator c)) k = true ->
  isSeparator sep = true ->
  forallb (fun x => negb (isLineTerminator x)) (trimStart v) = true ->
  kv_step vars (k ++ sep :: v) = obj_assign vars (trim k) (coerceValue (trim v)).
Proof.
  intros Hk Hsep Hv. unfold kv_step, re_exec.
  destruct (re_exec_from_key k [] sep v Hk Hsep Hv) as (k1 & k2 & -> & H2 & ->).
  cbn [rev app]. now rewrite trim_trimStart, (trim_app_space k1 k2 H2).
Qed.

(** X11: a line is cut at its first separator, [=] or [:], so the value
    may hold separators itself.  The key is the text before it and the
    value the text after it, both trimmed; the value is coerced.  For a
    key other than [__proto__], the entry of that key becomes the value
    and no other entry changes. *)
Theorem line_is_cut_at_first_separator (vars : JSONObject) (k : jsstring)
  (sep : codeunit) (v : jsstring) :
  forallb (fun c => negb (isSeparator c) && negb (isLineTerminator c)) k = true ->
  isSeparator sep = true ->
  forallb (fun x => negb (isLineTerminator x)) (trimStart v) = true ->
  trim k <> lit "__proto__" ->
  obj_get (kv_step vars (k ++ sep :: v)) (trim k) = Some (coerceValue (trim v))
  /\ forall k', k' <> trim k ->
                obj_get (kv_step vars (k ++ sep :: v)) k' = obj_get vars k'.
Proof.
  intros Hk Hsep Hv Hproto. rewrite (kv_step_line vars k sep v Hk Hsep Hv).
  unfold obj_assign. rewrite (str_eqb_neq _ _ Hproto).
  split; [apply obj_get_put_eq|].
  intros k' Hne. now apply obj_get_put_neq.
Qed.

Lemma line_is_cut_witness :
  trim (lit "url ") <> lit "__proto__"
  /\ obj_get (kv_step [] (lit "url = https://example.org/?a=b")) (lit "url")
     = Some (JString (lit "https://example.org/?a=b"))
  /\ forall k', k' <> lit "url" ->
                obj_get (kv_step [] (lit "url = https://example.org/?a=b")) k'
                = obj_get [] k'.
Proof.
  assert (Hproto : trim (lit "url ") <> lit "__proto__").
  { intros H. vm_compute in H. discriminate H. }
  split; [exact Hproto|].
  exact (line_is_cut_at_first_separator [] (lit "url ") 61%N
           (lit " https://example.org/?a=b") eq_refl eq_refl eq_refl Hproto).
Defined.

Lemma match_after_key_none (s : jsstring) :
  forallb (fun c => negb (isSeparator c)) s = true -> match_after_key s = None.
Proof.
  intros H. unfold match_after_key.
  destruct (dropWhile isSpace s) as [|c r] eqn:E; [reflexivity|].
  apply dropWhile_first in E. destruct E as [Hin _].
  rewrite forallb_forall in H. specialize (H _ Hin).
  apply negb_true_iff in H. now rewrite H.
Qed.

Lemma re_exec_from_none (s : jsstring) :
  forall key_rev,
    forallb (fun c => negb (isSeparator c)) s = true ->
    re_exec_from key_rev s = None.
Proof.
  induction s as [|c s IH]; intros key_rev H; [reflexivity|].
  rewrite re_exec_from_cons, (match_after_key_none _ H).
  cbn [forallb] in H. apply andb_prop in H as [_ H].
  destruct (isLineTerminator c); [reflexivity|]. apply IH, H.
Qed.

(** X12: a line that holds neither [=] nor [:] is skipped: it sets no
    entry and raises no error. *)
Theorem line_without_separator_is_skipped (vars : JSONObject) (line : jsstring) :
  forallb (fun c => negb (isSeparator c)) line = true ->
  kv_step vars line = vars.
Proof.
  intros H. unfold kv_step, re_exec. now rewrite (re_exec_from_none line [] H).
Qed.

Lemma line_without_separator_witness :
  kv_step [(lit "a", JBool true)] (lit "just some words") = [(lit "a", JBool true)].
Proof.
  exact (line_without_separator_is_skipped [(lit "a", JBool true)]
           (lit "just some words") eq_refl).
Defined.

(** X13: lines are read in order, each on top of what the lines before
    it gave, so a later line wins over an earlier one with the same key;
    a line ends at LF or at CR LF alike. *)
Theorem lines_are_read_in_order (nl a b : jsstring) :
  nl = [10%N] \/ nl = [13%N; 10%N] ->
  opens_object (a ++ nl ++ b) = false ->
  parseVariables (Some (a ++ nl ++ b))
  = fold_left kv_step (kv_lines b) (fold_left kv_step (kv_lines a) []).
Proof.
  intros Hnl H.
  change (parseVariables (@Some jsstring (a ++ nl ++ b))
          = fold_left kv_step (kv_lines b) (fold_left kv_step (kv_lines a) [])).
  rewrite (parseVariables_key_value_mode _ H).
  rewrite (kv_lines_app nl a b Hnl). apply fold_left_app.
Qed.

Lemma lines_are_read_in_order_witness :
  parseVariables (Some (lit "a=1" ++ [13%N; 10%N] ++ lit "a=2"))
  = [(lit "a", JNumber (Fin false 2 0))].
Proof.
  exact (lines_are_read_in_order [13%N; 10%N] (lit "a=1") (lit "a=2")
           (or_intror eq_refl) eq_refl).
Defined.

Lemma opens_object_app (a x : jsstring) :
  forallb JSON.isJSONSpace a = false ->
  opens_object (a ++ x) = opens_object a.
Proof.
  intros H. unfold opens_object.
  destruct (dropWhile JSON.isJSONSpace a) as [|c r] eqn:E.
  - apply dropWhile_nil_all in E. congruence.
  - rewrite dropWhile_app_keep by congruence. now rewrite E.
Qed.

(** X14: blank lines and comment lines, those whose first character
    after white space is [#], are ignored: taking such a line out of the
    input changes nothing in the mapping. *)
Theorem comment_and_blank_lines_are_ignored (a c b : jsstring) :
  forallb JSON.isJSONSpace a = false -> opens_object a = false ->
  forallb (fun x => negb (N.eqb x 10)) c = true ->
  trim c = [] \/ startsWith (trim c) (lit "#") = true ->
  parseVariables (Some (a ++ [10%N] ++ c ++ [10%N] ++ b))
  = parseVariables (Some (a ++ [10%N] ++ b)).
Proof.
  intros Ha Hopen Hc Hdrop.
  change (parseVariables (@Some jsstring (a ++ [10%N] ++ c ++ [10%N] ++ b))
          = parseVariables (@Some jsstring (a ++ [10%N] ++ b))).
  rewrite !parseVariables_key_value_mode
    by (rewrite opens_object_app; assumption).
  rewrite !(kv_lines_app [10%N]) by (left; reflexivity).
  now rewrite (kv_lines_dropped c Hc Hdrop).
Qed.

Lemma comment_lines_witness :
  parseVariables
    (Some (lit "a=1" ++ [10%N] ++ lit "  # a=2" ++ [10%N] ++ lit "b=3"))
  = parseVariables (Some (lit "a=1" ++ [10%N] ++ lit "b=3")).
Proof.
  exact (comment_and_blank_lines_are_ignored (lit "a=1") (lit "  # a=2")
           (lit "b=3") eq_refl eq_refl eq_refl (or_intror eq_refl)).
Defined.

(* ================================================================== *)
(** * Coercion of the values *)

Lemma looks_numeric_first (c : codeunit) (r : jsstring) :
  N.eqb c 45 = false -> isDigit c = false -> looks_numeric (c :: r) = false.
Proof.
  intros H45 Hd. unfold looks_numeric. rewrite H45. cbn [span_digits].
  rewrite Hd. reflexivity.
Qed.

(** When a text does not look like a number, [coerceValue] is decided by
    [JSON.parse], the three words apart. *)
Lemma coerceValue_fallback (raw : jsstring) :
  raw <> lit "true" -> raw <> lit "false" -> raw <> lit "null" ->
  looks_numeric raw = false ->
  coerceValue raw = match JSON.parse raw with
                    | Ok v => v
                    | Throw _ => JString raw
                    end.
Proof.
  intros H1 H2 H3 Hn. unfold coerceValue.
  rewrite (str_eqb_neq _ _ H1), (str_eqb_neq _ _ H2), (str_eqb_neq _ _ H3), Hn.
  destruct (Number_ raw); reflexivity.
Qed.

(** X15: a value written as a JSON string literal is decoded: the
    quotes are taken off and the escapes are resolved, whatever the
    string. *)
Theorem quoted_value_is_unquoted (s : jsstring) :
  coerceValue (QuoteJSONString s) = JString s.
Proof.
  rewrite coerceValue_fallback.
  - now rewrite parse_QuoteJSONString.
  - unfold QuoteJSONString. discriminate.
  - unfold QuoteJSONString. discriminate.
  - unfold QuoteJSONString. discriminate.
  - unfold QuoteJSONString. apply looks_numeric_first; reflexivity.
Qed.

Lemma lex_main_nil (s : jsstring) :
  forall pos, JSON.lex JSON.Main pos s = [] -> forallb JSON.isJSONSpace s = true.
Proof.
  induction s as [|c s IH]; intros pos; [reflexivity|].
  cbn [JSON.lex forallb].
  destruct (JSON.isJSONSpace c); [apply IH|].
  repeat match goal with
         | |- (if ?b then _ else _) = [] -> _ => destruct b
         | |- match ?l with [] => _ | _ :: _ => _ end = [] -> _ => destruct l
         end;
    try discriminate;
    intros H;
    match type of H with
    | JSON.lex ?m ?p ?t = [] =>
        assert (Hp : starts_plain (JSON.lex m p t) = true)
          by (apply (lex_inside_plain (List.length t) t (le_n _)); discriminate);
        rewrite H in Hp; discriminate Hp
    end.
Qed.

Lemma isJSONSpace_isSpace (c : codeunit) :
  JSON.isJSONSpace c = true -> isSpace c = true.
Proof.
  unfold JSON.isJSONSpace. rewrite !orb_true_iff, !N.eqb_eq.
  intros [[[-> | ->] | ->] | ->]; reflexivity.
Qed.

Lemma length_dropWhile {A} (p : A -> bool) (l : list A) :
  (List.length (dropWhile p l) <= List.length l)%nat.
Proof.
  induction l as [|x l IH]; simpl; [lia|]. destruct (p x); simpl; lia.
Qed.

Lemma length_trim (s : jsstring) : (List.length (trim s) <= List.length s)%nat.
Proof.
  unfold trim, trimEnd, trimStart. rewrite length_rev.
  pose proof (length_dropWhile isSpace (rev (dropWhile isSpace s))).
  pose proof (length_dropWhile isSpace s).
  rewrite length_rev in *. lia.
Qed.

(** A trimmed text does not start with white space. *)
Lemma trim_head (c : codeunit) (r : jsstring) :
  trim (c :: r) = c :: r -> isSpace c = false.
Proof.
  intros H. destruct (isSpace c) eqn:E; [exfalso|reflexivity].
  assert (Ht : trim (c :: r) = trim r).
  { unfold trim, trimStart. cbn [dropWhile]. now rewrite E. }
  pose proof (length_trim r) as Hl. rewrite <- Ht, H in Hl. simpl in Hl. lia.
Qed.

(** A trimmed text does not end with white space. *)
Lemma trim_tail (x y s : jsstring) :
  trim x = x -> x = y ++ s -> forallb isSpace s = true -> s = [].
Proof.
  intros Ht -> Hs. destruct (rev s) as [|d w] eqn:Er.
  { apply (f_equal (@rev codeunit)) in Er. now rewrite rev_involutive in Er. }
  exfalso.
  assert (Hd : isSpace d = true).
  { rewrite <- forallb_rev, Er in Hs. cbn [forallb] in Hs.
    now apply andb_prop in Hs as [Hd _]. }
  unfold trim, trimEnd in Ht.
  apply (f_equal (@rev codeunit)) in Ht. rewrite rev_involutive in Ht.
  rewrite rev_app_distr, Er in Ht. cbn [app] in Ht.
  apply dropWhile_first in Ht. destruct Ht as [_ Ht]. congruence.
Qed.

Lemma automaton_after_done (v : JSONValue) (ts : list (N * JSON.token)) :
  ts <> [] -> exists e, JSON.automaton (JSON.PDone v) [] ts = inr e.
Proof.
  destruct ts as [|[pos t] ts]; [congruence|]. intros _. cbn.
  destruct t; eauto. destruct at_end; eauto.
Qed.

(** After a word, only white space can follow in a JSON text. *)
Lemma parse_after_word (pre rest : jsstring) (v : JSONValue) (pos : N) :
  trim (pre ++ rest) = pre ++ rest -> rest <> [] ->
  exists e, JSON.automaton (JSON.PDone v) [] (JSON.lex JSON.Main pos rest) = inr e.
Proof.
  intros Ht Hne. apply automaton_after_done. intros Hl.
  apply lex_main_nil in Hl. apply Hne.
  apply (trim_tail (pre ++ rest) pre rest Ht eq_refl).
  rewrite forallb_forall in *. intros x Hx. apply isJSONSpace_isSpace, Hl, Hx.
Qed.

(** A trimmed text that starts as no JSON value does is not a JSON
    text. *)
Lemma parse_plain_word (c : codeunit) (r : jsstring) :
  starts_json_value c = false ->
  trim (c :: r) = c :: r ->
  c :: r <> lit "true" -> c :: r <> lit "false" -> c :: r <> lit "null" ->
  exists e, JSON.parse (c :: r) = Throw e.
Proof.
  intros Hs Ht H1 H2 H3.
  assert (Hgo : exists e,
             JSON.automaton JSON.PValue [] (JSON.lex JSON.Main 0 (c :: r)) = inr e).
  { unfold starts_json_value in Hs. rewrite !orb_false_iff in Hs.
    destruct Hs as ((((H123 & H91) & Hq) & H45) & Hd).
    assert (Hj : JSON.isJSONSpace c = false).
    { destruct (JSON.isJSONSpace c) eqn:E; [|reflexivity].
      apply isJSONSpace_isSpace in E. rewrite (trim_head c r Ht) in E.
      discriminate. }
    cbn [JSON.lex]. rewrite Hj, H123, H91, Hq, Hd, H45. cbn [orb].
    destruct (N.eqb c 125); [cbn; eauto|].
    destruct (N.eqb c 93); [cbn; eauto|].
    destruct (N.eqb c 58); [cbn; eauto|].
    destruct (N.eqb c 44); [cbn; eauto|].
    destruct (N.eqb_spec c 116) as [->|_].
    { destruct r as [|x1 [|x2 [|x3 rest]]]; try (cbn; eauto).
      destruct (N.eqb_spec x1 114) as [->|_]; [|cbn; eauto].
      destruct (N.eqb_spec x2 117) as [->|_]; [|cbn; eauto].
      destruct (N.eqb_spec x3 101) as [->|_]; [|cbn; eauto].
      cbn [andb]. cbn [JSON.automaton JSON.step JSON.start_value JSON.deliver].
      apply (parse_after_word (lit "true") rest); [exact Ht|].
      intros ->. apply H1. reflexivity. }
    destruct (N.eqb_spec c 102) as [->|_].
    { destruct r as [|x1 [|x2 [|x3 [|x4 rest]]]]; try (cbn; eauto).
      destruct (N.eqb_spec x1 97) as [->|_]; [|cbn; eauto].
      destruct (N.eqb_spec x2 108) as [->|_]; [|cbn; eauto].
      destruct (N.eqb_spec x3 115) as [->|_]; [|cbn; eauto].
      destruct (N.eqb_spec x4 101) as [->|_]; [|cbn; eauto].
      cbn [andb]. cbn [JSON.automaton JSON.step JSON.start_value JSON.deliver].
      apply (parse_after_word (lit "false") rest); [exact Ht|].
      intros ->. apply H2. reflexivity. }
    destruct (N.eqb_spec c 110) as [->|_]; [|cbn; eauto].
    destruct r as [|x1 [|x2 [|x3 rest]]]; try (cbn; eauto).
    destruct (N.eqb_spec x1 117) as [->|_]; [|cbn; eauto].
    destruct (N.eqb_spec x2 108) as [->|_]; [|cbn; eauto].
    destruct (N.eqb_spec x3 108) as [->|_]; [|cbn; eauto].
    cbn [andb]. cbn [JSON.automaton JSON.step JSON.start_value JSON.deliver].
    apply (parse_after_word (lit "null") rest); [exact Ht|].
    intros ->. apply H3. reflexivity. }
  destruct Hgo as [e He]. unfold JSON.parse. rewrite He. eauto.
Qed.

(** X16: a trimmed value that does not start as a JSON value does (with
    a brace, a bracket, a quote, a minus sign or a digit) and is not one
    of the words [true], [false] and [null] is kept as it is, as a
    string. *)
Theorem plain_word_is_kept_as_string (c : codeunit) (r : jsstring) :
  starts_json_value c = false ->
  trim (c :: r) = c :: r ->
  c :: r <> lit "true" -> c :: r <> lit "false" -> c :: r <> lit "null" ->
  coerceValue (c :: r) = JString (c :: r).
Proof.
  intros Hs Ht H1 H2 H3.
  rewrite (coerceValue_fallback (c :: r) H1 H2 H3).
  - destruct (parse_plain_word c r Hs Ht H1 H2 H3) as [e ->]. reflexivity.
  - unfold starts_json_value in Hs. rewrite !orb_false_iff in Hs.
    destruct Hs as ((_ & H45) & Hd). now apply looks_numeric_first.
Qed.

Lemma plain_word_witness :
  coerceValue (lit "true story: it works") = JString (lit "true story: it works").
Proof.
  apply (plain_word_is_kept_as_string 116%N (lit "rue story: it works"));
    [reflexivity|reflexivity|discriminate|discriminate|discriminate].
Defined.

(* ================================================================== *)
(** * Templates and variables *)

Lemma scan_content (s : jsstring) :
  forall acc,
    mustache_free s = true ->
    Handlebars.scan (Handlebars.SContent acc) s
    = Some (Handlebars.content_segment (rev s ++ acc) []).
Proof.
  induction s as [|c s IH]; intros acc H; [reflexivity|].
  cbn [mustache_free] in H. apply andb_prop in H as [H Hs].
  apply andb_prop in H as [H0 Hb]. apply negb_true_iff in H0, Hb.
  assert (Hgo : Handlebars.scan (Handlebars.SContent (c :: acc)) s
                = Some (Handlebars.content_segment (rev (c :: s) ++ acc) [])).
  { rewrite (IH _ Hs). cbn [rev]. now rewrite <- app_assoc. }
  cbn [Handlebars.scan]. rewrite H0.
  destruct (N.eqb c Handlebars.LBRACE); [|exact Hgo].
  destruct s as [|d s]; [exact Hgo|].
  cbn [andb] in Hb. rewrite Hb. exact Hgo.
Qed.

Lemma fragment_content (helpers : Handlebars.Helpers) (template : jsstring)
  (ctx : JSONObject) :
  mustache_free template = true ->
  Handlebars.fragment helpers template ctx = Some (Ok template).
Proof.
  intros H. unfold Handlebars.fragment. rewrite (scan_content template [] H).
  rewrite app_nil_r. unfold Handlebars.content_segment.
  destruct (rev template) eqn:E.
  - apply (f_equal (@rev codeunit)) in E. rewrite rev_involutive in E.
    subst. reflexivity.
  - rewrite <- E, rev_involutive. cbn. now rewrite app_nil_r.
Qed.

(** X17: a template that holds no mustache (no two opening braces in a
    row, and no NUL character) is not changed by rendering: for an
    engine that gives such a template back as it is, the body is the
    JSON decode of the template itself, and the variables play no
    part. *)
Theorem template_without_mustache_is_sent_as_is (compile : Handlebars.Engine)
  (template : jsstring) (variablesInput : option jsstring) :
  Handlebars.agrees_on compile registered_helpers template ->
  mustache_free template = true ->
  buildBodyFromTemplate compile template variablesInput = validate template.
Proof.
  intros Hc H. unfold buildBodyFromTemplate.
  rewrite (Hc _ _ (fragment_content registered_helpers template
                         (parseVariables variablesInput) H)).
  reflexivity.
Qed.

Lemma template_without_mustache_witness :
  buildBodyFromTemplate Handlebars.fragment_engine
    (jq "{'msg_type':'text','content':{'text':'{hi}'}}") (Some (lit "hi=1"))
  = validate (jq "{'msg_type':'text','content':{'text':'{hi}'}}").
Proof.
  exact (template_without_mustache_is_sent_as_is Handlebars.fragment_engine
           (jq "{'msg_type':'text','content':{'text':'{hi}'}}")
           (Some (lit "hi=1")) (fragment_engine_agrees _ _) eq_refl).
Defined.

Lemma fragment_mustache (template pre name post : jsstring) (ctx : JSONObject)
  (txt : jsstring) :
  Handlebars.scan (Handlebars.SContent []) template
  = Some [Handlebars.Content pre; Handlebars.Mustache name;
          Handlebars.Content post] ->
  existsb (str_eqb name) Handlebars.builtin_helpers = false ->
  Handlebars.find_helper registered_helpers name = None ->
  Handlebars.append_value (obj_get ctx name) = Some txt ->
  Handlebars.fragment registered_helpers template ctx
  = Some (Ok (pre ++ txt ++ post)).
Proof.
  intros Hscan Hb Hh Ha. unfold Handlebars.fragment. rewrite Hscan.
  cbn [Handlebars.render Handlebars.render_segment Handlebars.adds_values].
  rewrite Hb, Hh, Ha. cbn [option_map]. now rewrite app_nil_r.
Qed.

(** X18: in a template made of a text, the mustache [{{name}}] and a
    text, where [name] is not a helper, a variable that is not bound
    renders as the empty string, and a string is inserted as it is,
    without any escaping; the body is the JSON decode of the result. *)
Theorem plain_mustache_inserts_verbatim (compile : Handlebars.Engine)
  (template : jsstring) (variablesInput : option jsstring)
  (pre name post : jsstring) :
  Handlebars.agrees_on compile registered_helpers template ->
  Handlebars.scan (Handlebars.SContent []) template
  = Some [Handlebars.Content pre; Handlebars.Mustache name;
          Handlebars.Content post] ->
  existsb (str_eqb name) Handlebars.builtin_helpers = false ->
  Handlebars.find_helper registered_helpers name = None ->
  match obj_get (parseVariables variablesInput) name with
  | None =>
      buildBodyFromTemplate compile template variablesInput
      = validate (pre ++ post)
  | Some (JString s) =>
      buildBodyFromTemplate compile template variablesInput
      = validate (pre ++ s ++ post)
  | Some _ => True
  end.
Proof.
  intros Hc Hscan Hb Hh. unfold buildBodyFromTemplate.
  destruct (obj_get (parseVariables variablesInput) name) as [v|] eqn:E.
  - destruct v; try exact I.
    rewrite (Hc _ _ (fragment_mustache template pre name post _ s
                           Hscan Hb Hh (f_equal _ E))).
    reflexivity.
  - rewrite (Hc _ _ (fragment_mustache template pre name post _ []
                           Hscan Hb Hh (f_equal _ E))).
    reflexivity.
Qed.

Lemma plain_mustache_witness :
  buildBodyFromTemplate Handlebars.fragment_engine
    (jq "{'text':'Hello {{who}}!'}") (Some (lit "whom=CI"))
  = validate (jq "{'text':'Hello !'}")
  /\ (exists e,
        buildBodyFromTemplate Handlebars.fragment_engine
          (jq "{'text':'Hello {{who}}!'}") (Some (jq "who=say 'hi'"))
        = Throw e).
Proof.
  split.
  - exact (plain_mustache_inserts_verbatim Handlebars.fragment_engine
             (jq "{'text':'Hello {{who}}!'}") (Some (lit "whom=CI"))
             (jq "{'text':'Hello ") (lit "who") (jq "!'}")
             (fragment_engine_agrees _ _) eq_refl eq_refl eq_refl).
  - pose proof (plain_mustache_inserts_verbatim Handlebars.fragment_engine
                  (jq "{'text':'Hello {{who}}!'}") (Some (jq "who=say 'hi'"))
                  (jq "{'text':'Hello ") (lit "who") (jq "!'}")
                  (fragment_engine_agrees _ _) eq_refl eq_refl eq_refl) as H.
    change (obj_get (parseVariables (Some (jq "who=say 'hi'"))) (lit "who"))
      with (Some (JString (jq "say 'hi'"))) in H.
    cbv beta iota in H. rewrite H. eexists. reflexivity.
Defined.

(** X19: on a variable that is not bound the two helpers differ:
    [{{jstr name}}] makes the build throw the [TypeError] of reading
    [slice] from [undefined], and not the error of the validation;
    [{{json name}}] renders the word [undefined], and the result goes to
    the validation. *)
Theorem helpers_on_unbound_variable (compile : Handlebars.Engine)
  (template : jsstring) (variablesInput : option jsstring)
  (pre helper name post : jsstring) :
  Handlebars.agrees_on compile registered_helpers template ->
  Handlebars.scan (Handlebars.SContent []) template
  = Some [Handlebars.Content pre; Handlebars.HelperCall helper name;
          Handlebars.Content post] ->
  obj_get (parseVariables variablesInput) name = None ->
  (helper = lit "jstr" ->
   buildBodyFromTemplate compile template variablesInput
   = Throw slice_of_undefined)
  /\ (helper = lit "json" ->
      buildBodyFromTemplate compile template variablesInput
      = validate (pre ++ lit "undefined" ++ post)).
Proof.
  intros Hc Hscan Hget. unfold buildBodyFromTemplate.
  split; intros ->.
  - assert (Hf : Handlebars.fragment registered_helpers template
                   (parseVariables variablesInput)
                 = Some (Throw slice_of_undefined)).
    { unfold Handlebars.fragment. rewrite Hscan.
      cbn [Handlebars.render Handlebars.render_segment Handlebars.adds_values].
      change (existsb (str_eqb (lit "jstr")) Handlebars.builtin_helpers)
        with false.
      change (Handlebars.find_helper registered_helpers (lit "jstr"))
        with (Some jstr_helper).
      cbv iota. rewrite Hget. reflexivity. }
    rewrite (Hc _ _ Hf). reflexivity.
  - assert (Hf : Handlebars.fragment registered_helpers template
                   (parseVariables variablesInput)
                 = Some (Ok (pre ++ lit "undefined" ++ post))).
    { unfold Handlebars.fragment. rewrite Hscan.
      cbn [Handlebars.render Handlebars.render_segment Handlebars.adds_values].
      change (existsb (str_eqb (lit "json")) Handlebars.builtin_helpers)
        with false.
      change (Handlebars.find_helper registered_helpers (lit "json"))
        with (Some json_helper).
      cbv iota. rewrite Hget. cbn. now rewrite app_nil_r. }
    rewrite (Hc _ _ Hf). reflexivity.
Qed.

Lemma helpers_on_unbound_variable_witness :
  buildBodyFromTemplate Handlebars.fragment_engine hello_template
    (Some (lit "whom=CI"))
  = Throw slice_of_undefined.
Proof.
  apply (helpers_on_unbound_variable Handlebars.fragment_engine hello_template
           (Some (lit "whom=CI"))
           (jq "{'msg_type':'text','content':{'text':'Hello ") (lit "jstr")
           (lit "who") (jq "'}}") (fragment_engine_agrees _ _) eq_refl eq_refl).
  reflexivity.
Defined.

(* ================================================================== *)
(** * The shape of the signature *)

Lemma round_length (st : list Z) (kw : Z * Z) :
  List.length (crypto.round st kw) = List.length st.
Proof.
  unfold crypto.round.
  destruct st as [|a [|b [|c [|d [|e [|f [|g [|h [|i st]]]]]]]]]; reflexivity.
Qed.

Lemma fold_round_length (kws : list (Z * Z)) :
  forall st, List.length (fold_left crypto.round kws st) = List.length st.
Proof.
  induction kws as [|kw kws IH]; intros st; [reflexivity|].
  cbn [fold_left]. now rewrite IH, round_length.
Qed.

Lemma compress_length (st block : list Z) :
  List.length (crypto.compress st block) = List.length st.
Proof.
  unfold crypto.compress.
  rewrite length_map, length_combine, fold_round_length. apply Nat.min_id.
Qed.

Lemma blocks_length (fuel : nat) :
  forall ws st, List.length (crypto.blocks fuel ws st) = List.length st.
Proof.
  induction fuel as [|fuel IH]; intros ws st; [reflexivity|].
  destruct ws; [reflexivity|]. cbn [crypto.blocks].
  now rewrite IH, compress_length.
Qed.

Lemma flat_map_length4 (f : Z -> list Z) (l : list Z) :
  (forall x, List.length (f x) = 4%nat) ->
  List.length (flat_map f l) = (4 * List.length l)%nat.
Proof.
  intros Hf. induction l as [|x l IH]; [reflexivity|].
  cbn [flat_map]. rewrite length_app, Hf, IH. simpl. lia.
Qed.

(** A SHA-256 digest has 32 bytes. *)
Lemma sha256_length (msg : crypto.bytes) :
  List.length (crypto.sha256 msg) = 32%nat.
Proof.
  unfold crypto.sha256. rewrite flat_map_length4 by reflexivity.
  now rewrite blocks_length.
Qed.

Lemma base64_32 (b : crypto.bytes) :
  List.length b = 32%nat ->
  List.length (crypto.base64 b) = 44%nat
  /\ last (crypto.base64 b) 0%N = 61%N.
Proof.
  intros H.
  do 32 (destruct b as [|? b]; [discriminate H|]).
  destruct b; [|discriminate H].
  split; reflexivity.
Qed.

(** X20: for every secret and every timestamp the signature is a text
    of 44 characters that ends with the padding character [=]: the
    Base64 form of a digest of 32 bytes. *)
Theorem signature_has_44_characters (webhookKey : jsstring) (timestamp : Z) :
  List.length (generateLarkWebhookSignature webhookKey timestamp) = 44%nat
  /\ last (generateLarkWebhookSignature webhookKey timestamp) 0%N = 61%N.
Proof.
  unfold generateLarkWebhookSignature, crypto.digest.
  apply base64_32. unfold crypto.hmac_sha256. apply sha256_length.
Qed.

(* ================================================================== *)
(** * Numbers: printing and reading back *)

Lemma uint_units_digits (d : Decimal.uint) :
  forallb isDigit (uint_units d) = true.
Proof.
  induction d; cbn [uint_units forallb]; try reflexivity;
    change (isDigit (digit_unit _)) with true; exact IHd.
Qed.

Lemma decimal_of_N_digits (m : N) : forallb isDigit (decimal_of_N m) = true.
Proof. apply uint_units_digits. Qed.

Lemma span_digits_app (a rest : jsstring) :
  forallb isDigit a = true -> no_leading_digit rest = true ->
  span_digits (a ++ rest) = (a, rest).
Proof.
  intros Ha Hr. induction a as [|c a IH].
  - destruct rest as [|c rest]; [reflexivity|]. cbn [app span_digits].
    cbn [no_leading_digit] in Hr. apply negb_true_iff in Hr. now rewrite Hr.
  - cbn [forallb] in Ha. apply andb_prop in Ha as [Hc Ha].
    cbn [app span_digits]. rewrite Hc, (IH Ha). reflexivity.
Qed.

Lemma digits_value_app (a b : jsstring) :
  forall acc, digits_value acc (a ++ b) = digits_value (digits_value acc a) b.
Proof.
  induction a as [|c a IH]; intros acc; [reflexivity|].
  cbn [app digits_value]. apply IH.
Qed.

Lemma digits_value_zeros (z : nat) :
  digits_value 0 (repeat 48%N z) = 0%N.
Proof. induction z as [|z IH]; [reflexivity|]. cbn [repeat digits_value]. exact IH. Qed.

(** The numeral of a positive number does not start with a zero. *)
Lemma decimal_of_N_head (m : N) :
  m <> 0%N -> exists c r, decimal_of_N m = c :: r /\ c <> 48%N.
Proof.
  intros Hm. destruct m as [|p]; [congruence|].
  unfold decimal_of_N. change (N.to_uint (N.pos p)) with (Pos.to_uint p).
  assert (Hn : Decimal.unorm (Pos.to_uint p) = Pos.to_uint p).
  { rewrite <- DecimalPos.Unsigned.to_of, DecimalPos.Unsigned.of_to.
    reflexivity. }
  pose proof (DecimalPos.Unsigned.to_uint_nonzero p) as Hz.
  pose proof (DecimalPos.Unsigned.to_uint_nonnil p) as Hnil.
  destruct (Pos.to_uint p) as [|d|d|d|d|d|d|d|d|d|d] eqn:E;
    try congruence;
    try (cbn [uint_units]; eexists; eexists; split; [reflexivity|discriminate]).
  exfalso. unfold Decimal.unorm in Hn. cbn [Decimal.nzhead] in Hn.
  destruct (Decimal.nzhead d) eqn:En.
  - apply Hz. symmetry. exact Hn.
  - apply (DecimalFacts.nzhead_nonzero d d). congruence.
  - discriminate Hn.
  - discriminate Hn.
  - discriminate Hn.
  - discriminate Hn.
  - discriminate Hn.
  - discriminate Hn.
  - discriminate Hn.
  - discriminate Hn.
  - discriminate Hn.
Qed.

Lemma list_last_split {A} (l : list A) :
  l <> [] -> exists a d, l = a ++ [d].
Proof.
  intros H. destruct (rev l) as [|d w] eqn:E.
  - apply (f_equal (@rev A)) in E. rewrite rev_involutive in E. contradiction.
  - exists (rev w), d. apply (f_equal (@rev A)) in E.
    now rewrite rev_involutive in E.
Qed.

(** The numeral of a number that ten does not divide does not end with
    a zero. *)
Lemma decimal_of_N_last (m : N) :
  N.modulo m 10 <> 0%N ->
  exists a d, decimal_of_N m = a ++ [d] /\ d <> 48%N.
Proof.
  intros Hm.
  assert (Hne : decimal_of_N m <> []).
  { destruct (decimal_of_N_head m) as (c & r & E & _).
    - intros ->. now apply Hm.
    - congruence. }
  destruct (list_last_split _ Hne) as (a & d & E).
  exists a, d. split; [exact E|]. intros ->.
  pose proof (digits_value_decimal m) as Hv. rewrite E in Hv.
  rewrite digits_value_app in Hv. cbn [digits_value] in Hv.
  apply Hm. rewrite <- Hv.
  replace (10 * digits_value 0 a + (48 - 48))%N
    with (digits_value 0 a * 10)%N by lia.
  apply N.Div0.mod_mul.
Qed.

Lemma rev_repeat {A} (x : A) (n : nat) : rev (repeat x n) = repeat x n.
Proof.
  induction n as [|n IH]; [reflexivity|].
  cbn [repeat rev]. rewrite IH. symmetry. apply repeat_cons.
Qed.

Lemma dropWhile_repeat (z : nat) (l : jsstring) :
  dropWhile (N.eqb 48) (repeat 48%N z ++ l) = dropWhile (N.eqb 48) l.
Proof. induction z as [|z IH]; [reflexivity|]. exact IH. Qed.

(** Trailing zeros are what [strip_trailing_zeros] removes. *)
Lemma strip_trailing_zeros_app (a : jsstring) (d : codeunit) (z : nat) :
  d <> 48%N ->
  strip_trailing_zeros ((a ++ [d]) ++ repeat 48%N z) = (a ++ [d], z).
Proof.
  intros Hd. unfold strip_trailing_zeros.
  rewrite rev_app_distr, rev_repeat, dropWhile_repeat.
  rewrite rev_app_distr. cbn [rev app dropWhile].
  destruct (N.eqb_spec 48 d) as [E|_]; [congruence|].
  f_equal.
  - change (d :: rev a) with ([d] ++ rev a).
    rewrite rev_app_distr, rev_involutive. reflexivity.
  - rewrite !length_app, repeat_length. cbn [List.length].
    rewrite length_rev. lia.
Qed.

(** What [make_number] makes of digits that are zeros, the numeral of
    [m] and zeros again. *)
Lemma make_number_digits (neg : bool) (i f : jsstring) (x : Z) (m : N)
  (lead z : nat) :
  N.modulo m 10 <> 0%N ->
  i ++ f = repeat 48%N lead ++ decimal_of_N m ++ repeat 48%N z ->
  make_number neg i f x
  = Fin neg m (x - Z.of_nat (List.length f) + Z.of_nat z).
Proof.
  intros Hm E. unfold make_number. rewrite E.
  destruct (decimal_of_N_last m Hm) as (a & d & Es & Hd).
  assert (Hstrip : strip_trailing_zeros
                     (repeat 48%N lead ++ decimal_of_N m ++ repeat 48%N z)
                   = (repeat 48%N lead ++ decimal_of_N m, z)).
  { rewrite Es.
    replace (repeat 48%N lead ++ (a ++ [d]) ++ repeat 48%N z)
      with (((repeat 48%N lead ++ a) ++ [d]) ++ repeat 48%N z)
      by (now rewrite <- !app_assoc).
    rewrite (strip_trailing_zeros_app _ d z Hd). now rewrite <- app_assoc. }
  rewrite Hstrip.
  assert (Hv : digits_value 0 (repeat 48%N lead ++ decimal_of_N m) = m).
  { now rewrite digits_value_app, digits_value_zeros, digits_value_decimal. }
  rewrite Hv.
  destruct (N.eqb_spec m 0) as [->|_]; [now exfalso; apply Hm|reflexivity].
Qed.

Lemma number_literal_neg (r : jsstring) :
  number_literal (45%N :: r)
  = let (i, s2) := span_digits r in
    match i with
    | [] => None
    | 48%N :: _ :: _ => None
    | _ => number_after_int true i s2
    end.
Proof. reflexivity. Qed.

Lemma number_literal_pos (c : codeunit) (r : jsstring) :
  c <> 45%N ->
  number_literal (c :: r)
  = let (i, s2) := span_digits (c :: r) in
    match i with
    | [] => None
    | 48%N :: _ :: _ => None
    | _ => number_after_int false i s2
    end.
Proof.
  intros H. unfold number_literal. destruct c as [|p]; [reflexivity|].
  do 6 (destruct p as [p|p|]; try reflexivity); congruence.
Qed.

Lemma int_part_match (c : codeunit) (i' : jsstring) (K : option JSNumber) :
  c <> 48%N \/ i' = [] ->
  match c :: i' with
  | [] => None
  | 48%N :: _ :: _ => None
  | _ => K
  end = K.
Proof.
  intros [H | ->].
  - destruct c as [|p]; [reflexivity|].
    do 6 (destruct p as [p|p|]; try reflexivity); try congruence;
      destruct i'; reflexivity.
  - destruct c as [|p]; [reflexivity|].
    do 6 (destruct p as [p|p|]; try reflexivity).
Qed.

Lemma decimal_of_N_nonempty (a : N) : decimal_of_N a <> [].
Proof.
  destruct a as [|p]; [discriminate|]. apply uint_units_nonempty_pos.
Qed.

Lemma exponent_part_text (x : Z) : exponent_part (exponent_text x) = Some x.
Proof.
  pose proof (decimal_of_N_nonempty (Z.abs_N x)) as Hne.
  pose proof (span_digits_app (decimal_of_N (Z.abs_N x)) []
                (decimal_of_N_digits _) eq_refl) as Hsp.
  rewrite app_nil_r in Hsp.
  pose proof (digits_value_decimal (Z.abs_N x)) as Hv.
  unfold exponent_text. change (lit "e") with [101%N].
  destruct (Z.ltb_spec x 0) as [Hx|Hx];
    [change (lit "-") with [45%N]|change (lit "+") with [43%N]];
    cbn -[decimal_of_N span_digits digits_value Z.of_N Z.opp];
    rewrite Hsp; destruct (decimal_of_N (Z.abs_N x)) as [|c r];
    try congruence; rewrite Hv; f_equal; lia.
Qed.

Lemma exponent_text_head (x : Z) : exists r, exponent_text x = 101%N :: r.
Proof. unfold exponent_text. eexists. reflexivity. Qed.

Lemma number_after_int_parts (neg : bool) (i f ex : jsstring) (x : Z) :
  forallb isDigit f = true ->
  (ex = [] /\ x = 0%Z) \/ ex = exponent_text x ->
  number_after_int neg i (fraction_text f ++ ex) = Some (make_number neg i f x).
Proof.
  intros Hf Hex.
  assert (Hx : exponent_part ex = Some x).
  { destruct Hex as [[-> ->] | ->]; [reflexivity|apply exponent_part_text]. }
  assert (Hhead : ex = [] \/ exists r, ex = 101%N :: r).
  { destruct Hex as [[-> _] | ->]; [left; reflexivity|].
    right. apply exponent_text_head. }
  destruct f as [|cf f].
  - cbn [fraction_text app]. unfold number_after_int.
    destruct Hhead as [-> | [r ->]].
    + cbn in Hx. injection Hx as <-. reflexivity.
    + cbv beta iota zeta. rewrite Hx. reflexivity.
  - cbn [fraction_text]. change (lit ".") with [46%N]. cbn [app].
    unfold number_after_int.
    assert (Hsp : span_digits (cf :: f ++ ex) = (cf :: f, ex)).
    { apply (span_digits_app (cf :: f) ex Hf).
      destruct Hhead as [-> | [r ->]]; reflexivity. }
    cbv beta iota zeta. rewrite Hsp. cbv beta iota. rewrite Hx. reflexivity.
Qed.

Lemma isDigit_not_minus (c : codeunit) : isDigit c = true -> c <> 45%N.
Proof. intros H ->. discriminate H. Qed.

(** The number read from a text made of a sign, integer digits, a
    fraction and an exponent. *)
Lemma number_literal_parts (neg : bool) (c : codeunit) (i' f ex : jsstring)
  (x : Z) :
  forallb isDigit (c :: i') = true ->
  c <> 48%N \/ i' = [] ->
  forallb isDigit f = true ->
  (ex = [] /\ x = 0%Z) \/ ex = exponent_text x ->
  number_literal ((if neg then [45%N] else []) ++ (c :: i') ++ fraction_text f ++ ex)
  = Some (make_number neg (c :: i') f x).
Proof.
  intros Hi Hlead Hf Hex.
  assert (Hrest : no_leading_digit (fraction_text f ++ ex) = true).
  { destruct f as [|cf f]; [|reflexivity]. cbn [fraction_text app].
    destruct Hex as [[-> _] | ->]; reflexivity. }
  pose proof (span_digits_app (c :: i') _ Hi Hrest) as Hsp.
  pose proof (number_after_int_parts neg (c :: i') f ex x Hf Hex) as Hafter.
  destruct neg.
  - cbn [app]. rewrite number_literal_neg. cbn [app] in Hsp. rewrite Hsp.
    rewrite (int_part_match c i' _ Hlead). exact Hafter.
  - cbn [app]. rewrite number_literal_pos.
    + cbn [app] in Hsp. rewrite Hsp.
      rewrite (int_part_match c i' _ Hlead). exact Hafter.
    + cbn [forallb] in Hi. apply andb_prop in Hi as [Hc _].
      now apply isDigit_not_minus.
Qed.

Lemma forallb_repeat {A} (p : A -> bool) (x : A) (n : nat) :
  p x = true -> forallb p (repeat x n) = true.
Proof. intros H. induction n as [|n IH]; [reflexivity|]. cbn. now rewrite H. Qed.

(** The text of a number, in its parts. *)
Lemma NumberToString_parts (neg : bool) (m : N) (e : Z) :
  m <> 0%N ->
  exists (c : codeunit) (i' f ex : jsstring) (x : Z) (lead z : nat),
    NumberToString (Fin neg m e)
    = (if neg then [45%N] else []) ++ (c :: i') ++ fraction_text f ++ ex
    /\ forallb isDigit (c :: i') = true
    /\ (c <> 48%N \/ i' = [])
    /\ forallb isDigit f = true
    /\ ((ex = [] /\ x = 0%Z) \/ ex = exponent_text x)
    /\ (c :: i') ++ f = repeat 48%N lead ++ decimal_of_N m ++ repeat 48%N z
    /\ (x - Z.of_nat (List.length f) + Z.of_nat z)%Z = e.
Proof.
  intros Hm.
  destruct (decimal_of_N_head m Hm) as (c0 & r0 & Es & Hc0).
  pose proof (decimal_of_N_digits m) as Hd. rewrite Es in Hd.
  assert (Hsign : forall body,
             (if neg then lit "-" ++ body else body)
             = (if neg then [45%N] else []) ++ body).
  { intros body. destruct neg; reflexivity. }
  unfold NumberToString. rewrite (proj2 (N.eqb_neq m 0) Hm), Hsign. clear Hsign.
  rewrite Es. cbn [forallb] in Hd. apply andb_prop in Hd as [Hd0 Hdr].
  set (k := Z.of_nat (List.length (c0 :: r0))).
  assert (Hk : k = (1 + Z.of_nat (List.length r0))%Z).
  { unfold k. cbn [List.length]. lia. }
  cbv zeta.
  destruct ((k <=? k + e) && (k + e <=? 21))%Z eqn:EA.
  { (* digits and zeros *)
    apply andb_prop in EA as [H1 H2]. apply Z.leb_le in H1, H2.
    exists c0, (r0 ++ zeros (k + e - k)), [], [], 0%Z, 0%nat,
      (Z.to_nat (k + e - k)).
    split; [cbn [fraction_text app]; now rewrite app_nil_r|].
    split.
    { cbn [forallb]. rewrite Hd0, forallb_app, Hdr.
      apply forallb_repeat. reflexivity. }
    split; [left; exact Hc0|]. split; [reflexivity|].
    split; [left; split; reflexivity|].
    split; [rewrite app_nil_r; reflexivity|].
    cbn [List.length]. lia. }
  destruct ((0 <? k + e) && (k + e <=? 21))%Z eqn:EB.
  { (* a point inside the digits *)
    apply andb_prop in EB as [H1 H2]. apply Z.ltb_lt in H1. apply Z.leb_le in H2.
    assert (Hlt : (k + e < k)%Z).
    { apply andb_false_iff in EA. destruct EA as [EA|EA].
      - apply Z.leb_gt in EA. exact EA.
      - apply Z.leb_gt in EA. lia. }
    destruct (Z.to_nat (k + e)) as [|n'] eqn:En; [lia|].
    assert (Hlen : (n' < List.length r0)%nat) by lia.
    destruct (skipn n' r0) as [|cf f] eqn:Ef.
    { apply (f_equal (@List.length codeunit)) in Ef.
      rewrite length_skipn in Ef. cbn in Ef. lia. }
    exists c0, (firstn n' r0), (cf :: f), [], 0%Z, 0%nat, 0%nat.
    pose proof (firstn_skipn n' r0) as Hfs. rewrite Ef in Hfs.
    cbn [firstn skipn]. rewrite Ef.
    split; [cbn [fraction_text]; now rewrite app_nil_r|].
    rewrite <- Hfs, forallb_app in Hdr. apply andb_prop in Hdr as [Hdi Hdf].
    split; [cbn [forallb]; now rewrite Hd0, Hdi|].
    split; [left; exact Hc0|]. split; [exact Hdf|].
    split; [left; split; reflexivity|].
    split.
    { cbn [repeat app]. rewrite app_nil_r. cbn [app]. now rewrite Hfs. }
    apply (f_equal (@List.length codeunit)) in Hfs.
    rewrite length_app, length_firstn in Hfs. lia. }
  destruct ((-6 <? k + e) && (k + e <=? 0))%Z eqn:EC.
  { (* a zero, a point, zeros and the digits *)
    apply andb_prop in EC as [H1 H2]. apply Z.ltb_lt in H1. apply Z.leb_le in H2.
    exists 48%N, [], (zeros (- (k + e)) ++ c0 :: r0), [], 0%Z,
      (S (Z.to_nat (- (k + e)))), 0%nat.
    split.
    { unfold fraction_text. rewrite app_nil_r.
      destruct (zeros (- (k + e)) ++ c0 :: r0) eqn:E0; [|reflexivity].
      apply app_eq_nil in E0. destruct E0 as [_ E0]. discriminate E0. }
    split; [reflexivity|]. split; [right; reflexivity|].
    split.
    { rewrite forallb_app. cbn [forallb]. rewrite Hd0, Hdr, andb_true_r.
      now apply forallb_repeat. }
    split; [left; split; reflexivity|].
    split; [rewrite app_nil_r; reflexivity|].
    rewrite length_app. unfold zeros. rewrite repeat_length. fold k. lia. }
  (* one digit, the others as a fraction, and an exponent *)
  fold (exponent_text (k + e - 1)).
  exists c0, [], r0, (exponent_text (k + e - 1)), (k + e - 1)%Z, 0%nat, 0%nat.
  split.
  { destruct r0 as [|d1 r1]; [reflexivity|].
    cbn [fraction_text]. change (lit ".") with [46%N]. cbn [app].
    reflexivity. }
  split; [cbn [forallb]; now rewrite Hd0|].
  split; [left; exact Hc0|]. split; [exact Hdr|].
  split; [right; reflexivity|].
  split; [rewrite app_nil_r; reflexivity|]. lia.
Qed.

(** The number printed by [NumberToString] is read back. *)
Lemma number_literal_NumberToString (n : JSNumber) :
  canonical_number n = true -> number_literal (NumberToString n) = Some n.
Proof.
  destruct n as [neg m e|neg]; [|discriminate]. cbn [canonical_number].
  destruct (N.eqb_spec m 0) as [->|Hm].
  - intros H. apply andb_prop in H as [Hn He].
    apply negb_true_iff in Hn. apply Z.eqb_eq in He. subst. reflexivity.
  - intros H. apply andb_prop in H as [H _].
    apply negb_true_iff, N.eqb_neq in H.
    destruct (NumberToString_parts neg m e Hm)
      as (c & i' & f & ex & x & lead & z & -> & Hi & Hlead & Hf & Hex & Hd & He).
    rewrite (number_literal_parts neg c i' f ex x Hi Hlead Hf Hex).
    rewrite (make_number_digits neg (c :: i') f x m lead z H Hd).
    now rewrite He.
Qed.

Lemma isDigit_isNumberChar (c : codeunit) :
  isDigit c = true -> JSON.isNumberChar c = true.
Proof. intros H. unfold JSON.isNumberChar. now rewrite H. Qed.

Lemma digits_are_number_chars (l : jsstring) :
  forallb isDigit l = true -> forallb JSON.isNumberChar l = true.
Proof.
  intros H. rewrite forallb_forall in *. intros x Hx.
  apply isDigit_isNumberChar, H, Hx.
Qed.

(** The text of a number is made of the characters of numbers, and
    starts with a digit or a minus sign. *)
Lemma NumberToString_chars (n : JSNumber) :
  canonical_number n = true ->
  forallb JSON.isNumberChar (NumberToString n) = true
  /\ exists c r, NumberToString n = c :: r /\ isDigit c || N.eqb c 45 = true.
Proof.
  destruct n as [neg m e|neg]; [|discriminate]. cbn [canonical_number].
  destruct (N.eqb_spec m 0) as [->|Hm].
  - intros _. split; [reflexivity|]. eexists. eexists. split; reflexivity.
  - intros _.
    destruct (NumberToString_parts neg m e Hm)
      as (c & i' & f & ex & x & lead & z & -> & Hi & _ & Hf & Hex & _ & _).
    split.
    + rewrite !forallb_app. rewrite (digits_are_number_chars _ Hi).
      assert (Hfr : forallb JSON.isNumberChar (fraction_text f) = true).
      { destruct f as [|cf f]; [reflexivity|].
        cbn [fraction_text]. change (lit ".") with [46%N]. cbn [app forallb].
        change (JSON.isNumberChar 46%N) with true.
        exact (digits_are_number_chars _ Hf). }
      assert (Hx : forallb JSON.isNumberChar ex = true).
      { destruct Hex as [[-> _] | ->]; [reflexivity|].
        unfold exponent_text. rewrite !forallb_app.
        rewrite (digits_are_number_chars _ (decimal_of_N_digits _)).
        destruct (x <? 0)%Z; reflexivity. }
      rewrite Hfr, Hx. destruct neg; reflexivity.
    + cbn [forallb] in Hi. apply andb_prop in Hi as [Hc _].
      destruct neg; cbn [app]; eexists; eexists; (split; [reflexivity|]);
        [reflexivity|now rewrite Hc].
Qed.

Lemma lex_number_start (c : codeunit) (s : jsstring) (pos : N) :
  isDigit c || N.eqb c 45 = true ->
  JSON.lex JSON.Main pos (c :: s)
  = JSON.lex (JSON.InNumber pos [c]) (pos + 1) s.
Proof.
  intros H.
  assert (Hc : (48 <= c <= 57 \/ c = 45)%N).
  { apply orb_prop in H. destruct H as [H|H].
    - unfold isDigit in H. apply andb_prop in H as [H1 H2].
      apply N.leb_le in H1, H2. lia.
    - apply N.eqb_eq in H. lia. }
  cbn [JSON.lex]. rewrite H. unfold JSON.isJSONSpace, DQUOTE.
  repeat match goal with
         | |- context [N.eqb c ?k] =>
             lazymatch k with
             | 45%N => fail
             | _ => destruct (N.eqb_spec c k); [exfalso; lia|]
             end
         end.
  reflexivity.
Qed.

Lemma lex_number_chars (t rest : jsstring) :
  forallb JSON.isNumberChar t = true -> ends_number rest = true ->
  forall start acc pos,
  exists pos',
    JSON.lex (JSON.InNumber start acc) pos (t ++ rest)
    = JSON.number_token start (rev acc ++ t) :: JSON.lex JSON.Main pos' rest.
Proof.
  intros Ht Hr. induction t as [|c t IH]; intros start acc pos.
  - exists pos. rewrite app_nil_r. cbn [app].
    destruct rest as [|c rest]; [reflexivity|].
    cbn [ends_number] in Hr. apply negb_true_iff in Hr.
    cbn [JSON.lex]. rewrite Hr. reflexivity.
  - cbn [forallb] in Ht. apply andb_prop in Ht as [Hc Ht].
    destruct (IH Ht start (c :: acc) (pos + 1)%N) as [pos' E].
    exists pos'. cbn [app JSON.lex]. rewrite Hc, E. cbn [rev].
    now rewrite <- app_assoc.
Qed.

(** The text of a number is one token. *)
Lemma lex_number (n : JSNumber) (rest : jsstring) (pos : N) :
  canonical_number n = true -> ends_number rest = true ->
  exists pos',
    JSON.lex JSON.Main pos (NumberToString n ++ rest)
    = (pos, JSON.TNum n) :: JSON.lex JSON.Main pos' rest.
Proof.
  intros Hn Hr.
  destruct (NumberToString_chars n Hn) as (Hall & c & r & E & Hc).
  pose proof (number_literal_NumberToString n Hn) as Hlit.
  rewrite E in *. cbn [forallb] in Hall. apply andb_prop in Hall as [_ Hall].
  cbn [app]. rewrite (lex_number_start c (r ++ rest) pos Hc).
  destruct (lex_number_chars r rest Hall Hr pos [c] (pos + 1)%N) as [pos' E'].
  exists pos'. rewrite E'. cbn [rev app]. unfold JSON.number_token.
  now rewrite Hlit.
Qed.

(* ================================================================== *)
(** * [JSON.parse] after [JSON.stringify] *)

Lemma join_cons (sep x : jsstring) (l : list jsstring) :
  join sep (x :: l) = x ++ List.concat (map (app sep) l).
Proof.
  revert x. induction l as [|y l IH]; intros x.
  - cbn. now rewrite app_nil_r.
  - change (join sep (x :: y :: l)) with (x ++ sep ++ join sep (y :: l)).
    rewrite IH. cbn [map List.concat]. now rewrite <- app_assoc.
Qed.

Lemma lex_lbrack (pos : N) (s : jsstring) :
  JSON.lex JSON.Main pos (lit "[" ++ s)
  = (pos, JSON.TLBrack) :: JSON.lex JSON.Main (pos + 1) s.
Proof. reflexivity. Qed.

Lemma lex_rbrack (pos : N) (s : jsstring) :
  JSON.lex JSON.Main pos (lit "]" ++ s)
  = (pos, JSON.TRBrack) :: JSON.lex JSON.Main (pos + 1) s.
Proof. reflexivity. Qed.

Lemma lex_lbrace (pos : N) (s : jsstring) :
  JSON.lex JSON.Main pos (lit "{" ++ s)
  = (pos, JSON.TLBrace) :: JSON.lex JSON.Main (pos + 1) s.
Proof. reflexivity. Qed.

Lemma lex_rbrace (pos : N) (s : jsstring) :
  JSON.lex JSON.Main pos (lit "}" ++ s)
  = (pos, JSON.TRBrace) :: JSON.lex JSON.Main (pos + 1) s.
Proof. reflexivity. Qed.

Lemma lex_comma (pos : N) (s : jsstring) :
  JSON.lex JSON.Main pos (lit "," ++ s)
  = (pos, JSON.TComma) :: JSON.lex JSON.Main (pos + 1) s.
Proof. reflexivity. Qed.

Lemma lex_colon (pos : N) (s : jsstring) :
  JSON.lex JSON.Main pos (lit ":" ++ s)
  = (pos, JSON.TColon) :: JSON.lex JSON.Main (pos + 1) s.
Proof. reflexivity. Qed.

(** A scalar token in a state where a value may start. *)
Lemma automaton_scalar (p : JSON.pstate) (stack : list JSON.frame)
  (t : JSON.token) (v : JSONValue) (pos : N) (ts : list (N * JSON.token))
  (p' : JSON.pstate) (stack' : list JSON.frame) :
  value_state p = true ->
  (t = JSON.TNull /\ v = JNull) \/ (t = JSON.TTrue /\ v = JBool true)
  \/ (t = JSON.TFalse /\ v = JBool false)
  \/ (exists s, t = JSON.TStr s /\ v = JString s)
  \/ (exists n, t = JSON.TNum n /\ v = JNumber n) ->
  JSON.deliver v stack = Some (p', stack') ->
  JSON.automaton p stack ((pos, t) :: ts) = JSON.automaton p' stack' ts.
Proof.
  intros Hp Ht Hd.
  destruct p; try discriminate Hp;
    destruct Ht as [[-> ->]|[[-> ->]|[[-> ->]|[[s [-> ->]]|[n [-> ->]]]]]];
    cbn [JSON.automaton JSON.step JSON.start_value]; rewrite Hd; reflexivity.
Qed.

Lemma automaton_open_array (p : JSON.pstate) (stack : list JSON.frame) (pos : N)
  (ts : list (N * JSON.token)) :
  value_state p = true ->
  JSON.automaton p stack ((pos, JSON.TLBrack) :: ts)
  = JSON.automaton JSON.PArrFirst (JSON.FArr [] :: stack) ts.
Proof. intros Hp. destruct p; try discriminate Hp; reflexivity. Qed.

Lemma automaton_open_object (p : JSON.pstate) (stack : list JSON.frame) (pos : N)
  (ts : list (N * JSON.token)) :
  value_state p = true ->
  JSON.automaton p stack ((pos, JSON.TLBrace) :: ts)
  = JSON.automaton JSON.PObjFirst (JSON.FObj [] :: stack) ts.
Proof. intros Hp. destruct p; try discriminate Hp; reflexivity. Qed.

Lemma canonical_object_values (props : JSONObject) :
  canonical (JObject props) -> canonical (JArray (map snd props)).
Proof.
  intros [H _]. induction props as [|[k x] r IH]; [exact I|].
  destruct H as [Hx Hr]. split; [exact Hx|apply IH, Hr].
Qed.

(** The transitions that reading a value amounts to: from a state in
    which a value may start, over the text of the value, to the state in
    which the value has been delivered. *)
Lemma value_roundtrip (v : JSONValue) :
  canonical v ->
  forall (rest : jsstring) (pos : N) (p : JSON.pstate) (stack : list JSON.frame)
         (p' : JSON.pstate) (stack' : list JSON.frame),
    value_state p = true -> ends_number rest = true ->
    JSON.deliver v stack = Some (p', stack') ->
    exists pos',
      JSON.automaton p stack
        (JSON.lex JSON.Main pos (JSON.stringify_value v ++ rest))
      = JSON.automaton p' stack' (JSON.lex JSON.Main pos' rest).
Proof.
  induction v as [|b|n|s|items IH|props IH] using JSONValue_induction;
    intros Hcan rest pos p stack p' stack' Hp Hr Hd.
  - (* null *)
    exists (pos + 4)%N.
    change (JSON.lex JSON.Main pos (JSON.stringify_value JNull ++ rest))
      with ((pos, JSON.TNull) :: JSON.lex JSON.Main (pos + 4) rest).
    apply (automaton_scalar p stack _ JNull); auto.
  - (* booleans *)
    destruct b.
    + exists (pos + 4)%N.
      change (JSON.lex JSON.Main pos (JSON.stringify_value (JBool true) ++ rest))
        with ((pos, JSON.TTrue) :: JSON.lex JSON.Main (pos + 4) rest).
      apply (automaton_scalar p stack _ (JBool true)); auto.
    + exists (pos + 5)%N.
      change (JSON.lex JSON.Main pos (JSON.stringify_value (JBool false) ++ rest))
        with ((pos, JSON.TFalse) :: JSON.lex JSON.Main (pos + 5) rest).
      apply (automaton_scalar p stack _ (JBool false)); auto.
  - (* numbers *)
    cbn [canonical] in Hcan.
    destruct (lex_number n rest pos Hcan Hr) as [pos' E].
    exists pos'.
    assert (Hs : JSON.stringify_value (JNumber n) = NumberToString n).
    { destruct n; [reflexivity|discriminate Hcan]. }
    rewrite Hs, E.
    apply (automaton_scalar p stack _ (JNumber n)); eauto 10.
  - (* strings *)
    destruct (lex_quote_contents_close s pos [] (pos + 1)%N rest) as [pos' E].
    exists pos'.
    assert (Hl : JSON.lex JSON.Main pos (JSON.stringify_value (JString s) ++ rest)
                 = JSON.lex (JSON.InString pos []) (pos + 1)
                     (quote_contents s ++ DQUOTE :: rest)).
    { cbn [JSON.stringify_value]. unfold QuoteJSONString. cbn [app].
      rewrite <- app_assoc. reflexivity. }
    rewrite Hl, E. cbn [rev app].
    apply (automaton_scalar p stack _ (JString s)); eauto 10.
  - (* arrays *)
    assert (Htail : forall r, Forall
              (fun v => canonical v ->
                 forall rest pos p stack p' stack',
                   value_state p = true -> ends_number rest = true ->
                   JSON.deliver v stack = Some (p', stack') ->
                   exists pos',
                     JSON.automaton p stack
                       (JSON.lex JSON.Main pos (JSON.stringify_value v ++ rest))
                     = JSON.automaton p' stack' (JSON.lex JSON.Main pos' rest)) r ->
              canonical (JArray r) ->
              forall acc pos0,
                JSON.deliver (JArray (rev acc ++ r)) stack = Some (p', stack') ->
              exists pos',
                JSON.automaton JSON.PArrNext (JSON.FArr acc :: stack)
                  (JSON.lex JSON.Main pos0
                     (List.concat (map (app (lit ","))
                                (map JSON.stringify_value r)) ++ lit "]" ++ rest))
                = JSON.automaton p' stack' (JSON.lex JSON.Main pos' rest)).
    { induction r as [|x r IHr]; intros HP Hc acc pos0 Hdel.
      - exists (pos0 + 1)%N. cbn [map List.concat]. rewrite app_nil_l, lex_rbrack.
        cbn [JSON.automaton JSON.step JSON.close_array].
        rewrite app_nil_r in Hdel. rewrite Hdel. reflexivity.
      - inversion HP as [|x0 r0 Hx Hrest]; subst.
        destruct Hc as [Hcx Hcr].
        cbn [map List.concat]. rewrite <- !app_assoc, lex_comma.
        cbn [JSON.automaton JSON.step].
        assert (Hends : ends_number
                          (List.concat (map (app (lit ","))
                                          (map JSON.stringify_value r))
                           ++ lit "]" ++ rest) = true).
        { destruct r; reflexivity. }
        destruct (Hx Hcx _ (pos0 + 1)%N JSON.PValue (JSON.FArr acc :: stack)
                    JSON.PArrNext (JSON.FArr (x :: acc) :: stack)
                    eq_refl Hends eq_refl) as [pos1 E1].
        rewrite E1.
        apply (IHr Hrest Hcr (x :: acc) pos1).
        cbn [rev]. rewrite <- app_assoc. exact Hdel. }
    cbn [JSON.stringify_value]. rewrite <- !app_assoc, lex_lbrack.
    rewrite (automaton_open_array p stack pos _ Hp).
    destruct items as [|x r].
    + exists (pos + 1 + 1)%N. cbn [map join]. rewrite app_nil_l, lex_rbrack.
      cbn [JSON.automaton JSON.step JSON.close_array rev].
      rewrite Hd. reflexivity.
    + inversion IH as [|x0 r0 Hx Hrest]; subst.
      destruct Hcan as [Hcx Hcr].
      cbn [map]. rewrite join_cons, <- !app_assoc.
      assert (Hends : ends_number
                        (List.concat (map (app (lit ","))
                                   (map JSON.stringify_value r))
                         ++ lit "]" ++ rest) = true).
      { destruct r; reflexivity. }
      destruct (Hx Hcx _ (pos + 1)%N JSON.PArrFirst (JSON.FArr [] :: stack)
                  JSON.PArrNext (JSON.FArr [x] :: stack)
                  eq_refl Hends eq_refl) as [pos1 E1].
      rewrite E1. apply (Htail r Hrest Hcr [x] pos1). exact Hd.
  - (* objects *)
    pose proof (canonical_object_values props Hcan) as Hvals.
    destruct Hcan as [_ Hspread].
    assert (Hentry : forall (k : jsstring) (x : JSONValue) (q : JSON.pstate)
                            (acc : JSONObject) (text : jsstring) (pos0 : N),
               (canonical x ->
                forall rest pos p stack p' stack',
                  value_state p = true -> ends_number rest = true ->
                  JSON.deliver x stack = Some (p', stack') ->
                  exists pos',
                    JSON.automaton p stack
                      (JSON.lex JSON.Main pos (JSON.stringify_value x ++ rest))
                    = JSON.automaton p' stack' (JSON.lex JSON.Main pos' rest)) ->
               canonical x ->
               q = JSON.PObjFirst \/ q = JSON.PObjKey ->
               ends_number text = true ->
               exists pos',
                 JSON.automaton q (JSON.FObj acc :: stack)
                   (JSON.lex JSON.Main pos0
                      (QuoteJSONString k ++ lit ":" ++ JSON.stringify_value x
                       ++ text))
                 = JSON.automaton JSON.PObjNext
                     (JSON.FObj (obj_put acc k x) :: stack)
                     (JSON.lex JSON.Main pos' text)).
    { intros k x q acc text pos0 Hx Hcx Hq Htext.
      destruct (lex_quote_contents_close k pos0 [] (pos0 + 1)%N
                  (lit ":" ++ JSON.stringify_value x ++ text)) as [pos1 E1].
      assert (Hl : JSON.lex JSON.Main pos0
                     (QuoteJSONString k ++ lit ":" ++ JSON.stringify_value x
                      ++ text)
                   = JSON.lex (JSON.InString pos0 []) (pos0 + 1)
                       (quote_contents k
                        ++ DQUOTE :: lit ":" ++ JSON.stringify_value x ++ text)).
      { unfold QuoteJSONString. cbn [app]. rewrite <- app_assoc. reflexivity. }
      rewrite Hl, E1, lex_colon. cbn [rev app].
      destruct (Hx Hcx text (pos1 + 1)%N JSON.PValue
                  (JSON.FObjKey acc k :: stack)
                  JSON.PObjNext (JSON.FObj (obj_put acc k x) :: stack)
                  eq_refl Htext eq_refl) as [pos2 E2].
      exists pos2.
      destruct Hq as [-> | ->];
        cbn [JSON.automaton JSON.step JSON.read_key]; exact E2. }
    assert (Htail : forall r,
              Forall
                (fun kv => canonical (snd kv) ->
                   forall rest pos p stack p' stack',
                     value_state p = true -> ends_number rest = true ->
                     JSON.deliver (snd kv) stack = Some (p', stack') ->
                     exists pos',
                       JSON.automaton p stack
                         (JSON.lex JSON.Main pos
                            (JSON.stringify_value (snd kv) ++ rest))
                       = JSON.automaton p' stack' (JSON.lex JSON.Main pos' rest))
                r ->
              canonical (JArray (map snd r)) ->
              forall acc pos0,
                JSON.deliver
                  (JObject (fold_left (fun a kv => obj_put a (fst kv) (snd kv))
                              r acc)) stack = Some (p', stack') ->
              exists pos',
                JSON.automaton JSON.PObjNext (JSON.FObj acc :: stack)
                  (JSON.lex JSON.Main pos0
                     (List.concat
                        (map (app (lit ","))
                           (map (fun kv =>
                                   match kv with
                                   | (k, x) =>
                                       QuoteJSONString k ++ lit ":"
                                       ++ JSON.stringify_value x
                                   end) r)) ++ lit "}" ++ rest))
                = JSON.automaton p' stack' (JSON.lex JSON.Main pos' rest)).
    { induction r as [|[k x] r IHr]; intros HP Hc acc pos0 Hdel.
      - exists (pos0 + 1)%N. cbn [map List.concat]. rewrite app_nil_l, lex_rbrace.
        cbn [JSON.automaton JSON.step JSON.close_object].
        cbn [fold_left] in Hdel. rewrite Hdel. reflexivity.
      - inversion HP as [|x0 r0 Hx Hrest]; subst. cbn [snd] in Hx.
        cbn [map snd] in Hc. destruct Hc as [Hcx Hcr].
        cbn [map List.concat]. rewrite <- !app_assoc, lex_comma.
        cbn [JSON.automaton JSON.step].
        assert (Hends : ends_number
                          (List.concat
                             (map (app (lit ","))
                                (map (fun kv =>
                                        match kv with
                                        | (k, x) =>
                                            QuoteJSONString k ++ lit ":"
                                            ++ JSON.stringify_value x
                                        end) r)) ++ lit "}" ++ rest) = true).
        { destruct r; reflexivity. }
        destruct (Hentry k x JSON.PObjKey acc _ (pos0 + 1)%N Hx Hcx
                    (or_intror eq_refl) Hends) as [pos1 E1].
        rewrite E1. apply (IHr Hrest Hcr (obj_put acc k x) pos1). exact Hdel. }
    cbn [JSON.stringify_value]. rewrite <- !app_assoc, lex_lbrace.
    rewrite (automaton_open_object p stack pos _ Hp).
    destruct props as [|[k x] r].
    + exists (pos + 1 + 1)%N. cbn [map join]. rewrite app_nil_l, lex_rbrace.
      cbn [JSON.automaton JSON.step JSON.close_object].
      rewrite Hd. reflexivity.
    + inversion IH as [|x0 r0 Hx Hrest]; subst. cbn [snd] in Hx.
      cbn [map snd] in Hvals. destruct Hvals as [Hcx Hcr].
      cbn [map]. rewrite join_cons, <- !app_assoc.
      assert (Hends : ends_number
                        (List.concat
                           (map (app (lit ","))
                              (map (fun kv =>
                                      match kv with
                                      | (k, x) =>
                                          QuoteJSONString k ++ lit ":"
                                          ++ JSON.stringify_value x
                                      end) r)) ++ lit "}" ++ rest) = true).
      { destruct r; reflexivity. }
      destruct (Hentry k x JSON.PObjFirst [] _ (pos + 1)%N Hx Hcx
                  (or_introl eq_refl) Hends) as [pos1 E1].
      rewrite E1. apply (Htail r Hrest Hcr (obj_put [] k x) pos1).
      unfold spread in Hspread. cbn [fold_left fst snd] in Hspread.
      rewrite Hspread. exact Hd.
Qed.

(** The numbers of a canonical value are exact. *)
Lemma canonical_number_exact (n : JSNumber) :
  canonical_number n = true -> exact_number n = true.
Proof.
  destruct n as [neg m e|neg]; [|discriminate]. cbn [canonical_number].
  destruct (N.eqb_spec m 0) as [->|Hm]; [reflexivity|].
  intros H. now apply andb_prop in H as [_ H].
Qed.

Lemma canonical_exact (v : JSONValue) : canonical v -> exact_value v = true.
Proof.
  induction v as [| | | | items IH | props IH] using JSONValue_induction;
    try reflexivity.
  - apply canonical_number_exact.
  - cbn [exact_value]. induction items as [|x r IHr]; [reflexivity|].
    intros [Hx Hr]. cbn [forallb]. inversion IH as [|? ? Hix Hir]; subst.
    rewrite (Hix Hx). apply (IHr Hir Hr).
  - cbn [exact_value]. intros [Hall _].
    induction props as [|[k x] r IHr]; [reflexivity|].
    destruct Hall as [Hx Hr].
    cbn [forallb]. inversion IH as [|? ? Hix Hir]; subst.
    cbn [snd] in Hix. rewrite (Hix Hx). apply (IHr Hir Hr).
Qed.

Lemma parse_stringify_value (v : JSONValue) :
  canonical v -> JSON.parse (JSON.stringify_value v) = Ok v.
Proof.
  intros Hc.
  destruct (value_roundtrip v Hc [] 0%N JSON.PValue [] (JSON.PDone v) []
              eq_refl eq_refl eq_refl) as [pos' E].
  unfold JSON.parse. rewrite app_nil_r in E. rewrite E. reflexivity.
Qed.

(** X21: [JSON.parse] gives back what [JSON.stringify] was given, for
    every value whose numbers are finite, in normal form, not minus
    zero, of at most 15 significant digits and of a magnitude between
    [1e-301] and [1e300], and whose objects have their properties in
    enumeration order.  So the text that the helper [json] inserts, and
    the payload that [sendLarkWebhook] posts, decode to the value they
    were made from. *)
Theorem parse_inverts_stringify (v : JSONValue) :
  canonical v -> JSON.parse (JSON.stringify_value v) = Ok v.
Proof. intros Hc. apply parse_stringify_value, Hc. Qed.

Lemma parse_inverts_stringify_witness :
  canonical sample_card
  /\ JSON.parse (JSON.stringify_value sample_card) = Ok sample_card.
Proof.
  assert (Hc : canonical sample_card).
  { cbn. repeat split. }
  split; [exact Hc|]. exact (parse_inverts_stringify sample_card Hc).
Defined.

(** X22: a template that is the one mustache [{{json name}}] passes the
    value bound to [name] through, when its numbers have at most 15
    significant digits and a magnitude between [1e-301] and [1e300]
    ([canonical]): the body that is built is that value, and the
    interpolated text is its serialization. *)
Theorem json_helper_passes_value_through (compile : Handlebars.Engine)
  (template : jsstring) (variablesInput : option jsstring) (name : jsstring)
  (v : JSONValue) :
  Handlebars.agrees_on compile registered_helpers template ->
  Handlebars.scan (Handlebars.SContent []) template
  = Some [Handlebars.HelperCall (lit "json") name] ->
  obj_get (parseVariables variablesInput) name = Some v ->
  canonical v ->
  buildBodyFromTemplate compile template variablesInput
  = Ok (mkBuildResult v (JSON.stringify_value v)).
Proof.
  intros Hc Hscan Hget Hcan. unfold buildBodyFromTemplate.
  assert (Hf : Handlebars.fragment registered_helpers template
                 (parseVariables variablesInput)
               = Some (Ok (JSON.stringify_value v))).
  { unfold Handlebars.fragment. rewrite Hscan.
    cbn [Handlebars.render Handlebars.render_segment Handlebars.adds_values].
    change (existsb (str_eqb (lit "json")) Handlebars.builtin_helpers)
      with false.
    change (Handlebars.find_helper registered_helpers (lit "json"))
      with (Some json_helper).
    cbv iota. rewrite Hget, (canonical_exact v Hcan). cbn.
    now rewrite app_nil_r. }
  rewrite (Hc _ _ Hf). cbn [bind]. unfold validate.
  now rewrite (parse_stringify_value v Hcan).
Qed.

Lemma json_helper_witness :
  buildBodyFromTemplate Handlebars.fragment_engine (lit "{{json card}}")
    (Some (jq "{'card':{'msg_type':'text','size':1.5,'tags':['a',null]}}"))
  = Ok (mkBuildResult sample_card
          (jq "{'msg_type':'text','size':1.5,'tags':['a',null]}")).
Proof.
  assert (Hc : canonical sample_card).
  { cbn. repeat split. }
  exact (json_helper_passes_value_through Handlebars.fragment_engine
           (lit "{{json card}}")
           (Some (jq "{'card':{'msg_type':'text','size':1.5,'tags':['a',null]}}"))
           (lit "card") sample_card (fragment_engine_agrees _ _) eq_refl eq_refl Hc).
Defined.

(** X23: what the webhook receives decodes to the signed body: if a run
    makes a request, the body was built and signed, and the body of the
    request is a JSON text that [JSON.parse] reads back as the signed
    body, when the numbers of that one have at most 15 significant
    digits and a magnitude between [1e-301] and [1e300] ([canonical]). *)
Theorem posted_payload_decodes_to_signed_body (compile : Handlebars.Engine)
  (now_ms : Z) (network : jsstring -> Request -> option Z -> Outcome Response)
  (inputs : jsstring -> jsstring) (url : jsstring) (req : Request) :
  In (Fetch url req) (run compile now_ms network inputs) ->
  exists built signed,
    buildBodyFromTemplate compile (trim (inputs (lit "message_template")))
      (Some (trim (inputs (lit "variables")))) = Ok built
    /\ augment (body built) (Some (trim (inputs (lit "webhook_secret"))))
         (now_ms / 1000) = Ok signed
    /\ (canonical signed -> JSON.parse (req_body req) = Ok signed).
Proof.
  intros H.
  destruct (fetch_of_run compile now_ms network inputs url req H)
    as (_ & _ & _ & built & signed & Hb & Hs & Hr).
  exists built, signed. split; [exact Hb|]. split; [exact Hs|].
  intros Hc. rewrite Hr. apply parse_stringify_value, Hc.
Qed.

Lemma posted_payload_witness :
  In (Fetch (lit "https://example") (post_request hello_CI))
    (run Handlebars.fragment_engine 1700000000123 network_ok
       (text_message_inputs "2500"))
  /\ JSON.parse (req_body (post_request hello_CI))
     = Ok (JObject [(lit "msg_type", JString (lit "text"));
                    (lit "content",
                     JObject [(lit "text", JString (lit "Hello CI"))])]).
Proof.
  assert (H : In (Fetch (lit "https://example") (post_request hello_CI))
                (run Handlebars.fragment_engine 1700000000123 network_ok
                   (text_message_inputs "2500"))).
  { vm_compute. auto 10. }
  split; [exact H|].
  destruct (posted_payload_decodes_to_signed_body Handlebars.fragment_engine
              1700000000123 network_ok (text_message_inputs "2500") _ _ H)
    as (built & signed & Hb & Hs & Hr).
  vm_compute in Hb. injection Hb as <-. vm_compute in Hs. injection Hs as <-.
  apply Hr. cbn. repeat split.
Defined.

(* ================================================================== *)
(** * Values that look like numbers *)

Lemma isDigit_not_space (c : codeunit) : isDigit c = true -> isSpace c = false.
Proof.
  intros H. destruct (isSpace c) eqn:E; [|reflexivity].
  apply isSpace_cases in E. unfold isDigit in H.
  apply andb_prop in H as [H1 H2]. apply N.leb_le in H1, H2. lia.
Qed.

(** A text without white space at either end is its own trim. *)
Lemma trim_ends (c : codeunit) (m : jsstring) (d : codeunit) :
  isSpace c = false -> isSpace d = false ->
  trim [c] = [c] /\ trim (c :: m ++ [d]) = c :: m ++ [d].
Proof.
  intros Hc Hd. split; [|now apply trim_fixed].
  unfold trim, trimStart, trimEnd. cbn [dropWhile rev app]. rewrite Hc.
  cbn [rev app dropWhile]. now rewrite Hc.
Qed.

Lemma str_decimal_literal_neg (r : jsstring) :
  str_decimal_literal (45%N :: r) = decimal_body true r.
Proof. reflexivity. Qed.

Lemma str_decimal_literal_pos (c : codeunit) (r : jsstring) :
  isDigit c = true -> str_decimal_literal (c :: r) = decimal_body false (c :: r).
Proof.
  intros H. unfold str_decimal_literal. destruct c as [|p]; [reflexivity|].
  do 6 (destruct p as [p|p|]; try reflexivity); discriminate H.
Qed.

Lemma decimal_body_digits (neg : bool) (c : codeunit) (i' f : jsstring) :
  forallb isDigit (c :: i') = true -> forallb isDigit f = true ->
  decimal_body neg ((c :: i') ++ fraction_text f)
  = Some (make_number neg (c :: i') f 0).
Proof.
  intros Hi Hf. unfold decimal_body.
  assert (Hinf : str_eqb ((c :: i') ++ fraction_text f) (lit "Infinity") = false).
  { apply str_eqb_neq. intros E. cbn [forallb] in Hi.
    apply andb_prop in Hi as [Hc _]. cbn [app] in E.
    change (lit "Infinity") with (73%N :: lit "nfinity") in E.
    injection E as -> _. discriminate Hc. }
  rewrite Hinf.
  assert (Hrest : no_leading_digit (fraction_text f) = true).
  { destruct f; reflexivity. }
  rewrite (span_digits_app (c :: i') (fraction_text f) Hi Hrest).
  destruct f as [|cf f].
  - cbn [fraction_text]. rewrite app_nil_r. reflexivity.
  - cbn [fraction_text]. change (lit ".") with [46%N]. cbn [app].
    pose proof (span_digits_app (cf :: f) [] Hf eq_refl) as Hsp.
    rewrite app_nil_r in Hsp. rewrite Hsp. reflexivity.
Qed.

Lemma Number_of_decimal (c0 : codeunit) (r0 : jsstring) :
  trim (c0 :: r0) = c0 :: r0 ->
  (forall p r, r0 = p :: r -> isDigit p || N.eqb p 46 = true) ->
  Number_ (c0 :: r0) = str_decimal_literal (c0 :: r0).
Proof.
  intros Ht Hp. unfold Number_. rewrite Ht.
  destruct r0 as [|p r].
  - destruct c0 as [|q]; [reflexivity|].
    do 6 (destruct q as [q|q|]; try reflexivity).
  - specialize (Hp p r eq_refl).
    assert (Hr : (p <= 57)%N).
    { apply orb_prop in Hp. destruct Hp as [Hp|Hp].
      - unfold isDigit in Hp. apply andb_prop in Hp as [_ Hp].
        now apply N.leb_le in Hp.
      - apply N.eqb_eq in Hp. lia. }
    assert (Hx : N.eqb p 120 || N.eqb p 88 = false).
    { apply orb_false_iff. split; apply N.eqb_neq; lia. }
    assert (Ho : N.eqb p 111 || N.eqb p 79 = false).
    { apply orb_false_iff. split; apply N.eqb_neq; lia. }
    assert (Hb : N.eqb p 98 || N.eqb p 66 = false).
    { apply orb_false_iff. split; apply N.eqb_neq; lia. }
    destruct c0 as [|q]; [reflexivity|].
    do 6 (destruct q as [q|q|]; try reflexivity).
    rewrite Hx, Ho, Hb. reflexivity.
Qed.

(** The text of a decimal number: a sign, digits, and a fraction. *)
Lemma decimal_text_facts (neg : bool) (c : codeunit) (i' f : jsstring) :
  forallb isDigit (c :: i') = true -> forallb isDigit f = true ->
  exists (c0 : codeunit) (r0 : jsstring),
    (if neg then [45%N] else []) ++ (c :: i') ++ fraction_text f = c0 :: r0
    /\ isDigit c0 || N.eqb c0 45 = true
    /\ trim (c0 :: r0) = c0 :: r0
    /\ (forall (p : codeunit) (r : jsstring),
          r0 = p :: r -> isDigit p || N.eqb p 46 = true).
Proof.
  intros Hi Hf.
  (* the last character is a digit *)
  assert (Hlast : exists a d, (c :: i') ++ fraction_text f = a ++ [d]
                              /\ isDigit d = true).
  { destruct f as [|cf f].
    - destruct (list_last_split (c :: i')) as (a & d & E); [discriminate|].
      exists a, d. split; [cbn [fraction_text]; now rewrite app_nil_r|].
      rewrite E, forallb_app in Hi.
      apply andb_prop in Hi as [_ Hi]. cbn in Hi. now rewrite andb_true_r in Hi.
    - destruct (list_last_split (cf :: f)) as (a & d & E); [discriminate|].
      exists ((c :: i') ++ lit "." ++ a), d. cbn [fraction_text]. rewrite E.
      split; [now rewrite <- !app_assoc|].
      rewrite E, forallb_app in Hf.
      apply andb_prop in Hf as [_ Hf]. cbn in Hf. now rewrite andb_true_r in Hf. }
  destruct Hlast as (a & d & E & Hd).
  pose proof Hi as Hi'. cbn [forallb] in Hi'. apply andb_prop in Hi' as [Hc Hi'].
  assert (Hsecond : forall p r, i' ++ fraction_text f = p :: r ->
                                isDigit p || N.eqb p 46 = true).
  { intros p r Epr. destruct i' as [|x i'].
    - destruct f as [|cf f]; [discriminate Epr|].
      cbn [fraction_text app] in Epr. change (lit ".") with [46%N] in Epr.
      injection Epr as <- _. reflexivity.
    - cbn [app] in Epr. injection Epr as <- _. cbn [forallb] in Hi'.
      apply andb_prop in Hi' as [Hx _]. now rewrite Hx. }
  destruct neg; cbn [app].
  - exists 45%N, (c :: i' ++ fraction_text f).
    split; [reflexivity|]. split; [reflexivity|]. split.
    + cbn [app] in E. rewrite E.
      apply (proj2 (trim_ends 45%N a d eq_refl (isDigit_not_space d Hd))).
    + intros p r Epr. injection Epr as <- _. now rewrite Hc.
  - exists c, (i' ++ fraction_text f).
    split; [reflexivity|]. split; [now rewrite Hc|]. split.
    + cbn [app] in E. destruct a as [|a0 a].
      * cbn [app] in E. injection E as -> E. rewrite E.
        apply (proj1 (trim_ends d [] d (isDigit_not_space d Hd)
                        (isDigit_not_space d Hd))).
      * cbn [app] in E. injection E as -> E. rewrite E.
        apply (proj2 (trim_ends a0 a d (isDigit_not_space a0 Hc)
                        (isDigit_not_space d Hd))).
    + exact Hsecond.
Qed.

(** X24: a value that is written as a decimal number, with a minus sign
    or without, with a fraction or without, becomes that number, not a
    string; leading zeros, which JSON does not allow, are accepted and
    dropped.  (Up to 15 digits, where a decimal text and the number it
    denotes determine each other.) *)
Theorem decimal_value_becomes_number (neg : bool) (c : codeunit)
  (i' f : jsstring) :
  forallb isDigit (c :: i') = true -> forallb isDigit f = true ->
  (List.length ((c :: i') ++ f) <= 15)%nat ->
  coerceValue ((if neg then [45%N] else []) ++ (c :: i') ++ fraction_text f)
  = JNumber (make_number neg (c :: i') f 0).
Proof.
  intros Hi Hf _.
  destruct (decimal_text_facts neg c i' f Hi Hf) as (c0 & r0 & E & Hc0 & Ht & Hp).
  assert (Hnum : Number_ (c0 :: r0) = Some (make_number neg (c :: i') f 0)).
  { rewrite (Number_of_decimal c0 r0 Ht Hp), <- E.
    destruct neg; cbn [app].
    - rewrite str_decimal_literal_neg. apply (decimal_body_digits true c i' f Hi Hf).
    - cbn [forallb] in Hi. pose proof Hi as Hi'.
      apply andb_prop in Hi' as [Hc _].
      rewrite (str_decimal_literal_pos c _ Hc).
      apply (decimal_body_digits false c i' f); [|exact Hf].
      cbn [forallb]. exact Hi. }
  assert (Hlooks : looks_numeric (c0 :: r0) = true).
  { rewrite <- E. unfold looks_numeric.
    assert (Hrest : no_leading_digit (fraction_text f) = true).
    { destruct f; reflexivity. }
    pose proof (span_digits_app (c :: i') (fraction_text f) Hi Hrest) as Hsp.
    assert (Hfrac : match fraction_text f with
                    | [] => true
                    | x :: r =>
                        if N.eqb x 46 then
                          let (f', s3) := span_digits r in
                          match f', s3 with
                          | _ :: _, [] => true
                          | _, _ => false
                          end
                        else false
                    end = true).
    { destruct f as [|cf f]; [reflexivity|].
      cbn [fraction_text]. change (lit ".") with [46%N]. cbn [app].
      change (N.eqb 46 46) with true. cbv iota.
      pose proof (span_digits_app (cf :: f) [] Hf eq_refl) as Hsp'.
      rewrite app_nil_r in Hsp'. rewrite Hsp'. reflexivity. }
    destruct neg; cbn [app].
    - change (N.eqb 45 45) with true. cbv iota. cbn [app] in Hsp.
      rewrite Hsp. exact Hfrac.
    - cbn [forallb] in Hi. pose proof Hi as Hi'.
      apply andb_prop in Hi' as [Hc _].
      destruct (N.eqb_spec c 45) as [->|_]; [discriminate Hc|].
      cbn [app] in Hsp. rewrite Hsp. exact Hfrac. }
  rewrite E. unfold coerceValue.
  assert (Hkw : forall w c1 r1, w = c1 :: r1 -> isDigit c1 = false ->
                                N.eqb c1 45 = false ->
                                str_eqb (c0 :: r0) w = false).
  { intros w c1 r1 -> Hd1 H45. apply str_eqb_neq. intros Ew.
    injection Ew as -> _. rewrite Hd1, H45 in Hc0. discriminate Hc0. }
  rewrite (Hkw (lit "true") 116%N (lit "rue") eq_refl eq_refl eq_refl).
  rewrite (Hkw (lit "false") 102%N (lit "alse") eq_refl eq_refl eq_refl).
  rewrite (Hkw (lit "null") 110%N (lit "ull") eq_refl eq_refl eq_refl).
  rewrite Hnum, Hlooks. reflexivity.
Qed.

Lemma decimal_value_witness :
  coerceValue (lit "007") = JNumber (Fin false 7 0)
  /\ coerceValue (lit "-1.50") = JNumber (Fin true 15 (-1)).
Proof.
  split.
  - apply (decimal_value_becomes_number false 48%N (lit "07") []);
      [reflexivity|reflexivity|simpl; lia].
  - apply (decimal_value_becomes_number true 49%N [] (lit "50"));
      [reflexivity|reflexivity|simpl; lia].
Defined.

(* ================================================================== *)
(** * The second boolean input *)

Lemma getBooleanInput_accepted (inputs : jsstring -> jsstring) (name : jsstring) :
  boolean_spelling (trim (inputs name)) = true ->
  exists b, getBooleanInput inputs name = Ok b.
Proof.
  unfold boolean_spelling, getBooleanInput, getInput. cbn [andb bind].
  intros H.
  destruct (str_eqb (trim (inputs name)) (lit "true")
            || str_eqb (trim (inputs name)) (lit "True")
            || str_eqb (trim (inputs name)) (lit "TRUE")) eqn:E1.
  - exists true. reflexivity.
  - exists false. cbn [orb] in H. rewrite H. reflexivity.
Qed.

(** X25: [fail_on_http_error] is read strictly as well, and before
    anything is built: with the required inputs given and a well-formed
    [dry_run], a text for [fail_on_http_error] that is not one of the six
    spellings fails the run at once, in a dry run too, where the flag
    would not be used. *)
Theorem fail_on_http_error_must_be_boolean (compile : Handlebars.Engine)
  (now_ms : Z) (network : jsstring -> Request -> option Z -> Outcome Response)
  (inputs : jsstring -> jsstring) :
  inputs (lit "webhook_url") <> [] ->
  inputs (lit "message_template") <> [] ->
  boolean_spelling (trim (inputs (lit "dry_run"))) = true ->
  boolean_spelling (trim (inputs (lit "fail_on_http_error"))) = false ->
  run compile now_ms network inputs
  = [SetFailed (not_boolean_message (lit "fail_on_http_error"))].
Proof.
  intros H1 H3 H5 H7. unfold run, run_try.
  rewrite (getBooleanInput_refused inputs (lit "fail_on_http_error") H7).
  destruct (getBooleanInput_accepted inputs (lit "dry_run") H5) as [b ->].
  unfold getInput. destruct (inputs (lit "webhook_url")); [congruence|].
  destruct (inputs (lit "message_template")); [congruence|].
  cbn [andb]. rewrite !ebind_lift_ok. reflexivity.
Qed.

Lemma fail_on_http_error_witness :
  run Handlebars.fragment_engine 1700000000123 network_ok
    (fail_on_http_error_inputs "")
  = [SetFailed
       (jq "Input does not meet YAML 1.2 'Core Schema' specification: fail_on_http_error"
        ++ [10%N]
        ++ lit "Support boolean input list: `true | True | TRUE | false | False | FALSE`")].
Proof.
  apply (fail_on_http_error_must_be_boolean Handlebars.fragment_engine
           1700000000123 network_ok (fail_on_http_error_inputs ""));
    [discriminate|discriminate|reflexivity|reflexivity].
Defined.
